(** * EventPulse: the extractor and the metrics engine, embedded in Rocq

    Source files: [src/extract_events.py] (workbook scanning),
    [src/analyzer.py] (summary, engagement score, report pipeline) and
    [run.py] (the script that runs both and opens the dashboard).

    Conventions of the embedding.
    - A sheet read with [pd.read_excel(..., header=None)] is a grid of Python
      values: [str], [int], [float], [bool], [datetime], or empty (NaN).
      Rows may have different lengths in the model; pandas pads with NaN,
      and so does [iloc] here.
    - Python [int] is [Z].  Python [float] is [Q]: arithmetic is exact, and
      there is no infinity and no NaN.  Where the source would divide by
      zero this is written out at the place.  The square root inside
      [np.std] is taken to twelve decimals.
    - [str] is [string]; [len], [upper] and [lower] act on ASCII.
    - A [dict] with string keys is a [gmap string _].
    - [print] calls are kept in the analyzer pipeline and in [run.py],
      where what is reported is part of what is verified. *)

From Stdlib Require Import ZArith QArith Qround Lqa Lia List Bool Ascii String.
From Stdlib Require Import DecimalString Sorted.
From stdpp Require Import gmap strings.
Import ListNotations.

Open Scope Z_scope.

(** ** Python primitives *)

Module Py.

(** [sub in s] *)
Fixpoint contains (sub s : string) : bool :=
  if String.prefix sub s then true
  else match s with
       | EmptyString => false
       | String _ s' => contains sub s'
       end.

Definition upper_char (c : ascii) : ascii :=
  let n := nat_of_ascii c in
  if ((97 <=? n) && (n <=? 122))%nat then ascii_of_nat (n - 32) else c.

Definition lower_char (c : ascii) : ascii :=
  let n := nat_of_ascii c in
  if ((65 <=? n) && (n <=? 90))%nat then ascii_of_nat (n + 32) else c.

Fixpoint map_chars (f : ascii -> ascii) (s : string) : string :=
  match s with
  | EmptyString => EmptyString
  | String c s' => String (f c) (map_chars f s')
  end.

(** [s.upper()], [s.lower()] on ASCII text.  Other characters are left
    as they are, where Python maps some of them (['ß'.upper()] is ['SS']):
    on text that is not ASCII the two may differ from Python's. *)
Definition upper : string -> string := map_chars upper_char.
Definition lower : string -> string := map_chars lower_char.

(** [s.endswith(suffix)] *)
Definition endswith (s suffix : string) : bool :=
  let n := String.length s in
  let k := String.length suffix in
  ((k <=? n)%nat && String.eqb (String.substring (n - k) k s) suffix).

(** [range(a, b)] *)
Definition range (a b : nat) : list nat := seq a (b - a).

(** Comparisons on floats. *)
Definition Qleb (a b : Q) : bool := Qle_bool a b.
Definition Qltb (a b : Q) : bool := negb (Qle_bool b a).

(** [max(a, b)] keeps [a] unless [b > a]; [min(a, b)] keeps [a] unless
    [b < a]. *)
Definition max (a b : Q) : Q := if Qltb a b then b else a.
Definition min (a b : Q) : Q := if Qltb b a then b else a.

Definition pow10 (n : nat) : positive := Nat.iter n (Pos.mul 10) 1%positive.

(** Nearest integer, ties to the even one. *)
Definition round_half_even (q : Q) : Z :=
  let f := Qfloor q in
  match Qcompare (q - inject_Z f) (1 # 2) with
  | Lt => f
  | Gt => f + 1
  | Eq => if Z.even f then f else f + 1
  end.

(** [round(q, ndigits)] *)
Definition round (q : Q) (ndigits : nat) : Q :=
  Qred (round_half_even (q * inject_Z (Zpos (pow10 ndigits))) # pow10 ndigits).

(** [int(q)] on a float: truncation towards zero. *)
Definition trunc (q : Q) : Z := Z.quot (Qnum q) (Zpos (Qden q)).

Definition Qsum (l : list Q) : Q := fold_left Qplus l 0%Q.
Definition Zsum (l : list Z) : Z := fold_left Z.add l 0.

(** [np.mean(l)] on a non-empty list. *)
Definition mean (l : list Q) : Q := (Qsum l / inject_Z (Z.of_nat (length l)))%Q.

(** Square root of a non-negative rational, to twelve decimals (a float
    carries about sixteen significant digits). *)
Definition sqrt (q : Q) : Q :=
  Z.sqrt (Qfloor (q * inject_Z (Zpos (pow10 24)))) # pow10 12.

(** [np.std(l)]: the population standard deviation, as an exact value.
    numpy computes it in floats and is off by a rounding error (on three
    equal rates of 85.4 it returns 1.42e-14 and not 0): statements below
    rest on its sign and range, not on its last digits. *)
Definition std (l : list Q) : Q :=
  let m := mean l in
  sqrt (mean (map (fun x => (x - m) * (x - m))%Q l)).

Definition string_of_Z (z : Z) : string := NilZero.string_of_int (Z.to_int z).

Definition is_space (c : ascii) : bool :=
  let n := nat_of_ascii c in ((n =? 32) || ((9 <=? n) && (n <=? 13)))%nat.

Definition digit_of (c : ascii) : option Z :=
  let n := nat_of_ascii c in
  if ((48 <=? n) && (n <=? 57))%nat then Some (Z.of_nat (n - 48)) else None.

Fixpoint lstrip (s : string) : string :=
  match s with
  | String c s' => if is_space c then lstrip s' else s
  | EmptyString => EmptyString
  end.

(** Digits of an [int] literal: single underscores between digits are
    allowed; trailing white space ends the number. *)
Fixpoint digits (acc : Z) (after_digit : bool) (s : string) : option Z :=
  match s with
  | EmptyString => if after_digit then Some acc else None
  | String c s' =>
      match digit_of c with
      | Some d => digits (10 * acc + d) true s'
      | None =>
          if Ascii.eqb c "_" then
            if after_digit then
              match s' with
              | String c' _ =>
                  match digit_of c' with
                  | Some _ => digits acc false s'
                  | None => None
                  end
              | EmptyString => None
              end
            else None
          else if is_space c then
            if after_digit then
              match lstrip s with EmptyString => Some acc | _ => None end
            else None
          else None
      end
  end.

(** [int(s)] on a string; [None] is [ValueError]. *)
Definition int_of_string (s : string) : option Z :=
  match lstrip s with
  | String "-" s' => option_map Z.opp (digits 0 false s')
  | String "+" s' => digits 0 false s'
  | s' => digits 0 false s'
  end.

End Py.

(** ** Sheets as grids of cells *)

(** A value of the frame that [pd.read_excel] returns.  A [datetime] is
    carried in its ['%Y-%m-%d'] rendering.  A text that pandas reads as
    missing (['n/a'], ['NA'], ['null'], ...) is [CEmpty] in the frame. *)
Inductive Cell :=
| CEmpty
| CText (s : string)
| CInt (z : Z)
| CFloat (q : Q)
| CBool (b : bool)
| CDate (d : string).

Abbreviation Grid := (list (list Cell)).

Definition nrows (g : Grid) : nat := length g.

(** [len(df.columns)]: the width of the widest row. *)
Definition ncols (g : Grid) : nat := fold_right Nat.max 0%nat (map (@length Cell) g).

(** [df.iloc[i, j]] within the frame. *)
Definition iloc (g : Grid) (i j : nat) : Cell := nth j (nth i g []) CEmpty.

(** The column is of dtype int64: every cell of it is an integer.
    [df.iloc[i, k]] is then a [numpy.int64], which is neither an [int] nor
    a [float] for [isinstance]; in any other column an integer comes as a
    Python [int] (dtype object) or as a float of the same value (dtype
    float64). *)
Definition int64_column (g : Grid) (k : nat) : bool :=
  (0 <? nrows g)%nat &&
  forallb (fun row => match nth k row CEmpty with CInt _ => true | _ => false end) g.

(** [pd.notna(v)] *)
Definition notna (c : Cell) : bool :=
  match c with CEmpty => false | _ => true end.

(** Digits after the decimal point of [r / d], at most [n] of them. *)
Fixpoint frac_digits (n : nat) (r d : Z) : string :=
  match n with
  | O => EmptyString
  | S n' =>
      if r =? 0 then EmptyString
      else
        let digit := Py.string_of_Z (10 * r / d) in
        let rest := frac_digits n' (10 * r mod d) d in
        (digit ++ rest)%string
  end.

(** [str(v)].  A float is printed in positional notation; Python switches
    to an exponent for very large and very small ones.  Either way the text
    of a number holds digits, a sign, a point and at most the letter e. *)
Definition py_str (c : Cell) : string :=
  match c with
  | CEmpty => "nan"
  | CText s => s
  | CInt z => Py.string_of_Z z
  | CFloat q =>
      let n := Qnum q in
      let d := Zpos (Qden q) in
      let a := Z.abs n in
      let frac := frac_digits 16 (a mod d) d in
      let sign : string := if n <? 0 then "-" else "" in
      let whole := Py.string_of_Z (a / d) in
      (sign ++ whole ++ "." ++
       (if String.eqb frac "" then "0" else frac))%string
  | CBool b => if b then "True" else "False"
  | CDate d => (d ++ " 00:00:00")%string
  end.

(** The text a scan looks at: [str(v) if pd.notna(v) else ''] *)
Definition cell_text (c : Cell) : string :=
  if notna c then py_str c else "".

(** [int(v)]; [None] when Python raises ([ValueError] on text that is not
    a number, [TypeError] on a date). *)
Definition py_int (c : Cell) : option Z :=
  match c with
  | CEmpty => None
  | CText s => Py.int_of_string s
  | CInt z => Some z
  | CFloat q => Some (Py.trunc q)
  | CBool b => Some (if b then 1 else 0)
  | CDate _ => None
  end.

(** Truth value of a cell in [if v:]. *)
Definition truthy (c : Cell) : bool :=
  match c with
  | CEmpty => true
  | CText s => negb (String.eqb s "")
  | CInt z => negb (z =? 0)
  | CFloat q => negb (Qeq_bool q 0)
  | CBool b => b
  | CDate _ => true
  end.

(** Positions of a grid in the order of the nested loops
    [for i in range(len(df)): for j in range(len(df.columns))]. *)
Definition positions (g : Grid) : list (nat * nat) :=
  flat_map (fun i => map (pair i) (Py.range 0 (ncols g))) (Py.range 0 (nrows g)).

(** A workbook: each named sheet, or [None] when reading it raises. *)
Record Workbook := {
  Overview : option Grid;
  RSVP_Snapshot : option Grid;
  Budget : option Grid;
  Attendee_Data : option Grid
}.

(** A loop that leaves with [break] as soon as its body has found a value:
    the first value found, in the order of iteration. *)
Fixpoint first_some {A B : Type} (f : A -> option B) (l : list A) : option B :=
  match l with
  | [] => None
  | x :: l' =>
      match f x with
      | Some y => Some y
      | None => first_some f l'
      end
  end.

(** ** src/extract_events.py *)

Module Extractor.

(** *** extract_budget_data *)

(** ['Overall Total' in cell or 'TOTAL' in cell.upper()] *)
Definition budget_label (cell : string) : bool :=
  Py.contains "Overall Total" cell || Py.contains "TOTAL" (Py.upper cell).

(** [isinstance(val, (int, float))] for [val = budget.iloc[i, k]].  A
    [bool] of a column of dtype object is an [int] in Python. *)
Definition int_or_float (budget : Grid) (i k : nat) : bool :=
  match iloc budget i k with
  | CInt _ => negb (int64_column budget k)
  | CFloat _ => true
  | CBool _ => existsb (fun row => match nth k row CEmpty with
                                   | CBool _ => false
                                   | _ => true
                                   end) budget
  | CEmpty => true
  | CText _ | CDate _ => false
  end.

(** [val > 100], yielding [float(val)]. *)
Definition above_100 (val : Cell) : option Q :=
  match val with
  | CInt z => if 100 <? z then Some (inject_Z z) else None
  | CFloat q => if Py.Qltb 100 q then Some q else None
  | CBool _ | CEmpty | CText _ | CDate _ => None
  end.

(** [pd.notna(val) and isinstance(val, (int, float)) and val > 100] *)
Definition budget_value (budget : Grid) (i k : nat) : option Q :=
  if notna (iloc budget i k) && int_or_float budget i k
  then above_100 (iloc budget i k) else None.

(** [for k in range(j+1, min(j+5, len(budget.columns)))] *)
Definition budget_right_of (budget : Grid) (i j : nat) : option Q :=
  first_some (budget_value budget i)
             (Py.range (j + 1) (Nat.min (j + 5) (ncols budget))).

Definition budget_at (budget : Grid) (i j : nat) : option Q :=
  if budget_label (cell_text (iloc budget i j)) then budget_right_of budget i j
  else None.

Definition budget_scan (budget : Grid) : option Q :=
  first_some (fun i => first_some (budget_at budget i) (Py.range 0 (ncols budget)))
             (Py.range 0 (nrows budget)).

Definition extract_budget_data (sheet : option Grid) : option Q :=
  match sheet with
  | Some budget => budget_scan budget
  | None => None
  end.

(** *** extract_demographics *)

Definition demographics0 : gmap string Z :=
  <["Freshman" := 0]> (<["Sophomore" := 0]> (<["Junior" := 0]> (<["Senior" := 0]>
  (<["Graduate" := 0]> (<["Alumni" := 0]> (<["Other" := 0]> ∅)))))).

(** [d[key] += 1] *)
Definition incr (key : string) (d : gmap string Z) : gmap string Z :=
  <[key := d !!! key + 1]> d.

Definition count_cell (val : string) (d : gmap string Z) : gmap string Z :=
  if Py.contains "freshman" val then incr "Freshman" d
  else if Py.contains "sophmore" val || Py.contains "sophomore" val then incr "Sophomore" d
  else if Py.contains "junior" val then incr "Junior" d
  else if Py.contains "senior" val then incr "Senior" d
  else if Py.contains "graduate" val || Py.contains "grad" val
          || Py.contains "masters" val || Py.contains "phd" val then incr "Graduate" d
  else if Py.contains "alumni" val then incr "Alumni" d
  else d.

Definition count_cells (attendees : Grid) : gmap string Z :=
  fold_left (fun d '(i, j) => count_cell (Py.lower (cell_text (iloc attendees i j))) d)
            (positions attendees) demographics0.

(** [sum(d.values())] *)
Definition dict_sum (d : gmap string Z) : Z :=
  map_fold (fun _ v acc => acc + v) 0 d.

Definition extract_demographics (sheet : option Grid) : option (gmap string Z) :=
  match sheet with
  | Some attendees =>
      let demographics := count_cells attendees in
      if 5 <? dict_sum demographics then Some demographics else None
  | None => None
  end.

(** *** extract_event_from_workbook *)

(** The tests on a cell of the overview sheet that make it the name. *)
Definition name_at (val : Cell) : option string :=
  match val with
  | CText s =>
      if (3 <? String.length s)%nat
         && negb (Py.contains "Event" s) && negb (Py.contains "NaN" s)
      then Some s else None
  | _ => None
  end.

Definition find_event_name (overview : Grid) : option string :=
  first_some (fun i => first_some (fun j => name_at (iloc overview i j))
                                  (Py.range 0 (Nat.min 3 (ncols overview))))
             (Py.range 0 (Nat.min 5 (nrows overview))).

Definition date_at (overview : Grid) (i j : nat) : option Cell :=
  let val := iloc overview i j in
  if notna val then
    match val with
    | CDate _ => Some val
    | _ =>
        let left : string := if (0 <? j)%nat then py_str (iloc overview i (j - 1)) else "" in
        if Py.contains "Event Date" left then Some val else None
    end
  else None.

(** The outer loop leaves only on a true [event_date]; a false one (0, an
    empty text) stays until a later row replaces it. *)
Fixpoint date_rows (overview : Grid) (event_date : option Cell) (rows : list nat)
  : option Cell :=
  match rows with
  | [] => event_date
  | i :: rows' =>
      let event_date' :=
        match first_some (date_at overview i) (Py.range 0 (ncols overview)) with
        | Some val => Some val
        | None => event_date
        end in
      match event_date' with
      | Some val => if truthy val then event_date' else date_rows overview event_date' rows'
      | None => date_rows overview event_date' rows'
      end
  end.

Definition find_event_date (overview : Grid) : option Cell :=
  date_rows overview None (Py.range 0 (nrows overview)).

(** Attendance: the two variables the RSVP loop assigns. *)
Record Attendance := {
  registered : option Z;
  attended : option Z
}.

(** The loop runs inside [try: ... except Exception]: when [int(...)]
    raises, the scan ends and the assignments made so far stay. *)
Inductive Scan :=
| Running (a : Attendance)
| Raised (a : Attendance).

Definition scan_bind (s : Scan) (f : Attendance -> Scan) : Scan :=
  match s with
  | Running a => f a
  | Raised a => Raised a
  end.

Definition set_registered (rsvp : Grid) (i j : nat) (a : Attendance) : Scan :=
  if (j + 1 <? ncols rsvp)%nat && notna (iloc rsvp i (j + 1)) then
    match py_int (iloc rsvp i (j + 1)) with
    | Some z => Running {| registered := Some z; attended := attended a |}
    | None => Raised a
    end
  else Running a.

Definition set_attended (rsvp : Grid) (i j : nat) (a : Attendance) : Scan :=
  if (j + 2 <? ncols rsvp)%nat && notna (iloc rsvp i (j + 2)) then
    match py_int (iloc rsvp i (j + 2)) with
    | Some z => Running {| registered := registered a; attended := Some z |}
    | None => Raised a
    end
  else Running a.

(** The body shared by both rules. *)
Definition take_right (rsvp : Grid) (i j : nat) (a : Attendance) : Scan :=
  scan_bind (set_registered rsvp i j a) (set_attended rsvp i j).

(** ['TOTAL' in cell.upper() and 'RSVP' in cell.upper()] *)
Definition total_rsvp_label (cell : string) : bool :=
  Py.contains "TOTAL" (Py.upper cell) && Py.contains "RSVP" (Py.upper cell).

(** ['Raw Tickets' in cell] *)
Definition raw_tickets_label (cell : string) : bool :=
  Py.contains "Raw Tickets" cell.

Definition rsvp_cell (rsvp : Grid) (a : Attendance) (p : nat * nat) : Scan :=
  let '(i, j) := p in
  let cell := cell_text (iloc rsvp i j) in
  scan_bind (if total_rsvp_label cell then take_right rsvp i j a else Running a)
            (fun a' => if raw_tickets_label cell then take_right rsvp i j a' else Running a').

Fixpoint rsvp_scan (rsvp : Grid) (a : Attendance) (ps : list (nat * nat)) : Scan :=
  match ps with
  | [] => Running a
  | p :: ps' => scan_bind (rsvp_cell rsvp a p) (fun a' => rsvp_scan rsvp a' ps')
  end.

Definition no_attendance : Attendance := {| registered := None; attended := None |}.

Definition scan_result (s : Scan) : Attendance :=
  match s with Running a | Raised a => a end.

Definition extract_attendance (sheet : option Grid) : Attendance :=
  match sheet with
  | Some rsvp => scan_result (rsvp_scan rsvp no_attendance (positions rsvp))
  | None => no_attendance
  end.

(** The dictionary [extract_event_from_workbook] returns; ['Event Type']
    is added by [extract_all_events]. *)
Record EventData := {
  Event_Name : option string;
  Date : option Cell;
  Expected_Attendance : option Z;
  Actual_Attendance : option Z;
  Total_Budget : option Q;
  Demographics : option (gmap string Z);
  Event_Type : option string
}.

(** [None] when the overview sheet cannot be read (the outer [except]). *)
Definition extract_event_from_workbook (wb : Workbook) : option EventData :=
  match Overview wb with
  | None => None
  | Some overview =>
      let event_name := find_event_name overview in
      let event_date := find_event_date overview in
      let a := extract_attendance (RSVP_Snapshot wb) in
      let budget := extract_budget_data (Budget wb) in
      let demographics := extract_demographics (Attendee_Data wb) in
      Some {| Event_Name := event_name;
              Date := event_date;
              Expected_Attendance := registered a;
              Actual_Attendance := attended a;
              Total_Budget := budget;
              Demographics := demographics;
              Event_Type := None |}
  end.

(** *** determine_event_type *)

(** [any(x in name_lower for x in keywords)] *)
Definition any_in (keywords : list string) (name_lower : string) : bool :=
  existsb (fun x => Py.contains x name_lower) keywords.

Definition determine_event_type (event_name : option string) : string :=
  match event_name with
  | None => "Other"
  | Some name =>
      let name_lower := Py.lower name in
      if any_in ["garba"; "diwali"; "holi"; "navratri"] name_lower then "Cultural Festival"
      else if any_in ["bollywood"; "blackout"; "mehndi"; "sangeet"] name_lower then "Cultural Show"
      else if any_in ["formal"; "dinner"; "banquet"; "gala"] name_lower then "Formal"
      else if any_in ["sima"; "matchmaking"; "dating"] name_lower then "Social"
      else if any_in ["workshop"; "career"; "professional"; "networking"] name_lower then "Professional"
      else if any_in ["sports"; "cricket"; "volleyball"; "tournament"] name_lower then "Sports"
      else if any_in ["welcome"; "freshers"; "orientation"] name_lower then "Welcome"
      else "Cultural"
  end.

(** *** extract_all_events *)

(** [filename.endswith('.xlsx') and 'Event Management' in filename] *)
Definition selected (filename : string) : bool :=
  Py.endswith filename ".xlsx" && Py.contains "Event Management" filename.

(** [all_demographics[key] = all_demographics.get(key, 0) + val] for every
    item of one event's demographics. *)
Definition aggregate (d all_demographics : gmap string Z) : gmap string Z :=
  map_fold (fun key val acc => <[key := default 0 (acc !! key) + val]> acc)
           all_demographics d.

(** What one file of the listing adds: [event_data and event_data['Event Name']]
    decides whether the event is kept. *)
Definition keep_event (wb : Workbook) : option EventData :=
  match extract_event_from_workbook wb with
  | Some event_data =>
      match Event_Name event_data with
      | Some name =>
          if negb (String.eqb name "") then
            Some {| Event_Name := Event_Name event_data;
                    Date := Date event_data;
                    Expected_Attendance := Expected_Attendance event_data;
                    Actual_Attendance := Actual_Attendance event_data;
                    Total_Budget := Total_Budget event_data;
                    Demographics := Demographics event_data;
                    Event_Type := Some (determine_event_type (Event_Name event_data)) |}
          else None
      | None => None
      end
  | None => None
  end.

Definition process_file (acc : list EventData * gmap string Z) (file : string * Workbook)
  : list EventData * gmap string Z :=
  let '(events, all_demographics) := acc in
  let '(filename, wb) := file in
  if selected filename then
    match keep_event wb with
    | Some event_data =>
        (events ++ [event_data],
         match Demographics event_data with
         | Some d => aggregate d all_demographics
         | None => all_demographics
         end)
    | None => acc
    end
  else acc.

(** [data_folder] is the listing of the folder: file names with the
    workbook each one holds, in [os.listdir] order. *)
Definition extract_all_events (data_folder : list (string * Workbook))
  : list EventData * gmap string Z :=
  fold_left process_file data_folder ([], ∅).

End Extractor.

(** ** src/analyzer.py *)

(** Exceptions and results of code that may raise. *)
Inductive Exc :=
| ValueError (msg : string)
| TypeError (msg : string)
| KeyError (msg : string)
| AttributeError (msg : string)
| ZeroDivisionError.

Inductive Res (A : Type) :=
| Ok (a : A)
| Raise (e : Exc).
Arguments Ok {A} a.
Arguments Raise {A} e.

Definition res_bind {A B : Type} (r : Res A) (f : A -> Res B) : Res B :=
  match r with
  | Ok a => f a
  | Raise e => Raise e
  end.

Declare Scope res_scope.
Delimit Scope res_scope with res.
Notation "x <- r ;; k" := (res_bind r (fun x => k))
  (at level 100, r at next level, right associativity) : res_scope.

Fixpoint res_map {A B : Type} (f : A -> Res B) (l : list A) : Res (list B) :=
  match l with
  | [] => Ok []
  | x :: l' =>
      (y <- f x ;; ys <- res_map f l' ;; Ok (y :: ys))%res
  end.

(** Division.  On a zero denominator Python raises [ZeroDivisionError] for
    its own numbers and numpy yields [inf] or [nan]; the model, which has
    neither, stops in both cases. *)
Definition div (a b : Q) : Res Q :=
  if Qeq_bool b 0 then Raise ZeroDivisionError else Ok (a / b)%Q.

Module Analyzer.

(** One row of the 'Events' sheet of the compiled dataset.  An empty
    cell of a numeric column is [None] (NaN). *)
Record Row := {
  Event_Name : string;
  Date : string;
  Event_Type : string;
  Expected_Attendance : option Z;
  Actual_Attendance : option Z;
  Total_Budget : option Q
}.

Abbreviation DataFrame := (list Row).

Inductive Grade :=
| D | C_minus | C | C_plus | B_minus | B | B_plus | A_minus | A | A_plus.

(** The text of a grade in the result document. *)
Definition grade_text (g : Grade) : string :=
  match g with
  | A_plus => "A+" | A => "A" | A_minus => "A-"
  | B_plus => "B+" | B => "B" | B_minus => "B-"
  | C_plus => "C+" | C => "C" | C_minus => "C-"
  | D => "D"
  end.

Record Breakdown := {
  attendance : Q;
  consistency : Q;
  growth : Q;
  efficiency : Q
}.

Record EngagementScore := {
  score : Q;
  grade : Grade;
  breakdown : Breakdown
}.

(** An entry of [summary['events']]. *)
Record EventDetail := {
  name : string;
  type : string;
  date : string;
  expected : Z;
  actual : Z;
  event_attendance_rate : Q;
  budget : option Q;
  event_cost_per_attendee : option Q
}.

(** The summary dictionary; a key that may be missing is an [option]. *)
Record Summary := {
  total_events : Z;
  date_range : string * string;
  event_types : gmap string Z;
  avg_attendance : Q;
  total_attendees : Z;
  total_registered : Z;
  attendance_rate : Q;
  total_budget : option Q;
  avg_budget_per_event : option Q;
  cost_per_attendee : option Q;
  avg_cost_per_attendee : option Q;
  best_performing_event : string;
  highest_attendance : Z;
  best_conversion_event : string;
  best_conversion_rate : Q;
  events : list EventDetail;
  demographics : option (gmap string Z);
  engagement_score : option EngagementScore
}.

(** *** calculate_engagement_score *)

Local Open Scope Q_scope.

Definition attendance_score (att_rate : Q) : Q :=
  if Py.Qleb 85 att_rate then 40
  else if Py.Qleb 75 att_rate then 30 + (att_rate - 75) * 1
  else if Py.Qleb 65 att_rate then 20 + (att_rate - 65) * 1
  else Py.max 0 (att_rate * 0.3).

Definition consistency_score (rates : list Q) : Q :=
  if (1 <? length rates)%nat then Py.max 0 (20 - Py.std rates)
  else 15.

(** [sorted(l, key=lambda x: x['date'])]: stable, by string order. *)
Fixpoint insert_by_date (x : EventDetail) (l : list EventDetail) : list EventDetail :=
  match l with
  | [] => [x]
  | y :: l' =>
      if String.leb (date x) (date y) then x :: y :: l'
      else y :: insert_by_date x l'
  end.

Definition sorted_by_date (l : list EventDetail) : list EventDetail :=
  fold_right insert_by_date [] l.

Definition mean_actual (l : list EventDetail) : Q :=
  Py.mean (map (fun e => inject_Z (actual e)) l).

(** In the declining branch a first-half mean of 0 makes numpy's
    quotient [inf], so that [max(0, 10 - inf)] is 0. *)
Definition growth_score (sorted_events : list EventDetail) : Q :=
  if (2 <=? length sorted_events)%nat then
    let mid := (length sorted_events / 2)%nat in
    let first_half_avg := mean_actual (firstn mid sorted_events) in
    let second_half_avg := mean_actual (skipn mid sorted_events) in
    if Py.Qleb first_half_avg second_half_avg then
      let growth_pct :=
        if Py.Qltb 0 first_half_avg
        then (second_half_avg - first_half_avg) / first_half_avg * 100
        else 0 in
      Py.min 20 (10 + growth_pct * 0.5)
    else
      if Qeq_bool first_half_avg 0 then 0
      else
        let decline_pct := (first_half_avg - second_half_avg) / first_half_avg * 100 in
        Py.max 0 (10 - decline_pct * 0.5)
  else 10.

(** ['cost_per_attendee' in summary and summary['cost_per_attendee'] > 0] *)
Definition has_cost (cost : option Q) : option Q :=
  match cost with
  | Some cpa => if Py.Qltb 0 cpa then Some cpa else None
  | None => None
  end.

Definition efficiency_score (cost : option Q) : Q :=
  match has_cost cost with
  | Some cpa =>
      if Py.Qleb cpa 3 then 20
      else if Py.Qleb cpa 5 then 18
      else if Py.Qleb cpa 10 then 15
      else if Py.Qleb cpa 20 then 10
      else Py.max 0 (20 - cpa * 0.3)
  | None => 12
  end.

Definition grade_of (score : Q) : Grade :=
  if Py.Qleb 90 score then A_plus
  else if Py.Qleb 85 score then A
  else if Py.Qleb 80 score then A_minus
  else if Py.Qleb 75 score then B_plus
  else if Py.Qleb 70 score then B
  else if Py.Qleb 65 score then B_minus
  else if Py.Qleb 60 score then C_plus
  else if Py.Qleb 55 score then C
  else if Py.Qleb 50 score then C_minus
  else D.

(** The running total [score] before it is rounded, as an exact sum.
    The code adds floats, so its total can differ from this sum by a
    rounding error (59.99999999999999 for 21.6 + 15 + 10 + 13.4): what is
    proved of grades is proved of every total. *)
Definition raw_score (summary : Summary) : Q :=
  attendance_score (attendance_rate summary)
  + consistency_score (map event_attendance_rate (events summary))
  + growth_score (sorted_by_date (events summary))
  + efficiency_score (cost_per_attendee summary).

(** A value passed to [calculate_engagement_score]. *)
Inductive PyValue :=
| VFrame (df : DataFrame)
| VSummary (summary : Summary).

(** The body of the method.  [df] is a parameter it never reads. *)
Definition calculate_engagement_score (df : PyValue) (summary : Summary)
  : EngagementScore :=
  {| score := Py.round (raw_score summary) 1;
     grade := grade_of (raw_score summary);
     breakdown :=
       {| attendance := Py.round (attendance_score (attendance_rate summary)) 1;
          consistency :=
            Py.round (consistency_score (map event_attendance_rate (events summary))) 1;
          growth := Py.round (growth_score (sorted_by_date (events summary))) 1;
          efficiency := Py.round (efficiency_score (cost_per_attendee summary)) 1 |} |}.

(** A call [self.calculate_engagement_score(...)] with the positional
    arguments [args].  The method is
    declared [def calculate_engagement_score(self, df, summary)]: Python
    binds the positional arguments to [df] and [summary] and raises
    [TypeError] when their number is not two.  A frame in the place of
    the summary has no key ['attendance_rate']. *)
Definition self_calculate_engagement_score (args : list PyValue)
  : Res EngagementScore :=
  match args with
  | [df; VSummary summary] => Ok (calculate_engagement_score df summary)
  | [df; VFrame _] => Raise (KeyError "attendance_rate")
  | [_] =>
      Raise (TypeError
        "EventAnalyzer.calculate_engagement_score() missing 1 required positional argument: 'summary'")
  | [] =>
      Raise (TypeError
        "EventAnalyzer.calculate_engagement_score() missing 2 required positional arguments: 'df' and 'summary'")
  | _ =>
      Raise (TypeError
        "EventAnalyzer.calculate_engagement_score() takes 3 positional arguments but more were given")
  end.

(** *** prepare_data_summary *)

(** The values of a column that are not NaN: pandas sums, means and
    extrema skip the missing ones. *)
Definition present {A : Type} (column : list (option A)) : list A :=
  omap id column.

(** [Series.idxmax()]: the first position of the largest value. *)
Fixpoint idxmax_from (best : option (nat * Q)) (i : nat) (column : list (option Q))
  : option nat :=
  match column with
  | [] => option_map fst best
  | x :: column' =>
      let best' :=
        match x, best with
        | Some v, Some (_, b) => if Py.Qltb b v then Some (i, v) else best
        | Some v, None => Some (i, v)
        | None, _ => best
        end in
      idxmax_from best' (S i) column'
  end.

Definition idxmax (column : list (option Q)) : Res nat :=
  match idxmax_from None 0 column with
  | Some i => Ok i
  | None => Raise (ValueError "attempt to get argmax of an empty sequence")
  end.

Definition Zmaximum (l : list Z) : Res Z :=
  match l with
  | [] => Raise (ValueError "cannot convert float NaN to integer")
  | x :: l' => Ok (fold_left Z.max l' x)
  end.

Definition Zminimum (l : list Z) : Res Z :=
  match l with
  | [] => Raise (ValueError "cannot convert float NaN to integer")
  | x :: l' => Ok (fold_left Z.min l' x)
  end.

Definition string_min (a b : string) : string := if String.leb a b then a else b.
Definition string_max (a b : string) : string := if String.leb a b then b else a.

(** [df.loc[i, 'Event Name']] *)
Definition event_name_at (df : DataFrame) (i : nat) : string :=
  match df !! i with
  | Some row => Event_Name row
  | None => ""
  end.

(** [df['Event Type'].value_counts()] *)
Definition value_counts (types : list string) : gmap string Z :=
  fold_left (fun m t => <[t := (default 0 (m !! t) + 1)%Z]> m) types ∅.

(** [df['Actual Attendance'] / df['Expected Attendance'] * 100], row by row. *)
Definition rate_of_row (row : Row) : Res (option Q) :=
  match Actual_Attendance row, Expected_Attendance row with
  | Some a, Some e =>
      (q <- div (inject_Z a) (inject_Z e) ;; Ok (Some (q * 100)))%res
  | _, _ => Ok None
  end.

(** The body of [for _, row in df.iterrows()]; [int(NaN)] raises. *)
Definition event_detail (row : Row) : Res EventDetail :=
  match Expected_Attendance row, Actual_Attendance row with
  | Some e, Some a =>
      (q <- div (inject_Z a) (inject_Z e) ;;
       money <- match Total_Budget row with
                | Some b =>
                    c <- div b (inject_Z a) ;;
                    Ok (Some (Py.round b 2), Some (Py.round c 2))
                | None => Ok (None, None)
                end ;;
       Ok {| name := Event_Name row;
             type := Event_Type row;
             date := Date row;
             expected := e;
             actual := a;
             event_attendance_rate := Py.round (q * 100) 1;
             budget := fst money;
             event_cost_per_attendee := snd money |})%res
  | _, _ => Raise (ValueError "cannot convert float NaN to integer")
  end.

(** The four financial entries, present together or not at all. *)
Record Financial := {
  fin_total_budget : option Q;
  fin_avg_budget_per_event : option Q;
  fin_cost_per_attendee : option Q;
  fin_avg_cost_per_attendee : option Q
}.

Definition no_financial : Financial :=
  {| fin_total_budget := None; fin_avg_budget_per_event := None;
     fin_cost_per_attendee := None; fin_avg_cost_per_attendee := None |}.

Definition financial_metrics (df : DataFrame) : Res Financial :=
  if existsb (fun row => bool_decide (is_Some (Total_Budget row))) df then
    let budget_total := Py.Qsum (present (map Total_Budget df)) in
    let events_with_budget :=
      filter (fun row => is_Some (Total_Budget row)) df in
    (cpa <- div budget_total
                (inject_Z (Py.Zsum (present (map Actual_Attendance df)))) ;;
     avg_cpa <- div (Py.Qsum (present (map Total_Budget events_with_budget)))
                    (inject_Z (Py.Zsum (present (map Actual_Attendance events_with_budget)))) ;;
     Ok {| fin_total_budget := Some (Py.round budget_total 2);
           fin_avg_budget_per_event :=
             Some (Py.round (budget_total / inject_Z (Z.of_nat (length df))) 2);
           fin_cost_per_attendee := Some (Py.round cpa 2);
           fin_avg_cost_per_attendee := Some (Py.round avg_cpa 2) |})%res
  else Ok no_financial.

(** [{k: int(v) for k, v in self.demographics.items() if v > 0}], when
    [self.demographics] is a non-empty dictionary. *)
Definition summary_demographics (demographics : option (gmap string Z))
  : option (gmap string Z) :=
  match demographics with
  | Some d =>
      if bool_decide (d = ∅) then None
      else Some (filter (fun kv => (0 < kv.2)%Z) d)
  | None => None
  end.

(** [summary['engagement_score'] = engagement_score] *)
Definition set_engagement_score (summary : Summary) (engagement : EngagementScore)
  : Summary :=
  {| total_events := total_events summary;
     date_range := date_range summary;
     event_types := event_types summary;
     avg_attendance := avg_attendance summary;
     total_attendees := total_attendees summary;
     total_registered := total_registered summary;
     attendance_rate := attendance_rate summary;
     total_budget := total_budget summary;
     avg_budget_per_event := avg_budget_per_event summary;
     cost_per_attendee := cost_per_attendee summary;
     avg_cost_per_attendee := avg_cost_per_attendee summary;
     best_performing_event := best_performing_event summary;
     highest_attendance := highest_attendance summary;
     best_conversion_event := best_conversion_event summary;
     best_conversion_rate := best_conversion_rate summary;
     events := events summary;
     demographics := demographics summary;
     engagement_score := Some engagement |}.

(** [self_demographics] is the attribute [self.demographics]. *)
Definition prepare_data_summary (self_demographics : option (gmap string Z))
           (df : DataFrame) : Res Summary :=
  match map Date df with
  | [] => Raise (AttributeError "strftime")
  | d0 :: dates =>
      let actuals := present (map Actual_Attendance df) in
      let expecteds := present (map Expected_Attendance df) in
      (avg <- div (inject_Z (Py.Zsum actuals)) (inject_Z (Z.of_nat (length actuals))) ;;
       rate <- div (inject_Z (Py.Zsum actuals)) (inject_Z (Py.Zsum expecteds)) ;;
       fin <- financial_metrics df ;;
       best <- idxmax (map (fun row => option_map inject_Z (Actual_Attendance row)) df) ;;
       highest <- Zmaximum actuals ;;
       rates <- res_map rate_of_row df ;;
       best_rate_idx <- idxmax rates ;;
       events_detail <- res_map event_detail df ;;
       let summary :=
         {| total_events := Z.of_nat (length df);
            date_range := (fold_left string_min dates d0, fold_left string_max dates d0);
            event_types := value_counts (map Event_Type df);
            avg_attendance := Py.round avg 1;
            total_attendees := Py.Zsum actuals;
            total_registered := Py.Zsum expecteds;
            attendance_rate := Py.round (rate * 100) 1;
            total_budget := fin_total_budget fin;
            avg_budget_per_event := fin_avg_budget_per_event fin;
            cost_per_attendee := fin_cost_per_attendee fin;
            avg_cost_per_attendee := fin_avg_cost_per_attendee fin;
            best_performing_event := event_name_at df best;
            highest_attendance := highest;
            best_conversion_event := event_name_at df best_rate_idx;
            best_conversion_rate :=
              Py.round (default 0 (mjoin (rates !! best_rate_idx))) 1;
            events := events_detail;
            demographics := summary_demographics self_demographics;
            engagement_score := None |} in
       engagement <- self_calculate_engagement_score [VFrame df; VSummary summary] ;;
       Ok (set_engagement_score summary engagement))%res
  end.

(** *** generate_predictions *)

Record Prediction := {
  pred_avg_attendance : Q;
  pred_attendance_rate : Q;
  sample_size : Z;
  min_attendance : Z;
  max_attendance : Z;
  avg_budget : option Q;
  pred_avg_cost_per_attendee : option Q
}.

(** [Series.unique()]: distinct values in order of first appearance. *)
Fixpoint unique (seen l : list string) : list string :=
  match l with
  | [] => []
  | x :: l' =>
      if existsb (String.eqb x) seen then unique seen l'
      else x :: unique (x :: seen) l'
  end.

Definition predict (df : DataFrame) (event_type : string) : Res Prediction :=
  let type_data := filter (fun row => Event_Type row = event_type) df in
  let actuals := present (map Actual_Attendance type_data) in
  let expecteds := present (map Expected_Attendance type_data) in
  (avg <- div (inject_Z (Py.Zsum actuals)) (inject_Z (Z.of_nat (length actuals))) ;;
   avg_rate <- div (inject_Z (Py.Zsum actuals)) (inject_Z (Py.Zsum expecteds)) ;;
   lo <- Zminimum actuals ;;
   hi <- Zmaximum actuals ;;
   money <-
     (if existsb (fun row => bool_decide (is_Some (Total_Budget row))) type_data then
        let budget_data := filter (fun row => is_Some (Total_Budget row)) type_data in
        let budgets := present (map Total_Budget budget_data) in
        mean_budget <- div (Py.Qsum budgets) (inject_Z (Z.of_nat (length budgets))) ;;
        cpa <- div (Py.Qsum budgets)
                   (inject_Z (Py.Zsum (present (map Actual_Attendance budget_data)))) ;;
        Ok (Some (Py.round mean_budget 2), Some (Py.round cpa 2))
      else Ok (None, None)) ;;
   Ok {| pred_avg_attendance := Py.round avg 0;
         pred_attendance_rate := Py.round (avg_rate * 100) 1;
         sample_size := Z.of_nat (length type_data);
         min_attendance := lo;
         max_attendance := hi;
         avg_budget := fst money;
         pred_avg_cost_per_attendee := snd money |})%res.

Definition generate_predictions (df : DataFrame) : Res (gmap string Prediction) :=
  fold_left (fun acc event_type =>
               (predictions <- acc ;;
                pred <- predict df event_type ;;
                Ok (<[event_type := pred]> predictions))%res)
            (unique [] (map Event_Type df)) (Ok ∅).

(** *** The report pipeline *)

(** The persisted result document. *)
Record ResultDocument := {
  timestamp : string;
  res_org_name : string;
  data_summary : Summary;
  ai_insights : string;
  predictions : gmap string Prediction;
  res_demographics : option (gmap string Z);
  res_engagement_score : option EngagementScore
}.

(** A line on standard output.  Lines built with a format string keep
    their values. *)
Inductive Line :=
| Text (s : string)
| Loaded (n : Z) (filepath : string)
| FileNotFound (filepath : string)
| ErrorLoadingFile
| Organization (org : string)
| TotalEvents (n : Z)
| TotalAttendees (n : Z)
| AverageAttendance (q : Q)
| OverallAttendanceRate (q : Q)
| TotalBudget (q : Q)
| CostPerAttendee (q : Q)
| ErrorCallingOpenAI (e : string)
| Insights (text : string)
| EngagementScoreLine (score : Q) (g : Grade)
| ResultsSaved (path : string)
| ResultsSavedTo (path : string)
| MainError (e : Exc).

(** What a run can change: standard output, the file
    [dashboard/data/analysis_results.json], and [self.demographics]. *)
Record State := {
  stdout : list Line;
  result_file : option ResultDocument;
  self_demographics : option (gmap string Z)
}.

(** What [data/compiled_events.xlsx] holds. *)
Inductive DatasetFile :=
| NotFound
| Unreadable
| WithoutEventsSheet (first_sheet : DataFrame)
| Compiled (events_sheet : DataFrame)
           (demographics_sheet : option (list (gmap string Z))).

(** The request sent to the text-generation service. *)
Record Prompt := {
  prompt_org_name : string;
  prompt_summary : Summary;
  budget_section : bool;
  demographics_section : bool
}.

(** The service raises, or returns a response whose choices carry a text
    or [None] as their content. *)
Inductive ApiReply :=
| ApiRaises (e : string)
| ApiResponse (choices : list (option string)).

(** What a run reads and cannot change. *)
Record Env := {
  api_key : option string;
  org_name : string;
  dataset : DatasetFile;
  create : Prompt -> ApiReply;
  now : string
}.

Definition M (A : Type) : Type := State -> Res A * State.

Definition ret {A : Type} (a : A) : M A := fun s => (Ok a, s).

Definition bind {A B : Type} (m : M A) (f : A -> M B) : M B :=
  fun s =>
    match m s with
    | (Ok a, s') => f a s'
    | (Raise e, s') => (Raise e, s')
    end.

Definition lift {A : Type} (r : Res A) : M A := fun s => (r, s).

Definition print (l : Line) : M unit :=
  fun s => (Ok tt, {| stdout := stdout s ++ [l];
                      result_file := result_file s;
                      self_demographics := self_demographics s |}).

Definition set_demographics (d : option (gmap string Z)) : M unit :=
  fun s => (Ok tt, {| stdout := stdout s;
                      result_file := result_file s;
                      self_demographics := d |}).

Definition get_demographics : M (option (gmap string Z)) :=
  fun s => (Ok (self_demographics s), s).

(** [with open(output_path, 'w') as f: json.dump(results, f)] *)
Definition write_results (results : ResultDocument) : M unit :=
  fun s => (Ok tt, {| stdout := stdout s;
                      result_file := Some results;
                      self_demographics := self_demographics s |}).

(** [try: m except Exception as e: handler e] *)
Definition catch {A : Type} (m : M A) (handler : Exc -> M A) : M A :=
  fun s =>
    match m s with
    | (Ok a, s') => (Ok a, s')
    | (Raise e, s') => handler e s'
    end.

Declare Scope io_scope.
Delimit Scope io_scope with io.
Notation "x <- m ;; k" := (bind m (fun x => k))
  (at level 100, m at next level, right associativity) : io_scope.
Notation "m ;;; k" := (bind m (fun _ => k))
  (at level 100, right associativity) : io_scope.

Local Open Scope io_scope.

Definition raise {A : Type} (e : Exc) : M A := lift (Raise e).

(** [load_event_data]: the frame, or [None] after a report. *)
Definition load_event_data (env : Env) (filepath : string) : M (option DataFrame) :=
  match dataset env with
  | Compiled df demographics_sheet =>
      print (Loaded (Z.of_nat (length df)) filepath) ;;;
      match demographics_sheet with
      | Some demo_df =>
          set_demographics (head demo_df) ;;;
          print (Text "Demographics data loaded") ;;;
          ret (Some df)
      | None =>
          set_demographics None ;;;
          ret (Some df)
      end
  | NotFound =>
      print (FileNotFound filepath) ;;;
      print (Text "Run 'python src/extract_events.py' first to compile event data") ;;;
      ret None
  | WithoutEventsSheet df =>
      set_demographics None ;;;
      ret (Some df)
  | Unreadable =>
      print ErrorLoadingFile ;;;
      ret None
  end.

(** [analyze_with_ai]: the narrative, or [None].  [choices[0]] on an
    empty list raises [IndexError] inside the [try]. *)
Definition analyze_with_ai (env : Env) (data_summary : Summary) : M (option string) :=
  print (Text "Analyzing data with OpenAI...") ;;;
  let prompt :=
    {| prompt_org_name := org_name env;
       prompt_summary := data_summary;
       budget_section := bool_decide (is_Some (total_budget data_summary));
       demographics_section := bool_decide (is_Some (demographics data_summary)) |} in
  match create env prompt with
  | ApiResponse (content :: _) =>
      print (Text "AI Analysis complete!") ;;;
      ret content
  | ApiResponse [] =>
      print (ErrorCallingOpenAI "list index out of range") ;;;
      ret None
  | ApiRaises e =>
      print (ErrorCallingOpenAI e) ;;;
      ret None
  end.

Definition output_path : string := "dashboard/data/analysis_results.json".

(** [if self.demographics:] holds for a dictionary that is not empty. *)
Definition nonempty_dict (d : option (gmap string Z)) : option (gmap string Z) :=
  match d with
  | Some m => if bool_decide (m = ∅) then None else Some m
  | None => None
  end.

(** [results["engagement_score"] = engagement_score] *)
Definition with_engagement_score (results : ResultDocument)
           (engagement_score : EngagementScore) : ResultDocument :=
  {| timestamp := timestamp results;
     res_org_name := res_org_name results;
     data_summary := data_summary results;
     ai_insights := ai_insights results;
     predictions := predictions results;
     res_demographics := res_demographics results;
     res_engagement_score := Some engagement_score |}.

(** [save_results].  The score is asked for with [data_summary] as the
    only argument. *)
Definition save_results (env : Env) (insights : string)
           (predictions : gmap string Prediction) (data_summary : Summary) : M string :=
  demographics <- get_demographics ;;
  let results :=
    {| timestamp := now env;
       res_org_name := org_name env;
       data_summary := data_summary;
       ai_insights := insights;
       predictions := predictions;
       res_demographics := nonempty_dict demographics;
       res_engagement_score := None |} in
  engagement_score <- lift (self_calculate_engagement_score [VSummary data_summary]) ;;
  print (EngagementScoreLine (score engagement_score) (grade engagement_score)) ;;;
  write_results (with_engagement_score results engagement_score) ;;;
  print (ResultsSaved output_path) ;;;
  ret output_path.

Definition Saver : Type := string -> gmap string Prediction -> Summary -> M string.

Definition rule : Line := Text "============================================================".

Definition quick_stats (data_summary : Summary) : M unit :=
  print (Text "--- Quick Stats ---") ;;;
  print (TotalEvents (total_events data_summary)) ;;;
  print (TotalAttendees (total_attendees data_summary)) ;;;
  print (AverageAttendance (avg_attendance data_summary)) ;;;
  print (OverallAttendanceRate (attendance_rate data_summary)) ;;;
  match total_budget data_summary with
  | Some b =>
      print (TotalBudget b) ;;;
      match cost_per_attendee data_summary with
      | Some c => print (CostPerAttendee c)
      | None => raise (KeyError "cost_per_attendee")
      end
  | None => ret tt
  end.

(** [run_analysis], with the method that [self.save_results] resolves to
    as a parameter. *)
Definition run_analysis_with (self_save_results : Saver) (env : Env) (filepath : string)
  : M unit :=
  print rule ;;;
  print (Text "EVENT ANALYZER - AI-Powered Insights") ;;;
  print (Organization (org_name env)) ;;;
  print rule ;;;
  loaded <- load_event_data env filepath ;;
  match loaded with
  | None => ret tt
  | Some df =>
      print (Text "Preparing data summary...") ;;;
      demographics <- get_demographics ;;
      data_summary <- lift (prepare_data_summary demographics df) ;;
      quick_stats data_summary ;;;
      print (Text "Generating predictions...") ;;;
      predictions <- lift (generate_predictions df) ;;
      insights <- analyze_with_ai env data_summary ;;
      match insights with
      | None => ret tt
      | Some text =>
          print rule ;;;
          print (Text "AI-GENERATED INSIGHTS") ;;;
          print rule ;;;
          print (Insights text) ;;;
          print rule ;;;
          path <- self_save_results text predictions data_summary ;;
          print (Text "Analysis complete!") ;;;
          print (ResultsSavedTo path) ;;;
          print (Text "Open dashboard/index.html in your browser to view the dashboard!")
      end
  end.

Definition run_analysis (env : Env) (filepath : string) : M unit :=
  run_analysis_with (save_results env) env filepath.

Definition default_filepath : string := "data/compiled_events.xlsx".

(** [if not api_key: raise ValueError(...)] in [__init__]. *)
Definition init (env : Env) : M unit :=
  match api_key env with
  | Some key =>
      if String.eqb key "" then raise (ValueError "OPENAI_API_KEY not found in .env file!")
      else ret tt
  | None => raise (ValueError "OPENAI_API_KEY not found in .env file!")
  end.

Definition with_org_name (org : string) (env : Env) : Env :=
  {| api_key := api_key env; org_name := org; dataset := dataset env;
     create := create env; now := now env |}.

Definition main (env : Env) : M unit :=
  let env := with_org_name "Society of Indian Americans" env in
  catch (init env ;;; run_analysis env default_filepath)
        (fun e =>
           print (MainError e) ;;;
           print (Text "Troubleshooting:") ;;;
           print (Text "1. Make sure you have a .env file with your OPENAI_API_KEY") ;;;
           print (Text "2. Run 'pip install -r requirements.txt' to install dependencies") ;;;
           print (Text "3. Run 'python src/extract_events.py' first to compile event data")).

Definition initial_state : State :=
  {| stdout := []; result_file := None; self_demographics := None |}.

End Analyzer.

(** ** Notions the statements below use *)

Module Spec.

Import Analyzer.
Local Open Scope Q_scope.






(** Each boundary with its grade and the grade just below it. *)
Definition grade_boundaries : list (Q * Grade * Grade) :=
  [ (90, A_plus, A); (85, A, A_minus); (80, A_minus, B_plus);
    (75, B_plus, B); (70, B, B_minus); (65, B_minus, C_plus);
    (60, C_plus, C); (55, C, C_minus); (50, C_minus, D) ].

(** [r] is the first position of [column] that holds its largest
    value [v]: no value exceeds [v], and every earlier one is smaller. *)
Definition first_max (column : list (option Q)) (r : nat) (v : Q) : Prop :=
  column !! r = Some (Some v) /\
  (forall k w, column !! k = Some (Some w) -> w <= v) /\
  (forall k w, (k < r)%nat -> column !! k = Some (Some w) -> w < v).

(** Attendance is a count. *)
Definition attended_nonneg (e : EventDetail) : Prop := (0 <= actual e)%Z.

(** An entry of the summary that is present and equal to [q]. *)
Definition present_eq (o : option Q) (q : Q) : Prop :=
  match o with
  | Some c => c == q
  | None => False
  end.

(** The attendance rate of a row, [actual / expected * 100]. *)
Definition row_rate (a e : Z) : Q := inject_Z a / inject_Z e * 100.

(** The message of the [TypeError] for a call with one argument. *)
Definition arity_message : string :=
  "EventAnalyzer.calculate_engagement_score() missing 1 required positional argument: 'summary'".

(** The service call raises inside the [try]: an error of the service,
    or a response without choices. *)
Definition service_error (r : ApiReply) : Prop :=
  match r with
  | ApiRaises _ | ApiResponse [] => True
  | ApiResponse (_ :: _) => False
  end.

(** [analyze_with_ai] has no narrative to return: the call raises, or
    the content of the response is [None]. *)
Definition no_narrative (r : ApiReply) : Prop :=
  match r with
  | ApiRaises _ | ApiResponse [] | ApiResponse (None :: _) => True
  | ApiResponse (Some _ :: _) => False
  end.

(** The same, with a response whose text is empty counted in. *)
Definition no_narrative_or_empty (r : ApiReply) : Prop :=
  match r with
  | ApiRaises _ | ApiResponse [] | ApiResponse (None :: _) => True
  | ApiResponse (Some text :: _) => text = ""
  end.

(** [load_event_data] returns a frame. *)
Definition loadable (file : DatasetFile) : bool :=
  match file with
  | Compiled _ _ | WithoutEventsSheet _ => true
  | NotFound | Unreadable => false
  end.

(** A computation that leaves the result file as it found it. *)
Definition keeps_file {A : Type} (m : M A) : Prop :=
  forall s, result_file (snd (m s)) = result_file s.

(** The last line printed reports the failure of the service call. *)
Definition reports_failure (out : list Line) : Prop :=
  exists e, last out = Some (ErrorCallingOpenAI e).

(** A run whose service call has [failed] leaves without invoking
    [save_results], writes no file, and, when it got as far as the
    call and ended normally, has reported the failure. *)
Definition aborts_when (failed : ApiReply -> Prop) : Prop :=
  forall env filepath st,
    (forall p, failed (create env p)) ->
    (forall saver : Saver,
        run_analysis_with saver env filepath st = run_analysis env filepath st) /\
    result_file (snd (run_analysis env filepath st)) = result_file st /\
    (loadable (dataset env) = true ->
     fst (run_analysis env filepath st) = Ok tt ->
     reports_failure (stdout (snd (run_analysis env filepath st)))).

End Spec.

Module ExtractorSpec.

Import Extractor.

(** Position [p] is scanned before position [q] in row-major order. *)
Definition row_major_before (p q : nat * nat) : Prop :=
  (fst p < fst q)%nat \/ (fst p = fst q /\ (snd p < snd q)%nat).

(** In [budget], the cell at row [i], column [j] is a label, and [v] at
    column [k] is the first value that passes the test of the code (an
    [int] or [float] above 100) among the next four cells to its right. *)
Definition budget_hit (budget : Grid) (i j k : nat) (v : Q) : Prop :=
  (i < nrows budget)%nat /\ (j < ncols budget)%nat /\
  budget_label (cell_text (iloc budget i j)) = true /\
  (j < k <= j + 4)%nat /\ (k < ncols budget)%nat /\
  budget_value budget i k = Some v /\
  (forall k', (j < k' < k)%nat -> budget_value budget i k' = None).

(** The budget as the claim words it: a label holds "Overall Total" or
    the capitals "TOTAL", and every number above 100 counts. *)
Definition stated_label (cell : string) : bool :=
  Py.contains "Overall Total" cell || Py.contains "TOTAL" cell.

Definition stated_right_of (budget : Grid) (i j : nat) : option Q :=
  first_some (fun k => above_100 (iloc budget i k))
             (Py.range (j + 1) (Nat.min (j + 5) (ncols budget))).

Definition stated_budget (budget : Grid) : option Q :=
  first_some (fun p => if stated_label (cell_text (iloc budget (fst p) (snd p)))
                       then stated_right_of budget (fst p) (snd p) else None)
             (positions budget).

Definition budget_as_stated : Prop :=
  forall budget, extract_budget_data (Some budget) = stated_budget budget.

(** Either attendance rule applies to the text of a cell. *)
Definition attendance_label (cell : string) : bool :=
  total_rsvp_label cell || raw_tickets_label cell.

(** The two values a label assigns, with the offset of the cell each
    one is read from. *)
Inductive Side := ExpectedSide | ActualSide.

Definition offset (side : Side) : nat :=
  match side with ExpectedSide => 1 | ActualSide => 2 end.

Definition field (side : Side) (a : Attendance) : option Z :=
  match side with ExpectedSide => registered a | ActualSide => attended a end.

(** The cell [d] columns to the right of row [i], column [j], when it
    is inside the sheet and not empty. *)
Definition right_cell (rsvp : Grid) (i j d : nat) : option Cell :=
  if (j + d <? ncols rsvp)%nat && notna (iloc rsvp i (j + d))
  then Some (iloc rsvp i (j + d)) else None.

(** [int(...)] succeeds on the cells to the right of row [i], column [j]. *)
Definition coercible (rsvp : Grid) (i j : nat) : Prop :=
  forall side c, right_cell rsvp i j (offset side) = Some c -> is_Some (py_int c).

(** [int(...)] raises on the cell at offset [d] to the right of row [i],
    column [j]. *)
Definition rejected (rsvp : Grid) (i j d : nat) : Prop :=
  exists c, right_cell rsvp i j d = Some c /\ py_int c = None.

(** What a label at row [i], column [j] leaves behind when [int(...)]
    raises on one of its neighbours: the expected value is replaced when
    its own neighbour is an integer, the actual value stays. *)
Definition left_by_failure (rsvp : Grid) (i j : nat) (a : Attendance) : Attendance :=
  {| registered :=
       match right_cell rsvp i j 1 with
       | Some c => match py_int c with Some z => Some z | None => registered a end
       | None => registered a
       end;
     attended := attended a |}.

(** The precedence of "Raw Tickets" with no condition on the other
    cells of the sheet: the last "Raw Tickets" cell with two integers to
    its right, after which no label follows, decides both values. *)
Definition raw_tickets_always_wins : Prop :=
  forall (rsvp : Grid) (i j : nat) (z1 z2 : Z),
    (i < nrows rsvp)%nat -> (j + 2 < ncols rsvp)%nat ->
    raw_tickets_label (cell_text (iloc rsvp i j)) = true ->
    iloc rsvp i (j + 1) = CInt z1 -> iloc rsvp i (j + 2) = CInt z2 ->
    (forall i' j',
        (i' < nrows rsvp)%nat -> (j' < ncols rsvp)%nat ->
        row_major_before (i, j) (i', j') ->
        attendance_label (cell_text (iloc rsvp i' j')) = false) ->
    extract_attendance (Some rsvp) = {| registered := Some z1; attended := Some z2 |}.

(** The categories a cell can be counted in. *)
Definition counted_categories : list string :=
  ["Freshman"; "Sophomore"; "Junior"; "Senior"; "Graduate"; "Alumni"].

(** What the counting loop keeps true of the dictionary. *)
Definition counting_invariant (d : gmap string Z) : Prop :=
  d !! "Other" = Some 0 /\
  forall k n, d !! k = Some n ->
              0 <= n /\ (k = "Other" \/ In k counted_categories) /\
              (0 < n -> In k counted_categories).

(** What one file of the folder contributes to the dataset. *)
Definition kept (file : string * Workbook) : option EventData :=
  if selected (fst file) then keep_event (snd file) else None.

(** Every text of the sheet that is longer than three characters is
    the word "Event". *)
Definition only_long_text_is_Event (overview : Grid) : Prop :=
  forall i j s,
    iloc overview i j = CText s -> (3 < String.length s)%nat -> s = "Event".

End ExtractorSpec.

(** ** Inputs of the scenarios *)

Module Scenario.

Import Analyzer.

(** Three events A, B, C in dataset order; dates and types are free. *)
Definition three_events (dA dB dC tA tB tC : string) : DataFrame :=
  [ {| Event_Name := "A"; Date := dA; Event_Type := tA;
       Expected_Attendance := Some 100; Actual_Attendance := Some 90;
       Total_Budget := Some 500%Q |};
    {| Event_Name := "B"; Date := dB; Event_Type := tB;
       Expected_Attendance := Some 200; Actual_Attendance := Some 150;
       Total_Budget := None |};
    {| Event_Name := "C"; Date := dC; Event_Type := tC;
       Expected_Attendance := Some 50; Actual_Attendance := Some 50;
       Total_Budget := Some 300%Q |} ].

(** An RSVP sheet with both labels; "Raw Tickets" comes last. *)
Definition rsvp_sheet : Grid :=
  [ [CText "Summary"; CEmpty; CText "Checked in"];
    [CText "Total RSVPs"; CFloat 120%Q; CInt 95];
    [CText "Raw Tickets"; CFloat 130.5%Q; CText "101"] ].

(** A sheet with a text that is no number next to the first label. *)
Definition rsvp_sheet_with_text : Grid :=
  [ [CText "Total RSVPs"; CText "TBD"; CInt 95];
    [CText "Raw Tickets"; CInt 130; CInt 101] ].

(** A sheet whose first label has a number and then a text to its right. *)
Definition rsvp_sheet_half_read : Grid :=
  [ [CText "Total RSVPs"; CInt 120; CText "TBD"];
    [CText "Raw Tickets"; CInt 130; CInt 101] ].

(** A budget sheet with a header row, two items and the total. *)
Definition budget_sheet : Grid :=
  [ [CText "Item"; CText "Cost"];
    [CText "Venue"; CInt 800];
    [CText "Decor"; CFloat 95.5%Q];
    [CText "Overall Total"; CFloat 895.5%Q] ].

(** The total alone in its column, a whole number. *)
Definition whole_number_budget : Grid :=
  [ [CText "Overall Total"; CInt 500] ].

(** The same total in a column that has a header. *)
Definition whole_number_budget_with_header : Grid :=
  [ [CText "Item"; CText "Cost"];
    [CText "Overall Total"; CInt 500] ].

(** A subtotal above the total. *)
Definition subtotal_budget : Grid :=
  [ [CText "Subtotal"; CFloat 250.5%Q];
    [CText "Overall Total"; CFloat 1200.75%Q] ].

(** Small numbers, then the total in the fourth cell after the label,
    and a larger number in the fifth. *)
Definition wide_budget : Grid :=
  [ [CText "total"; CFloat 3.5%Q; CFloat 40.5%Q; CInt 100; CFloat 2500.5%Q; CFloat 9000.5%Q] ].

(** The only number above 100 is in the fifth cell after the label. *)
Definition far_budget : Grid :=
  [ [CText "Total"; CFloat 1.5%Q; CFloat 2.5%Q; CFloat 3.5%Q; CFloat 4.5%Q; CFloat 5000.5%Q] ].

(** An attendee sheet with six freshmen and one senior. *)
Definition attendee_sheet : Grid :=
  [ [CText "Name"; CText "Year"];
    [CText "Asha"; CText "Freshman"];
    [CText "Ravi"; CText "freshman"];
    [CText "Mira"; CText "Freshman"];
    [CText "Dev"; CText "FRESHMAN"];
    [CText "Tara"; CText "Freshman"];
    [CText "Neel"; CText "Freshman"];
    [CText "Isha"; CText "Senior"] ].

(** An overview sheet whose only text longer than three characters is
    "Event". *)
Definition overview_with_only_Event : Grid :=
  [ [CText "Event"; CEmpty]; [CText "SIA"; CInt 2024] ].

Definition nameless_workbook : Workbook :=
  {| Overview := Some overview_with_only_Event;
     RSVP_Snapshot := None; Budget := None; Attendee_Data := None |}.

(** A summary of two events, as far as the score reads it. *)
Definition two_event_summary : Summary :=
  {| total_events := 2;
     date_range := ("2024-01-10", "2024-02-14");
     event_types := ∅;
     avg_attendance := 120;
     total_attendees := 240;
     total_registered := 300;
     attendance_rate := 80;
     total_budget := Some 800%Q;
     avg_budget_per_event := Some 400%Q;
     cost_per_attendee := Some 3.33%Q;
     avg_cost_per_attendee := Some 3.33%Q;
     best_performing_event := "B";
     highest_attendance := 150;
     best_conversion_event := "A";
     best_conversion_rate := 90;
     events :=
       [ {| name := "A"; type := "Formal"; date := "2024-01-10";
            expected := 100; actual := 90; event_attendance_rate := 90;
            budget := Some 500%Q; event_cost_per_attendee := Some 5.56%Q |};
         {| name := "B"; type := "Social"; date := "2024-02-14";
            expected := 200; actual := 150; event_attendance_rate := 75;
            budget := Some 300%Q; event_cost_per_attendee := Some 2%Q |} ];
     demographics := None;
     engagement_score := None |}.

Definition dataset_of_three : DatasetFile :=
  Compiled (three_events "2024-01-10" "2024-02-14" "2024-03-20"
                         "Cultural Festival" "Formal" "Cultural Festival")
           None.

(** A run environment around a service that always gives [reply]. *)
Definition env_with (reply : ApiReply) : Env :=
  {| api_key := Some "sk-test";
     org_name := "Society of Indian Americans";
     dataset := dataset_of_three;
     create := fun _ => reply;
     now := "2024-04-01T09:00:00" |}.

Definition narrative : string := "Attendance is strong; Diwali leads.".

(** A saver that writes nothing and returns a path. *)
Definition idle_saver : Saver := fun _ _ _ => ret output_path.

End Scenario.

(** ** Further notions: the extractor *)

Module ExtractorNotions.

Import Extractor ExtractorSpec.

(** [z] was read with [int(...)] from the cell at the offset of [side]
    to the right of a cell matched by an attendance rule. *)
Definition read_from_label (rsvp : Grid) (side : Side) (z : Z) : Prop :=
  exists i j c,
    (i < nrows rsvp)%nat /\ (j < ncols rsvp)%nat /\
    attendance_label (cell_text (iloc rsvp i j)) = true /\
    right_cell rsvp i j (offset side) = Some c /\ py_int c = Some z.

(** The first cell of row [i] that the date search accepts. *)
Definition date_in_row (overview : Grid) (i : nat) : option Cell :=
  first_some (date_at overview i) (Py.range 0 (ncols overview)).

(** A cell the date search accepts: not empty, and either a date or
    right of a cell whose text contains "Event Date". *)
Definition date_candidate (overview : Grid) (i j : nat) (v : Cell) : Prop :=
  iloc overview i j = v /\ notna v = true /\
  ((exists d, v = CDate d) \/
   ((0 < j)%nat /\ Py.contains "Event Date" (py_str (iloc overview i (j - 1))) = true)).

(** The lower-cased text of a cell holds one of the keywords that
    [extract_demographics] looks for. *)
Definition demographic_keyword (val : string) : bool :=
  Py.contains "freshman" val || Py.contains "sophmore" val
  || Py.contains "sophomore" val || Py.contains "junior" val
  || Py.contains "senior" val || Py.contains "graduate" val
  || Py.contains "grad" val || Py.contains "masters" val
  || Py.contains "phd" val || Py.contains "alumni" val.

(** The dictionary has an entry for every category that is counted. *)
Definition has_categories (d : gmap string Z) : Prop :=
  forall k, In k counted_categories -> is_Some (d !! k).

(** The number of cells of the sheet that hold a keyword. *)
Definition keyword_cells (attendees : Grid) : nat :=
  length (List.filter
            (fun p => demographic_keyword
                        (Py.lower (cell_text (iloc attendees (fst p) (snd p)))))
            (positions attendees)).

(** [s.isascii()] *)
Fixpoint isascii (s : string) : bool :=
  match s with
  | EmptyString => true
  | String c s' => (nat_of_ascii c <? 128)%nat && isascii s'
  end.

(** The names [determine_event_type] can return. *)
Definition event_type_names : list string :=
  ["Other"; "Cultural Festival"; "Cultural Show"; "Formal"; "Social";
   "Professional"; "Sports"; "Welcome"; "Cultural"].

(** The count of category [k] that one event reported. *)
Definition reported (k : string) (event : EventData) : Z :=
  match Demographics event with
  | Some d => default 0 (d !! k)
  | None => 0
  end.

(** The sum over [events] of their counts of category [k]. *)
Definition total_reported (k : string) (events : list EventData) : Z :=
  fold_right (fun event acc => reported k event + acc) 0 events.

End ExtractorNotions.

(** ** Further notions: the analyzer *)

Module AnalyzerNotions.

Import Analyzer Spec.
Local Open Scope Q_scope.

(** A row that [prepare_data_summary] can process: both attendance
    values are present, the expected one is not 0, and the actual one is
    not 0 when the row has a budget. *)
Definition complete_row (row : Row) : Prop :=
  exists e a,
    Expected_Attendance row = Some e /\ Actual_Attendance row = Some a /\
    e <> 0%Z /\ (is_Some (Total_Budget row) -> a <> 0%Z).

(** The entry of [summary['events']] made from [row]. *)
Definition detail_of (row : Row) (detail : EventDetail) : Prop :=
  name detail = Event_Name row /\ type detail = Event_Type row /\
  date detail = Date row /\
  Expected_Attendance row = Some (expected detail) /\
  Actual_Attendance row = Some (actual detail) /\
  event_attendance_rate detail
  = Py.round (row_rate (actual detail) (expected detail)) 1 /\
  (is_Some (budget detail) <-> is_Some (Total_Budget row)) /\
  (is_Some (event_cost_per_attendee detail) <-> is_Some (Total_Budget row)).

(** Dates in non-decreasing order, as Python compares strings. *)
Definition date_le (a b : EventDetail) : Prop :=
  String.leb (date a) (date b) = true.

(** The sum of the four rounded components of a result. *)
Definition breakdown_total (b : Breakdown) : Q :=
  attendance b + consistency b + growth b + efficiency b.


(** A dataset of three dated events, two of them with a budget. *)
Definition season : DataFrame :=
  Scenario.three_events "2024-01-10" "2024-02-10" "2024-03-10"
                        "Cultural" "Formal" "Cultural".

(** Two events with the same rate and nearly the same attendance: the
    unrounded total is 89.97. *)
Definition near_top_summary : Summary :=
  {| total_events := 2;
     date_range := ("2024-01-10", "2024-02-14");
     event_types := ∅;
     avg_attendance := 9997;
     total_attendees := 19994;
     total_registered := 22000;
     attendance_rate := 90;
     total_budget := Some 39988%Q;
     avg_budget_per_event := Some 19994%Q;
     cost_per_attendee := Some 2%Q;
     avg_cost_per_attendee := Some 2%Q;
     best_performing_event := "A";
     highest_attendance := 10000;
     best_conversion_event := "A";
     best_conversion_rate := 90;
     events :=
       [ {| name := "A"; type := "Formal"; date := "2024-01-10";
            expected := 11000; actual := 10000; event_attendance_rate := 90;
            budget := Some 20000%Q; event_cost_per_attendee := Some 2%Q |};
         {| name := "B"; type := "Social"; date := "2024-02-14";
            expected := 11000; actual := 9994; event_attendance_rate := 90;
            budget := Some 19988%Q; event_cost_per_attendee := Some 2%Q |} ];
     demographics := None;
     engagement_score := None |}.

End AnalyzerNotions.

Module PredictionNotions.

Import Analyzer.
Local Open Scope Q_scope.

(** The rows of an event type. *)
Definition rows_of_type (df : DataFrame) (t : string) : list Row :=
  filter (fun row => Event_Type row = t) df.

(** What a prediction says about the rows it was made from. *)
Definition prediction_of (df : DataFrame) (t : string) (p : Prediction) : Prop :=
  sample_size p = Z.of_nat (length (rows_of_type df t)) /\
  (0 < sample_size p)%Z /\
  (min_attendance p <= max_attendance p)%Z /\
  inject_Z (min_attendance p) <= pred_avg_attendance p <= inject_Z (max_attendance p) /\
  (forall row a, In row (rows_of_type df t) -> Actual_Attendance row = Some a ->
                 (min_attendance p <= a <= max_attendance p)%Z) /\
  (is_Some (avg_budget p) <-> is_Some (pred_avg_cost_per_attendee p)) /\
  (is_Some (avg_budget p) <->
   exists row, In row (rows_of_type df t) /\ is_Some (Total_Budget row)).

(** One turn of the loop of [generate_predictions]. *)
Definition prediction_step (df : DataFrame)
           (acc : Res (gmap string Prediction)) (event_type : string)
  : Res (gmap string Prediction) :=
  (predictions <- acc ;;
   pred <- predict df event_type ;;
   Ok (<[event_type := pred]> predictions))%res.

End PredictionNotions.

Module PipelineNotions.

Import Analyzer.

(** The lines that announce a finished analysis: they are printed by
    [save_results] and by [run_analysis] after it. *)
Definition completion_line (l : Line) : Prop :=
  match l with
  | Text s =>
      s = "Analysis complete!" \/
      s = "Open dashboard/index.html in your browser to view the dashboard!"
  | EngagementScoreLine _ _ | ResultsSaved _ | ResultsSavedTo _ => True
  | _ => False
  end.

(** A computation that only adds lines to standard output, each of
    them in [P]. *)
Definition prints_only {A : Type} (P : Line -> Prop) (m : M A) : Prop :=
  forall s, exists lines,
      stdout (snd (m s)) = stdout s ++ lines /\ Forall P lines.

(** What [main] prints in its [except] branch. *)
Definition error_report (e : Exc) : list Line :=
  [ MainError e;
    Text "Troubleshooting:";
    Text "1. Make sure you have a .env file with your OPENAI_API_KEY";
    Text "2. Run 'pip install -r requirements.txt' to install dependencies";
    Text "3. Run 'python src/extract_events.py' first to compile event data" ].

(** [os.getenv('OPENAI_API_KEY')] is unset or empty. *)
Definition missing_key (env : Env) : Prop :=
  api_key env = None \/ api_key env = Some "".

(** The state with [lines] added to standard output. *)
Definition printed (lines : list Line) (s : State) : State :=
  {| stdout := stdout s ++ lines;
     result_file := result_file s;
     self_demographics := self_demographics s |}.

End PipelineNotions.

(** ** run.py: the one-click script *)

Module RunScript.

(** [str.split(sep)] for a separator of one character. *)
Fixpoint split (sep : ascii) (s : string) : list string :=
  match s with
  | EmptyString => [""]
  | String c s' =>
      match split sep s' with
      | [] => [String c ""]
      | l :: ls => if Ascii.eqb c sep then "" :: l :: ls else String c l :: ls
      end
  end.

Definition newline : ascii := "010"%char.

(** The result of [subprocess.run(..., capture_output=True, text=True)]. *)
Record CompletedProcess := {
  returncode : Z;
  stdout : string;
  stderr : string
}.

(** What the script finds around it.  A script of [src/] is [None]
    when its file does not exist, and else the result that running it
    gives. *)
Record Project := {
  project_dir : string;
  extract_script : option CompletedProcess;
  analyzer_script : option CompletedProcess;
  dashboard_exists : bool;
  dashboard_uri : string
}.

(** A [print].  A blank line in front of a text is left out. *)
Inductive Out :=
| Say (text : string)
| WorkingDirectory (dir : string)
| Echo (text : string)
| Opening (url : string)
| DashboardNotFound (path : string)
| ManualPath (path : string).

(** Standard output, and the URLs passed to [webbrowser.open]. *)
Record Run := {
  output : list Out;
  opened : list string
}.

Definition rule : Out := Say "============================================================".

Definition dashboard_path (p : Project) : string :=
  (project_dir p ++ "/dashboard/index.html")%string.

(** Step 1; its result is only printed. *)
Definition extraction (p : Project) : list Out :=
  match extract_script p with
  | Some result =>
      if (returncode result =? 0)%Z then
        [Say "Event data extracted successfully!"; Echo (stdout result)]
      else
        [Say "Warning: Event extraction may have issues:"; Echo (stderr result)]
  | None => [Say "Warning: extract_events.py not found, skipping extraction"]
  end.

(** The summary of the analyzer's output: its first 20 lines. *)
Definition summary_of (result : CompletedProcess) : list Out :=
  let lines := split newline (stdout result) in
  map Echo (firstn 20 lines)
  ++ (if (20 <? length lines)%nat then [Say "... (truncated)"] else []).

Definition setup_complete : Out :=
  Say "Setup complete! The dashboard should be open in your browser.".

Definition main (p : Project) : Run :=
  let started :=
    [rule; Say "EVENT ANALYTICS DASHBOARD - One-Click Setup"; rule;
     WorkingDirectory (project_dir p);
     Say "[Step 1/3] Extracting event data from Excel files..."]
    ++ extraction p
    ++ [Say "[Step 2/3] Running AI analysis..."] in
  match analyzer_script p with
  | Some result =>
      if (returncode result =? 0)%Z then
        let analysed :=
          started ++ [Say "AI analysis completed!"] ++ summary_of result
          ++ [Say "[Step 3/3] Opening dashboard..."] in
        let closing :=
          [rule; setup_complete; Say "If the browser didn't open, manually open:";
           ManualPath (dashboard_path p); rule] in
        if dashboard_exists p then
          {| output := analysed
                       ++ [Opening (dashboard_uri p);
                           Say "Dashboard opened in your default browser!"]
                       ++ closing;
             opened := [dashboard_uri p] |}
        else
          {| output := analysed ++ [DashboardNotFound (dashboard_path p)] ++ closing;
             opened := [] |}
      else
        {| output := started ++ [Say "Error during analysis:"; Echo (stderr result)];
           opened := [] |}
  | None =>
      {| output := started ++ [Say "Error: analyzer.py not found!"];
         opened := [] |}
  end.

(** The analyzer script exists and ended with return code 0. *)
Definition analysis_succeeded (p : Project) : Prop :=
  exists result, analyzer_script p = Some result /\ returncode result = 0%Z.

(** The same project with another outcome of the extraction. *)
Definition with_extraction (x : option CompletedProcess) (p : Project) : Project :=
  {| project_dir := project_dir p;
     extract_script := x;
     analyzer_script := analyzer_script p;
     dashboard_exists := dashboard_exists p;
     dashboard_uri := dashboard_uri p |}.

(** The lines of the analyzer's output that the script repeats. *)
Definition echoed (result : CompletedProcess) : list string :=
  omap (fun o => match o with Echo text => Some text | _ => None end)
       (summary_of result).

End RunScript.

(** * Properties *)

(** ** Arithmetic of the primitives *)

Section Arithmetic.

Local Open Scope Q_scope.

Lemma Qleb_true (a b : Q) : Py.Qleb a b = true <-> a <= b.
Proof. unfold Py.Qleb. apply Qle_bool_iff. Qed.

Lemma Qleb_false (a b : Q) : Py.Qleb a b = false <-> b < a.
Proof.
  unfold Py.Qleb. split; intros H.
  - apply Qnot_le_lt. intros Hle. apply Qle_bool_iff in Hle. congruence.
  - destruct (Qle_bool a b) eqn:E; [|reflexivity].
    apply Qle_bool_iff in E. lra.
Qed.

Lemma Qltb_true (a b : Q) : Py.Qltb a b = true <-> a < b.
Proof.
  unfold Py.Qltb. rewrite negb_true_iff. apply (Qleb_false b a).
Qed.

Lemma Qltb_false (a b : Q) : Py.Qltb a b = false <-> b <= a.
Proof.
  unfold Py.Qltb. rewrite negb_false_iff. apply (Qleb_true b a).
Qed.

Lemma max_zero_bounds (x hi : Q) : 0 <= hi -> x <= hi -> 0 <= Py.max 0 x <= hi.
Proof.
  intros Hhi Hx. unfold Py.max.
  destruct (Py.Qltb 0 x) eqn:E.
  - apply Qltb_true in E. lra.
  - lra.
Qed.

Lemma min_bounds (cap x lo : Q) : lo <= cap -> lo <= x -> lo <= Py.min cap x <= cap.
Proof.
  intros Hcap Hx. unfold Py.min.
  destruct (Py.Qltb x cap) eqn:E.
  - apply Qltb_true in E. lra.
  - lra.
Qed.

Lemma floor_below (m : Z) (q : Q) : inject_Z m <= q -> (m <= Qfloor q)%Z.
Proof.
  intros H. rewrite <- (Qfloor_Z m). now apply Qfloor_resp_le.
Qed.

Lemma round_half_even_ge (m : Z) (q : Q) :
  inject_Z m <= q -> (m <= Py.round_half_even q)%Z.
Proof.
  intros H. apply floor_below in H. unfold Py.round_half_even.
  destruct (Qcompare _ _); [destruct (Z.even _)| |]; lia.
Qed.

Lemma round_half_even_le (m : Z) (q : Q) :
  q <= inject_Z m -> (Py.round_half_even q <= m)%Z.
Proof.
  intros H. unfold Py.round_half_even.
  pose proof (Qfloor_le q) as Hf.
  assert (Hfm : (Qfloor q <= m)%Z).
  { rewrite Zle_Qle. lra. }
  destruct (Qcompare (q - inject_Z (Qfloor q)) (1 # 2)) eqn:E.
  - destruct (Z.even _); [lia|].
    apply Qeq_alt in E.
    assert (Qfloor q <> m).
    { intros Heq. rewrite Heq in *. lra. }
    lia.
  - lia.
  - apply Qgt_alt in E.
    assert (Qfloor q <> m).
    { intros Heq. rewrite Heq in *. lra. }
    lia.
Qed.

(** Rounding keeps a value between two integers between them. *)
Lemma round_bounds (q : Q) (n : nat) (lo hi : Z) :
  inject_Z lo <= q <= inject_Z hi ->
  inject_Z lo <= Py.round q n <= inject_Z hi.
Proof.
  intros [Hlo Hhi]. unfold Py.round. rewrite Qred_correct.
  set (P := Py.pow10 n).
  assert (HP : 0 < inject_Z (Zpos P)) by (unfold Qlt; simpl; lia).
  assert (H1 : (lo * Zpos P <= Py.round_half_even (q * inject_Z (Zpos P)))%Z).
  { apply round_half_even_ge. rewrite inject_Z_mult. nra. }
  assert (H2 : (Py.round_half_even (q * inject_Z (Zpos P)) <= hi * Zpos P)%Z).
  { apply round_half_even_le. rewrite inject_Z_mult. nra. }
  unfold Qle. simpl. lia.
Qed.

Lemma Qsum_from_nonneg (l : list Q) (a : Q) :
  Forall (fun x => 0 <= x) l -> 0 <= a -> 0 <= fold_left Qplus l a.
Proof.
  revert a. induction l as [|x l IH]; intros a Hl Ha; simpl; [exact Ha|].
  inversion Hl; subst. apply IH; [assumption|lra].
Qed.

Lemma mean_nonneg (l : list Q) : Forall (fun x => 0 <= x) l -> 0 <= Py.mean l.
Proof.
  intros Hl. unfold Py.mean, Py.Qsum.
  apply Qmult_le_0_compat.
  - apply Qsum_from_nonneg; [assumption|lra].
  - apply Qinv_le_0_compat. unfold Qle; simpl; lia.
Qed.

Lemma sqrt_nonneg (q : Q) : 0 <= Py.sqrt q.
Proof.
  unfold Py.sqrt, Qle. cbn [Qnum Qden].
  pose proof (Z.sqrt_nonneg (Qfloor (q * inject_Z (Zpos (Py.pow10 24))))). lia.
Qed.

Lemma std_nonneg (l : list Q) : 0 <= Py.std l.
Proof. apply sqrt_nonneg. Qed.

Lemma Qdiv_nonneg (a b : Q) : 0 <= a -> 0 < b -> 0 <= a / b.
Proof.
  intros Ha Hb. apply Qle_shift_div_l; [assumption|lra].
Qed.

End Arithmetic.

(** ** The engagement score *)

Section EngagementScore.

Import Analyzer Spec Scenario AnalyzerNotions.
Local Open Scope Q_scope.













(** C9.  The efficiency component is not monotone in the cost per
    attendee: it is 10 at a cost of 20 and 13.7 at a cost of 21, so a
    higher cost can score strictly higher.  The same values appear in the
    breakdown, which holds the component rounded to one decimal. *)
Theorem efficiency_not_monotone :
  efficiency_score (Some 20) == 10 /\
  efficiency_score (Some 21) == 13.7 /\
  (exists cpa1 cpa2,
      0 < cpa1 /\ cpa1 < cpa2 /\
      efficiency_score (Some cpa1) < efficiency_score (Some cpa2)) /\
  ~ (forall cpa1 cpa2,
        cpa1 <= cpa2 -> efficiency_score (Some cpa2) <= efficiency_score (Some cpa1)) /\
  (forall df summary,
      efficiency (breakdown (calculate_engagement_score df summary))
      = Py.round (efficiency_score (cost_per_attendee summary)) 1) /\
  Py.round (efficiency_score (Some 20)) 1 == 10 /\
  Py.round (efficiency_score (Some 21)) 1 == 13.7.
Proof.
  split; [vm_compute; reflexivity|].
  split; [vm_compute; reflexivity|].
  split.
  { exists 20, 21. repeat split; vm_compute; reflexivity. }
  split.
  { intros H. specialize (H 20 21). 
    assert (Hle : 20 <= 21) by lra. apply H in Hle.
    revert Hle. vm_compute. intros Hle. apply Hle. reflexivity. }
  split; [reflexivity|].
  split; vm_compute; reflexivity.
Qed.

Lemma attendance_score_range (att_rate : Q) : 0 <= attendance_score att_rate <= 40.
Proof.
  unfold attendance_score.
  destruct (Py.Qleb 85 att_rate) eqn:E1; [lra|]. apply Qleb_false in E1.
  destruct (Py.Qleb 75 att_rate) eqn:E2; [apply Qleb_true in E2; lra|].
  apply Qleb_false in E2.
  destruct (Py.Qleb 65 att_rate) eqn:E3; [apply Qleb_true in E3; lra|].
  apply Qleb_false in E3.
  apply max_zero_bounds; lra.
Qed.

Lemma consistency_score_range (rates : list Q) : 0 <= consistency_score rates <= 20.
Proof.
  unfold consistency_score. destruct (1 <? length rates)%nat; [|lra].
  pose proof (std_nonneg rates). apply max_zero_bounds; lra.
Qed.

Lemma efficiency_score_range (cost : option Q) : 0 <= efficiency_score cost <= 20.
Proof.
  unfold efficiency_score, has_cost. destruct cost as [cpa|]; [|lra].
  destruct (Py.Qltb 0 cpa) eqn:E0; [apply Qltb_true in E0|lra].
  destruct (Py.Qleb cpa 3); [lra|].
  destruct (Py.Qleb cpa 5); [lra|].
  destruct (Py.Qleb cpa 10); [lra|].
  destruct (Py.Qleb cpa 20); [lra|].
  apply max_zero_bounds; lra.
Qed.

Lemma insert_by_date_nonneg (x : EventDetail) (l : list EventDetail) :
  attended_nonneg x -> Forall attended_nonneg l -> Forall attended_nonneg (insert_by_date x l).
Proof.
  intros Hx Hl. induction Hl as [|y l Hy Hl IH]; simpl.
  - repeat constructor. exact Hx.
  - destruct (String.leb (date x) (date y)); repeat constructor; assumption.
Qed.

Lemma sorted_by_date_nonneg (l : list EventDetail) :
  Forall attended_nonneg l -> Forall attended_nonneg (sorted_by_date l).
Proof.
  induction 1 as [|x l Hx Hl IH]; simpl; [constructor|].
  apply insert_by_date_nonneg; assumption.
Qed.

Lemma mean_actual_nonneg (l : list EventDetail) :
  Forall attended_nonneg l -> 0 <= mean_actual l.
Proof.
  intros Hl. apply mean_nonneg.
  induction Hl as [|e l He Hl IH]; simpl; constructor; [|exact IH].
  unfold attended_nonneg in He. unfold Qle; simpl; lia.
Qed.

Lemma growth_score_range (l : list EventDetail) :
  Forall attended_nonneg l -> 0 <= growth_score l <= 20.
Proof.
  intros Hl. unfold growth_score.
  destruct (2 <=? length l)%nat; [|lra].
  set (mid := (length l / 2)%nat).
  pose proof (mean_actual_nonneg (firstn mid l) (Forall_take _ mid _ Hl)) as H1.
  pose proof (mean_actual_nonneg (skipn mid l) (Forall_drop _ mid _ Hl)) as H2.
  set (a := mean_actual (firstn mid l)) in *.
  set (b := mean_actual (skipn mid l)) in *.
  destruct (Py.Qleb a b) eqn:E.
  - apply Qleb_true in E.
    apply min_bounds; [lra|].
    destruct (Py.Qltb 0 a) eqn:E0; [|lra].
    apply Qltb_true in E0.
    assert (0 <= (b - a) / a) by (apply Qdiv_nonneg; lra).
    lra.
  - apply Qleb_false in E.
    destruct (Qeq_bool a 0) eqn:Ea; [lra|].
    assert (Hne : ~ a == 0).
    { intros Heq. apply Qeq_bool_iff in Heq. congruence. }
    assert (0 <= (a - b) / a) by (apply Qdiv_nonneg; lra).
    apply max_zero_bounds; lra.
Qed.

(** C2.  For a summary whose events have non-negative actual attendance
    (attendance is a count), the attendance component lies in [0, 40],
    the consistency, growth and efficiency components each lie in
    [0, 20], and the score returned is their sum, rounded to one decimal
    and not clamped: it lies in [0, 100].  The entries of the breakdown,
    which are the components rounded to one decimal, lie in the same
    ranges. *)
Theorem engagement_score_in_range (df : PyValue) (summary : Summary) :
  Forall (fun e => (0 <= actual e)%Z) (events summary) ->
  (0 <= attendance_score (attendance_rate summary) <= 40) /\
  (0 <= consistency_score (map event_attendance_rate (events summary)) <= 20) /\
  (0 <= growth_score (sorted_by_date (events summary)) <= 20) /\
  (0 <= efficiency_score (cost_per_attendee summary) <= 20) /\
  score (calculate_engagement_score df summary)
  = Py.round (attendance_score (attendance_rate summary)
              + consistency_score (map event_attendance_rate (events summary))
              + growth_score (sorted_by_date (events summary))
              + efficiency_score (cost_per_attendee summary)) 1 /\
  (0 <= score (calculate_engagement_score df summary) <= 100) /\
  (0 <= attendance (breakdown (calculate_engagement_score df summary)) <= 40) /\
  (0 <= consistency (breakdown (calculate_engagement_score df summary)) <= 20) /\
  (0 <= growth (breakdown (calculate_engagement_score df summary)) <= 20) /\
  (0 <= efficiency (breakdown (calculate_engagement_score df summary)) <= 20).
Proof.
  intros Hev.
  pose proof (attendance_score_range (attendance_rate summary)) as Ha.
  pose proof (consistency_score_range (map event_attendance_rate (events summary))) as Hc.
  pose proof (growth_score_range _ (sorted_by_date_nonneg _ Hev)) as Hg.
  pose proof (efficiency_score_range (cost_per_attendee summary)) as He.
  assert (Hs : 0 <= Py.round (raw_score summary) 1 <= 100).
  { apply (round_bounds _ 1 0 100). unfold raw_score, inject_Z. lra. }
  assert (Hra := round_bounds _ 1 0 40 Ha).
  assert (Hrc := round_bounds _ 1 0 20 Hc).
  assert (Hrg := round_bounds _ 1 0 20 Hg).
  assert (Hre := round_bounds _ 1 0 20 He).
  unfold calculate_engagement_score.
  cbn [score breakdown attendance consistency growth efficiency].
  repeat (split; [first [assumption | reflexivity]|]). assumption.
Qed.

Lemma engagement_score_in_range_witness :
  0 <= score (calculate_engagement_score (VFrame []) two_event_summary) <= 100.
Proof.
  apply (engagement_score_in_range (VFrame []) two_event_summary).
  repeat constructor; simpl; lia.
Defined.

End EngagementScore.

(** ** The data summary *)

Section DataSummary.

Import Analyzer Spec Scenario.
Local Open Scope Q_scope.

Lemma first_max_snoc_none (done : list (option Q)) (r : nat) (v : Q) :
  first_max done r v -> first_max (done ++ [None]) r v.
Proof.
  intros (Hr & Hall & Hbefore). split; [|split].
  - rewrite lookup_app_l; [exact Hr|]. eapply lookup_lt_Some; exact Hr.
  - intros k w Hk. apply lookup_app_Some in Hk as [Hk|[_ Hk]]; [eauto|].
    apply list_lookup_singleton_Some in Hk as [_ Hk]. discriminate.
  - intros k w Hlt Hk. apply lookup_app_Some in Hk as [Hk|[_ Hk]]; [eauto|].
    apply list_lookup_singleton_Some in Hk as [_ Hk]. discriminate.
Qed.

Lemma first_max_snoc_keep (done : list (option Q)) (r : nat) (v v0 : Q) :
  first_max done r v -> v0 <= v -> first_max (done ++ [Some v0]) r v.
Proof.
  intros (Hr & Hall & Hbefore) Hle. split; [|split].
  - rewrite lookup_app_l; [exact Hr|]. eapply lookup_lt_Some; exact Hr.
  - intros k w Hk. apply lookup_app_Some in Hk as [Hk|[_ Hk]]; [eauto|].
    apply list_lookup_singleton_Some in Hk as [_ Hk]. injection Hk as <-. exact Hle.
  - intros k w Hlt Hk. apply lookup_app_Some in Hk as [Hk|[Hge Hk]]; [eauto|].
    apply lookup_lt_Some in Hr. lia.
Qed.

Lemma first_max_snoc_new (done : list (option Q)) (v0 : Q) :
  (forall k w, done !! k = Some (Some w) -> w < v0) ->
  first_max (done ++ [Some v0]) (length done) v0.
Proof.
  intros Hlt. split; [|split].
  - rewrite lookup_app_r by lia. now rewrite Nat.sub_diag.
  - intros k w Hk. apply lookup_app_Some in Hk as [Hk|[_ Hk]].
    + apply Qlt_le_weak. eauto.
    + apply list_lookup_singleton_Some in Hk as [_ Hk]. injection Hk as <-. lra.
  - intros k w Hk Hw. apply lookup_app_Some in Hw as [Hw|[Hge _]]; [eauto|lia].
Qed.

Lemma idxmax_from_first_max (rest done : list (option Q)) (best : option (nat * Q)) (r : nat) :
  match best with
  | Some (bi, bv) => first_max done bi bv
  | None => forall k w, done !! k = Some (Some w) -> False
  end ->
  idxmax_from best (length done) rest = Some r ->
  exists v, first_max (done ++ rest) r v.
Proof.
  revert done best. induction rest as [|x rest IH]; intros done best Hinv Hrun.
  - simpl in Hrun. destruct best as [[bi bv]|]; [|discriminate].
    injection Hrun as <-. exists bv. now rewrite app_nil_r.
  - simpl in Hrun.
    replace (done ++ x :: rest) with ((done ++ [x]) ++ rest)
      by (now rewrite <- app_assoc).
    replace (S (length done)) with (length (done ++ [x])) in Hrun
      by (rewrite length_app; simpl; lia).
    eapply IH; [|exact Hrun].
    destruct x as [v0|], best as [[bi bv]|].
    + destruct (Py.Qltb bv v0) eqn:E.
      * apply Qltb_true in E. apply first_max_snoc_new.
        intros k w Hk. destruct Hinv as (_ & Hall & _).
        specialize (Hall k w Hk). lra.
      * apply Qltb_false in E. now apply first_max_snoc_keep.
    + apply first_max_snoc_new. intros k w Hk. exfalso. eauto.
    + now apply first_max_snoc_none.
    + intros k w Hk. apply lookup_app_Some in Hk as [Hk|[_ Hk]]; [eauto|].
      apply list_lookup_singleton_Some in Hk as [_ Hk]. discriminate.
Qed.

(** [idxmax] yields the first position that holds the largest value. *)
Lemma idxmax_first_max (column : list (option Q)) (r : nat) :
  idxmax column = Ok r -> exists v, first_max column r v.
Proof.
  unfold idxmax. intros H.
  destruct (idxmax_from None 0 column) as [i|] eqn:E; [|discriminate].
  injection H as ->.
  apply (idxmax_from_first_max column [] None r); [|exact E].
  intros k w Hk. rewrite lookup_nil in Hk. discriminate.
Qed.

Lemma res_map_lookup {A B : Type} (f : A -> Res B) (l : list A) (ys : list B) :
  res_map f l = Ok ys ->
  forall k, match l !! k, ys !! k with
            | Some x, Some y => f x = Ok y
            | None, None => True
            | _, _ => False
            end.
Proof.
  revert ys. induction l as [|x l IH]; intros ys H k.
  - injection H as <-. now rewrite !lookup_nil.
  - simpl in H. destruct (f x) as [y|] eqn:Ef; [|discriminate]. simpl in H.
    destruct (res_map f l) as [ys'|] eqn:El; [|discriminate]. simpl in H.
    injection H as <-. destruct k as [|k]; simpl; [exact Ef|].
    apply (IH ys' eq_refl k).
Qed.

Lemma rate_of_row_ok (row : Row) (o : option Q) :
  rate_of_row row = Ok o ->
  match o with
  | Some q =>
      exists a e, Actual_Attendance row = Some a /\ Expected_Attendance row = Some e /\
                  q = row_rate a e
  | None => Actual_Attendance row = None \/ Expected_Attendance row = None
  end.
Proof.
  unfold rate_of_row, div.
  destruct (Actual_Attendance row) as [a|], (Expected_Attendance row) as [e|];
    try (intros H; injection H as <-; auto; fail).
  destruct (Qeq_bool (inject_Z e) 0); [discriminate|]. simpl.
  intros H. injection H as <-. exists a, e. auto.
Qed.

(** What [prepare_data_summary] selects, read off a successful run. *)
Lemma prepare_data_summary_selection (demographics : option (gmap string Z))
      (df : DataFrame) (summary : Summary) :
  prepare_data_summary demographics df = Ok summary ->
  exists rates best best_rate_idx,
    res_map rate_of_row df = Ok rates /\
    idxmax (map (fun row => option_map inject_Z (Actual_Attendance row)) df) = Ok best /\
    idxmax rates = Ok best_rate_idx /\
    best_performing_event summary = event_name_at df best /\
    best_conversion_event summary = event_name_at df best_rate_idx /\
    best_conversion_rate summary = Py.round (default 0 (mjoin (rates !! best_rate_idx))) 1.
Proof.
  unfold prepare_data_summary.
  destruct (map Date df) as [|d0 dates]; [discriminate|].
  repeat match goal with
         | |- context [res_bind ?r _] =>
             let E := fresh "E" in
             destruct r eqn:E; simpl; [|discriminate]
         end.
  intros H. injection H as <-. simpl. eauto 10.
Qed.

(** C3.  The dataset of three events A (expected 100, actual 90, budget
    500), B (expected 200, actual 150, no budget) and C (expected 50,
    actual 50, budget 300), in this order and with any dates and types,
    has the summary: 3 events, 290 attendees, 350 registered, attendance
    rate 82.9, total budget 800, cost per attendee 2.76, best performing
    event B with 150 attendees, best conversion event C at rate 100.  In
    every summary the best performing event is the first row of the
    largest actual attendance, and the best conversion event is the first
    row of the largest rate actual / expected * 100. *)
Theorem three_event_scenario :
  (forall demographics dA dB dC tA tB tC,
      exists summary,
        prepare_data_summary demographics (three_events dA dB dC tA tB tC) = Ok summary /\
        total_events summary = 3%Z /\
        total_attendees summary = 290%Z /\
        total_registered summary = 350%Z /\
        attendance_rate summary == 82.9 /\
        present_eq (total_budget summary) 800.0 /\
        present_eq (cost_per_attendee summary) 2.76 /\
        best_performing_event summary = "B" /\
        highest_attendance summary = 150%Z /\
        best_conversion_event summary = "C" /\
        best_conversion_rate summary == 100.0) /\
  (forall demographics df summary,
      prepare_data_summary demographics df = Ok summary ->
      (exists i row a,
          df !! i = Some row /\ Actual_Attendance row = Some a /\
          best_performing_event summary = Event_Name row /\
          (forall k row' a',
              df !! k = Some row' -> Actual_Attendance row' = Some a' -> (a' <= a)%Z) /\
          (forall k row' a',
              (k < i)%nat -> df !! k = Some row' -> Actual_Attendance row' = Some a' ->
              (a' < a)%Z)) /\
      (exists i row a e,
          df !! i = Some row /\
          Actual_Attendance row = Some a /\ Expected_Attendance row = Some e /\
          best_conversion_event summary = Event_Name row /\
          best_conversion_rate summary = Py.round (row_rate a e) 1 /\
          (forall k row' a' e',
              df !! k = Some row' ->
              Actual_Attendance row' = Some a' -> Expected_Attendance row' = Some e' ->
              row_rate a' e' <= row_rate a e) /\
          (forall k row' a' e',
              (k < i)%nat -> df !! k = Some row' ->
              Actual_Attendance row' = Some a' -> Expected_Attendance row' = Some e' ->
              row_rate a' e' < row_rate a e))).
Proof.
  split.
  { intros. eexists. split.
    - unfold prepare_data_summary, three_events.
      cbn -[calculate_engagement_score value_counts summary_demographics
            string_min string_max].
      reflexivity.
    - cbn. repeat split. }
  intros demographics df summary Hok.
  apply prepare_data_summary_selection in Hok
    as (rates & best & bri & Hrates & Hbest & Hbri & -> & -> & ->).
  apply idxmax_first_max in Hbest as (v & Hv & Hall & Hbefore).
  apply idxmax_first_max in Hbri as (w & Hw & Hwall & Hwbefore).
  split.
  - rewrite list_lookup_fmap in Hv.
    destruct (df !! best) as [row|] eqn:Erow; cbn in Hv; [|discriminate Hv].
    injection Hv as Hv.
    destruct (Actual_Attendance row) as [a|] eqn:Ea; cbn in Hv; [|discriminate Hv].
    injection Hv as <-.
    assert (Hcol : forall k row' a',
               df !! k = Some row' -> Actual_Attendance row' = Some a' ->
               map (fun row => option_map inject_Z (Actual_Attendance row)) df !! k
               = Some (Some (inject_Z a'))).
    { intros k row' a' Hk Ha'. rewrite list_lookup_fmap, Hk. simpl. now rewrite Ha'. }
    exists best, row, a. unfold event_name_at. rewrite Erow.
    repeat split; try assumption.
    + intros k row' a' Hk Ha'. rewrite Zle_Qle. apply (Hall k). eauto.
    + intros k row' a' Hlt Hk Ha'. rewrite Zlt_Qlt. apply (Hbefore k); eauto.
  - pose proof (res_map_lookup _ _ _ Hrates) as Hlook.
    assert (Hcol : forall k row' a' e',
               df !! k = Some row' ->
               Actual_Attendance row' = Some a' -> Expected_Attendance row' = Some e' ->
               rates !! k = Some (Some (row_rate a' e'))).
    { intros k row' a' e' Hk Ha' He'. specialize (Hlook k). rewrite Hk in Hlook.
      destruct (rates !! k) as [y|]; [|contradiction].
      unfold rate_of_row, div in Hlook. rewrite Ha', He' in Hlook.
      destruct (Qeq_bool (inject_Z e') 0); [discriminate|].
      simpl in Hlook. injection Hlook as <-. reflexivity. }
    pose proof (Hlook bri) as Hrow. rewrite Hw in Hrow.
    destruct (df !! bri) as [row|] eqn:Erow; [|contradiction].
    apply rate_of_row_ok in Hrow as (a & e & Ha & He & ->).
    exists bri, row, a, e. unfold event_name_at. rewrite Erow, Hw. simpl.
    repeat split; try assumption.
    + intros k row' a' e' Hk Ha' He'. apply (Hwall k). eauto.
    + intros k row' a' e' Hlt Hk Ha' He'. apply (Hwbefore k); eauto.
Qed.

End DataSummary.

(** ** Loops that stop at the first value found *)

Section FirstSome.

Context {B : Type}.

Lemma first_some_seq_Some (f : nat -> option B) (n a : nat) (y : B) :
  first_some f (seq a n) = Some y <->
  exists x, (a <= x < a + n)%nat /\ f x = Some y /\
            forall x', (a <= x' < x)%nat -> f x' = None.
Proof.
  revert a. induction n as [|n IH]; intros a; simpl.
  - split; [discriminate|]. intros (x & Hx & _). lia.
  - destruct (f a) as [y0|] eqn:Ea.
    + split.
      * intros H. injection H as <-. exists a. split; [lia|]. split; [exact Ea|].
        intros x' Hx'. lia.
      * intros (x & Hx & Hfx & Hbefore).
        destruct (Nat.eq_dec x a) as [->|Hne]; [congruence|].
        rewrite (Hbefore a) in Ea by lia. discriminate.
    + rewrite IH. split.
      * intros (x & Hx & Hfx & Hbefore). exists x. split; [lia|]. split; [exact Hfx|].
        intros x' Hx'. destruct (Nat.eq_dec x' a) as [->|Hne]; [exact Ea|].
        apply Hbefore. lia.
      * intros (x & Hx & Hfx & Hbefore). exists x.
        assert (x <> a) by congruence.
        split; [lia|]. split; [exact Hfx|]. intros x' Hx'. apply Hbefore. lia.
Qed.

Lemma first_some_seq_None (f : nat -> option B) (n a : nat) :
  first_some f (seq a n) = None <-> forall x, (a <= x < a + n)%nat -> f x = None.
Proof.
  revert a. induction n as [|n IH]; intros a; simpl.
  - split; [intros _ x Hx; lia|reflexivity].
  - destruct (f a) as [y0|] eqn:Ea.
    + split; [discriminate|]. intros H. rewrite (H a) in Ea by lia. discriminate.
    + rewrite IH. split.
      * intros H x Hx. destruct (Nat.eq_dec x a) as [->|Hne]; [exact Ea|].
        apply H. lia.
      * intros H x Hx. apply H. lia.
Qed.

Lemma first_some_range_Some (f : nat -> option B) (a b : nat) (y : B) :
  first_some f (Py.range a b) = Some y <->
  exists x, (a <= x < b)%nat /\ f x = Some y /\
            forall x', (a <= x' < x)%nat -> f x' = None.
Proof.
  unfold Py.range. rewrite first_some_seq_Some.
  split; intros (x & Hx & H); exists x; (split; [lia|exact H]).
Qed.

Lemma first_some_range_None (f : nat -> option B) (a b : nat) :
  first_some f (Py.range a b) = None <-> forall x, (a <= x < b)%nat -> f x = None.
Proof.
  unfold Py.range. rewrite first_some_seq_None.
  split; intros H x Hx; apply H; lia.
Qed.

End FirstSome.

(** ** Budget recovery *)

Section BudgetRecovery.

Import Extractor ExtractorSpec Scenario.

Lemma above_100_Some (c : Cell) (v : Q) :
  above_100 c = Some v <->
  (exists z, c = CInt z /\ 100 < z /\ v = inject_Z z) \/
  (exists q, c = CFloat q /\ (100 < q)%Q /\ v = q).
Proof.
  split.
  - destruct c as [|s|z|q|b|d]; simpl; try discriminate.
    + destruct (100 <? z) eqn:E; [|discriminate].
      intros H. injection H as <-. left. exists z. repeat split. lia.
    + destruct (Py.Qltb 100 q) eqn:E; [|discriminate].
      intros H. injection H as <-. right. exists q. repeat split.
      now apply Qltb_true.
  - intros [(z & -> & Hz & ->)|(q & -> & Hq & ->)]; simpl.
    + destruct (100 <? z) eqn:E; [reflexivity|lia].
    + apply Qltb_true in Hq. now rewrite Hq.
Qed.

Lemma budget_value_Some (budget : Grid) (i k : nat) (v : Q) :
  budget_value budget i k = Some v <->
  (exists z, iloc budget i k = CInt z /\ int64_column budget k = false /\
             100 < z /\ v = inject_Z z) \/
  (exists q, iloc budget i k = CFloat q /\ (100 < q)%Q /\ v = q).
Proof.
  unfold budget_value, int_or_float. split.
  - destruct (iloc budget i k) as [|s|z|q|b|d] eqn:Ec; cbn [notna andb];
      try discriminate.
    + destruct (int64_column budget k) eqn:Ecol; cbn [negb]; [discriminate|].
      intros H. apply above_100_Some in H as [(z' & Hz' & Hz & ->)|(q & Hq & _)];
        [|discriminate].
      injection Hz' as <-. left. exists z. auto.
    + intros H. apply above_100_Some in H as [(z & Hz & _)|(q' & Hq' & Hq & ->)];
        [discriminate|].
      injection Hq' as <-. right. exists q. auto.
    + destruct (existsb _ budget); discriminate.
  - intros [(z & -> & Hcol & Hz & ->)|(q & -> & Hq & ->)]; cbn [notna andb].
    + rewrite Hcol. cbn [negb above_100].
      destruct (100 <? z) eqn:E; [reflexivity|lia].
    + cbn [above_100]. apply Qltb_true in Hq. now rewrite Hq.
Qed.

Lemma budget_value_above (budget : Grid) (i k : nat) (v : Q) :
  budget_value budget i k = Some v -> (100 < v)%Q.
Proof.
  intros H. apply budget_value_Some in H as [(z & _ & _ & Hz & ->)|(q & _ & Hq & ->)].
  - change 100%Q with (inject_Z 100). rewrite <- Zlt_Qlt. exact Hz.
  - exact Hq.
Qed.

Lemma budget_at_Some (budget : Grid) (i j : nat) (v : Q) :
  budget_at budget i j = Some v <->
  budget_label (cell_text (iloc budget i j)) = true /\
  exists k, (j < k <= j + 4)%nat /\ (k < ncols budget)%nat /\
            budget_value budget i k = Some v /\
            (forall k', (j < k' < k)%nat -> budget_value budget i k' = None).
Proof.
  unfold budget_at, budget_right_of.
  destruct (budget_label _).
  - rewrite first_some_range_Some. split.
    + intros (k & Hk & Hv & Hbefore). split; [reflexivity|].
      exists k. repeat split; try lia; [exact Hv|].
      intros k' Hk'. apply Hbefore. lia.
    + intros (_ & k & Hk & Hc & Hv & Hbefore).
      exists k. repeat split; try lia; [exact Hv|].
      intros k' Hk'. apply Hbefore. lia.
  - split; [discriminate|]. intros [H _]. discriminate.
Qed.

Lemma budget_hit_at (budget : Grid) (i j k : nat) (v : Q) :
  budget_hit budget i j k v -> budget_at budget i j = Some v.
Proof.
  intros (_ & _ & Hl & Hk & Hc & Hv & Hbefore).
  apply budget_at_Some. split; [exact Hl|]. exists k. auto.
Qed.

Lemma budget_scan_Some (budget : Grid) (v : Q) :
  budget_scan budget = Some v <->
  exists i j k,
    budget_hit budget i j k v /\
    forall i' j' k' v',
      budget_hit budget i' j' k' v' -> ~ row_major_before (i', j') (i, j).
Proof.
  unfold budget_scan. rewrite first_some_range_Some. split.
  - intros (i & Hi & Hrow & Hrows).
    apply first_some_range_Some in Hrow as (j & Hj & Hat & Hcols).
    pose proof Hat as Hat'.
    apply budget_at_Some in Hat' as (Hl & k & Hk & Hc & Hv & Hbefore).
    exists i, j, k. split.
    + unfold budget_hit. repeat split; try lia; assumption.
    + intros i' j' k' v' Hhit [Hlt|[Heq Hlt]]; simpl in *.
      * pose proof Hhit as (Hi' & Hj' & _).
        apply budget_hit_at in Hhit.
        specialize (Hrows i' ltac:(lia)).
        rewrite first_some_range_None in Hrows.
        rewrite (Hrows j') in Hhit by lia. discriminate.
      * subst i'. apply budget_hit_at in Hhit.
        rewrite (Hcols j') in Hhit by lia. discriminate.
  - intros (i & j & k & Hhit & Hfirst).
    pose proof Hhit as (Hi & Hj & _).
    exists i. split; [lia|]. split.
    + apply first_some_range_Some. exists j. split; [lia|]. split.
      * eapply budget_hit_at; exact Hhit.
      * intros j' Hj'.
        destruct (budget_at budget i j') as [v'|] eqn:E; [|reflexivity].
        exfalso. apply budget_at_Some in E as (Hl & k' & Hk' & Hc' & Hv' & Hb').
        apply (Hfirst i j' k' v').
        -- unfold budget_hit. repeat split; try lia; assumption.
        -- right. simpl. lia.
    + intros i' Hi'. apply first_some_range_None. intros j' Hj'.
      destruct (budget_at budget i' j') as [v'|] eqn:E; [|reflexivity].
      exfalso. apply budget_at_Some in E as (Hl & k' & Hk' & Hc' & Hv' & Hb').
      apply (Hfirst i' j' k' v').
      * unfold budget_hit. repeat split; try lia; assumption.
      * left. simpl. lia.
Qed.

Lemma budget_scan_None (budget : Grid) :
  budget_scan budget = None <-> forall i j k v, ~ budget_hit budget i j k v.
Proof.
  unfold budget_scan. rewrite first_some_range_None. split.
  - intros H i j k v Hhit. pose proof Hhit as (Hi & Hj & _).
    apply budget_hit_at in Hhit.
    specialize (H i ltac:(lia)). rewrite first_some_range_None in H.
    rewrite (H j) in Hhit by lia. discriminate.
  - intros H i Hi. apply first_some_range_None. intros j Hj.
    destruct (budget_at budget i j) as [v|] eqn:E; [|reflexivity].
    exfalso. apply budget_at_Some in E as (Hl & k & Hk & Hc & Hv & Hb).
    apply (H i j k v). unfold budget_hit. repeat split; try lia; assumption.
Qed.

(** C7, as amended.  The budget of a workbook is the first value that
    passes the test of the code within four cells to the right of a label
    cell, for the first label cell in row-major order that has such a
    value.  Labels are the cells whose text contains "Overall Total" or,
    once put in upper case, "TOTAL": "Subtotal" and "total" are labels.
    A value passes when it is above 100 and a [float] or an [int] for
    Python: a float, or an integer of a column that does not hold integers
    only.  With no such label and value, and with no Budget sheet, the
    budget is absent.  The sheets show each rule at work; on the last
    two, an integer total alone in its column is not found, and is found
    once the column has a header. *)
Theorem budget_is_first_qualifying_total :
  (forall budget v,
      extract_budget_data (Some budget) = Some v <->
      exists i j k,
        budget_hit budget i j k v /\
        forall i' j' k' v',
          budget_hit budget i' j' k' v' -> ~ row_major_before (i', j') (i, j)) /\
  (forall budget,
      extract_budget_data (Some budget) = None <->
      forall i j k v, ~ budget_hit budget i j k v) /\
  (forall budget i k v,
      budget_value budget i k = Some v <->
      (exists z, iloc budget i k = CInt z /\ int64_column budget k = false /\
                 100 < z /\ v = inject_Z z) \/
      (exists q, iloc budget i k = CFloat q /\ (100 < q)%Q /\ v = q)) /\
  (forall budget v, extract_budget_data (Some budget) = Some v -> (100 < v)%Q) /\
  (forall cell,
      budget_label cell
      = Py.contains "Overall Total" cell || Py.contains "TOTAL" (Py.upper cell)) /\
  extract_budget_data None = None /\
  extract_budget_data (Some budget_sheet) = Some 895.5%Q /\
  extract_budget_data (Some subtotal_budget) = Some 250.5%Q /\
  extract_budget_data (Some wide_budget) = Some 2500.5%Q /\
  extract_budget_data (Some far_budget) = None /\
  extract_budget_data (Some whole_number_budget) = None /\
  extract_budget_data (Some whole_number_budget_with_header) = Some 500%Q.
Proof.
  split; [exact budget_scan_Some|].
  split; [exact budget_scan_None|].
  split; [exact budget_value_Some|].
  split.
  { intros budget v H. simpl in H.
    apply budget_scan_Some in H as (i & j & k & Hhit & _).
    destruct Hhit as (_ & _ & _ & _ & _ & Hv & _).
    eapply budget_value_above; exact Hv. }
  repeat split; vm_compute; reflexivity.
Qed.

(** C7, as stated, fails.  On a sheet with a subtotal above the total
    the code takes the subtotal, whose label holds "total" in lower case;
    and it finds no budget when the total is a whole number alone in its
    column. *)
Lemma budget_is_not_as_stated :
  ~ budget_as_stated /\
  extract_budget_data (Some subtotal_budget) = Some 250.5%Q /\
  stated_budget subtotal_budget = Some 1200.75%Q /\
  extract_budget_data (Some whole_number_budget) = None /\
  stated_budget whole_number_budget = Some 500%Q.
Proof.
  split.
  - intros H. specialize (H subtotal_budget). vm_compute in H. discriminate H.
  - repeat split; vm_compute; reflexivity.
Qed.

End BudgetRecovery.

(** ** Demographics recovery *)

Section DemographicsRecovery.

Import Extractor ExtractorSpec Scenario.

Lemma counting_invariant_start : counting_invariant demographics0.
Proof.
  split; [reflexivity|]. intros k n H. unfold demographics0 in H.
  repeat (apply lookup_insert_Some in H as [[<- <-]|[_ H]];
          [split; [lia|]; split; [simpl; tauto|lia]|]).
  rewrite lookup_empty in H. discriminate.
Qed.

Lemma counting_invariant_incr (key : string) (d : gmap string Z) :
  In key counted_categories -> counting_invariant d -> counting_invariant (incr key d).
Proof.
  intros Hkey [Hother Hall]. unfold incr. split.
  - rewrite lookup_insert_ne; [exact Hother|].
    intros Heq. rewrite Heq in Hkey. simpl in Hkey. intuition discriminate.
  - intros k n H. apply lookup_insert_Some in H as [[<- <-]|[_ H]]; [|eauto].
    assert (0 <= d !!! key).
    { rewrite lookup_total_alt. destruct (d !! key) as [m|] eqn:E; simpl; [|lia].
      apply (Hall key m E). }
    split; [lia|]. split; [right; exact Hkey|]. intros _. exact Hkey.
Qed.

Lemma counting_invariant_cell (val : string) (d : gmap string Z) :
  counting_invariant d -> counting_invariant (count_cell val d).
Proof.
  intros H. unfold count_cell.
  repeat match goal with
         | |- context [if ?b then _ else _] => destruct b
         end;
    try exact H; apply counting_invariant_incr; try exact H; simpl; tauto.
Qed.

Lemma counting_invariant_cells (attendees : Grid) :
  counting_invariant (count_cells attendees).
Proof.
  unfold count_cells.
  generalize (positions attendees) as ps.
  generalize counting_invariant_start. generalize demographics0 as d.
  intros d Hd ps. revert d Hd.
  induction ps as [|[i j] ps IH]; intros d Hd; simpl; [exact Hd|].
  apply IH. now apply counting_invariant_cell.
Qed.

(** C10.  Whenever [extract_demographics] returns a dictionary, its
    count for "Other" is 0: every count is non-negative, every key is one
    of the seven categories, and only Freshman, Sophomore, Junior,
    Senior, Graduate and Alumni can have a positive count. *)
Theorem other_is_never_counted (sheet : option Grid) (d : gmap string Z) :
  extract_demographics sheet = Some d ->
  d !! "Other" = Some 0 /\
  (forall k n, d !! k = Some n -> 0 <= n /\ (k = "Other" \/ In k counted_categories)) /\
  (forall k n, d !! k = Some n -> 0 < n -> In k counted_categories).
Proof.
  unfold extract_demographics. destruct sheet as [attendees|]; [|discriminate].
  destruct (5 <? dict_sum (count_cells attendees)); [|discriminate].
  intros H. injection H as <-.
  destruct (counting_invariant_cells attendees) as [Hother Hall].
  split; [exact Hother|]. split.
  - intros k n Hk. destruct (Hall k n Hk) as (? & ? & _). auto.
  - intros k n Hk Hn. destruct (Hall k n Hk) as (_ & _ & Hpos). auto.
Qed.

Lemma other_is_never_counted_witness :
  count_cells attendee_sheet !! "Other" = Some 0 /\
  count_cells attendee_sheet !! "Freshman" = Some 6.
Proof.
  split.
  - apply (other_is_never_counted (Some attendee_sheet) (count_cells attendee_sheet)).
    vm_compute. reflexivity.
  - vm_compute. reflexivity.
Defined.

End DemographicsRecovery.

(** ** Events without a name *)

Section NamelessEvents.

Import Extractor ExtractorSpec Scenario.

Lemma process_file_kept (acc : list EventData * gmap string Z) (file : string * Workbook) :
  fst (process_file acc file)
  = fst acc ++ match kept file with Some e => [e] | None => [] end.
Proof.
  destruct acc as [events all], file as [filename wb].
  unfold process_file, kept. simpl.
  destruct (selected filename); [|now rewrite app_nil_r].
  destruct (keep_event wb); simpl; [reflexivity|now rewrite app_nil_r].
Qed.

Lemma fold_process_file_kept (folder : list (string * Workbook))
      (acc : list EventData * gmap string Z) :
  fst (fold_left process_file folder acc) = fst acc ++ omap kept folder.
Proof.
  revert acc. induction folder as [|file folder IH]; intros acc; simpl.
  - now rewrite app_nil_r.
  - rewrite IH, process_file_kept.
    destruct (kept file); simpl; rewrite <- app_assoc; reflexivity.
Qed.

(** The events of the dataset are what the selected files contribute,
    in the order of the listing. *)
Lemma extract_all_events_kept (folder : list (string * Workbook)) :
  fst (extract_all_events folder) = omap kept folder.
Proof. unfold extract_all_events. now rewrite fold_process_file_kept. Qed.

Lemma omap_length_le {A C : Type} (f : A -> option C) (l : list A) :
  (length (omap f l) <= length l)%nat.
Proof.
  induction l as [|x l IH]; csimpl; [lia|]. destruct (f x); csimpl; lia.
Qed.

Lemma keep_event_named (wb : Workbook) (event : EventData) :
  keep_event wb = Some event ->
  exists event_data name,
    extract_event_from_workbook wb = Some event_data /\
    Event_Name event_data = Some name /\ name <> "" /\
    Event_Name event = Some name.
Proof.
  unfold keep_event.
  destruct (extract_event_from_workbook wb) as [event_data|]; [|discriminate].
  destruct (Event_Name event_data) as [name|] eqn:En; [|discriminate].
  destruct (String.eqb name "") eqn:Ee; simpl; [discriminate|].
  intros H. injection H as <-. exists event_data, name.
  repeat split; try assumption.
  intros ->. simpl in Ee. discriminate.
Qed.

Lemma keep_event_nameless (wb : Workbook) :
  (forall event_data,
      extract_event_from_workbook wb = Some event_data -> Event_Name event_data = None) ->
  keep_event wb = None.
Proof.
  intros H. unfold keep_event.
  destruct (extract_event_from_workbook wb) as [event_data|]; [|reflexivity].
  now rewrite (H event_data eq_refl).
Qed.

Lemma process_file_nameless (acc : list EventData * gmap string Z)
      (filename : string) (wb : Workbook) :
  keep_event wb = None -> process_file acc (filename, wb) = acc.
Proof.
  intros H. destruct acc as [events all]. unfold process_file.
  rewrite H. now destruct (selected filename).
Qed.

Lemma name_at_only_Event (overview : Grid) (i j : nat) :
  only_long_text_is_Event overview -> name_at (iloc overview i j) = None.
Proof.
  intros Honly. unfold name_at.
  destruct (iloc overview i j) as [|s| | | |] eqn:Ec; try reflexivity.
  destruct (3 <? String.length s)%nat eqn:El; [|reflexivity].
  apply Nat.ltb_lt in El.
  rewrite (Honly i j s Ec El). reflexivity.
Qed.

Lemma find_event_name_only_Event (overview : Grid) :
  only_long_text_is_Event overview -> find_event_name overview = None.
Proof.
  intros Honly. unfold find_event_name.
  apply first_some_range_None. intros i _.
  apply first_some_range_None. intros j _.
  now apply name_at_only_Event.
Qed.

(** C8.  The dataset holds at most one event per workbook of the folder,
    and each of its events has a name recovered from its workbook; a
    workbook from which no name is recovered leaves no trace in the
    result.  An overview sheet whose only text longer than three
    characters is "Event" yields no name, so its workbook is dropped. *)
Theorem nameless_workbooks_are_dropped :
  (forall folder,
      (length (fst (extract_all_events folder)) <= length folder)%nat) /\
  (forall folder event,
      In event (fst (extract_all_events folder)) ->
      exists filename wb event_data name,
        In (filename, wb) folder /\
        extract_event_from_workbook wb = Some event_data /\
        Event_Name event_data = Some name /\ Event_Name event = Some name) /\
  (forall before after filename wb,
      (forall event_data,
          extract_event_from_workbook wb = Some event_data ->
          Event_Name event_data = None) ->
      extract_all_events (before ++ (filename, wb) :: after)
      = extract_all_events (before ++ after)) /\
  (forall overview,
      only_long_text_is_Event overview -> find_event_name overview = None) /\
  (forall wb overview,
      Overview wb = Some overview -> only_long_text_is_Event overview ->
      (exists event_data,
          extract_event_from_workbook wb = Some event_data /\
          Event_Name event_data = None) /\
      keep_event wb = None) /\
  only_long_text_is_Event overview_with_only_Event /\
  extract_all_events [("Diwali Event Management.xlsx", nameless_workbook)] = ([], ∅).
Proof.
  split; [|split; [|split; [|split; [|split; [|split]]]]].
  - intros folder. rewrite extract_all_events_kept. apply omap_length_le.
  - intros folder event Hin. rewrite extract_all_events_kept in Hin.
    apply list_elem_of_In, list_elem_of_omap in Hin as ([filename wb] & Hfile & Hkept).
    unfold kept in Hkept. simpl in Hkept.
    destruct (selected filename); [|discriminate].
    apply keep_event_named in Hkept as (event_data & name & H1 & H2 & _ & H3).
    exists filename, wb, event_data, name.
    repeat split; try assumption. now apply list_elem_of_In.
  - intros before after filename wb Hnone. unfold extract_all_events.
    rewrite !fold_left_app. simpl.
    rewrite process_file_nameless; [reflexivity|].
    now apply keep_event_nameless.
  - exact find_event_name_only_Event.
  - intros wb overview Hov Honly.
    assert (Hex : exists event_data,
               extract_event_from_workbook wb = Some event_data /\
               Event_Name event_data = None).
    { unfold extract_event_from_workbook. rewrite Hov.
      eexists. split; [reflexivity|]. simpl.
      now apply find_event_name_only_Event. }
    split; [exact Hex|].
    destruct Hex as (event_data & He & Hn). unfold keep_event. now rewrite He, Hn.
  - intros i j s Hc Hlen.
    destruct i as [|[|i]]; destruct j as [|[|j]];
      unfold iloc in Hc; simpl in Hc;
      try (destruct j; simpl in Hc); try (destruct i; simpl in Hc);
      try discriminate; injection Hc as <-; simpl in Hlen; try lia; reflexivity.
  - vm_compute. reflexivity.
Qed.

End NamelessEvents.

(** ** Attendance recovery *)

Section AttendanceRecovery.

Import Extractor ExtractorSpec Scenario.

Lemma rsvp_scan_app (rsvp : Grid) (a : Attendance) (l1 l2 : list (nat * nat)) :
  rsvp_scan rsvp a (l1 ++ l2)
  = scan_bind (rsvp_scan rsvp a l1) (fun a' => rsvp_scan rsvp a' l2).
Proof.
  revert a. induction l1 as [|p l1 IH]; intros a; cbn [rsvp_scan app scan_bind];
    [reflexivity|].
  destruct (rsvp_cell rsvp a p) as [a'|a']; cbn [scan_bind]; [apply IH|reflexivity].
Qed.

(** *** One label *)

Lemma take_right_keeps (rsvp : Grid) (i j : nat) (side : Side) (a : Attendance) :
  right_cell rsvp i j (offset side) = None ->
  field side (scan_result (take_right rsvp i j a)) = field side a.
Proof.
  unfold right_cell, take_right, set_registered, set_attended.
  destruct side; simpl; intros H.
  - destruct ((j + 1 <? ncols rsvp)%nat && notna (iloc rsvp i (j + 1))); [discriminate|].
    simpl.
    destruct ((j + 2 <? ncols rsvp)%nat && notna (iloc rsvp i (j + 2))); [|reflexivity].
    destruct (py_int (iloc rsvp i (j + 2))); reflexivity.
  - destruct ((j + 2 <? ncols rsvp)%nat && notna (iloc rsvp i (j + 2))); [discriminate|].
    destruct ((j + 1 <? ncols rsvp)%nat && notna (iloc rsvp i (j + 1))); [|reflexivity].
    destruct (py_int (iloc rsvp i (j + 1))); reflexivity.
Qed.

Lemma take_right_runs (rsvp : Grid) (i j : nat) (a : Attendance) :
  coercible rsvp i j -> exists a', take_right rsvp i j a = Running a'.
Proof.
  intros Hc.
  pose proof (Hc ExpectedSide) as H1. pose proof (Hc ActualSide) as H2.
  unfold right_cell, take_right, set_registered, set_attended in *. simpl in H1, H2.
  destruct ((j + 1 <? ncols rsvp)%nat && notna (iloc rsvp i (j + 1))).
  - destruct (H1 _ eq_refl) as [z1 ->]. simpl.
    destruct ((j + 2 <? ncols rsvp)%nat && notna (iloc rsvp i (j + 2))); [|eauto].
    destruct (H2 _ eq_refl) as [z2 ->]. eauto.
  - simpl.
    destruct ((j + 2 <? ncols rsvp)%nat && notna (iloc rsvp i (j + 2))); [|eauto].
    destruct (H2 _ eq_refl) as [z2 ->]. eauto.
Qed.

Lemma take_right_sets (rsvp : Grid) (i j : nat) (side : Side) (a : Attendance)
      (c : Cell) (z : Z) :
  coercible rsvp i j ->
  right_cell rsvp i j (offset side) = Some c -> py_int c = Some z ->
  exists a', take_right rsvp i j a = Running a' /\ field side a' = Some z.
Proof.
  intros Hc Hr Hz.
  pose proof (Hc ExpectedSide) as H1. pose proof (Hc ActualSide) as H2.
  unfold right_cell, take_right, set_registered, set_attended in *. simpl in H1, H2.
  destruct side; simpl in Hr.
  - destruct ((j + 1 <? ncols rsvp)%nat && notna (iloc rsvp i (j + 1))); [|discriminate].
    injection Hr as <-. rewrite Hz. simpl.
    destruct ((j + 2 <? ncols rsvp)%nat && notna (iloc rsvp i (j + 2))); [|eauto].
    destruct (H2 _ eq_refl) as [z2 ->]. eauto.
  - destruct ((j + 2 <? ncols rsvp)%nat && notna (iloc rsvp i (j + 2))); [|discriminate].
    injection Hr as <-.
    destruct ((j + 1 <? ncols rsvp)%nat && notna (iloc rsvp i (j + 1))).
    + destruct (H1 _ eq_refl) as [z1 ->]. simpl. rewrite Hz. eauto.
    + simpl. rewrite Hz. eauto.
Qed.

(** *** One cell *)

Lemma rsvp_cell_keeps (rsvp : Grid) (i j : nat) (side : Side) (a : Attendance) :
  (attendance_label (cell_text (iloc rsvp i j)) = true ->
   right_cell rsvp i j (offset side) = None) ->
  field side (scan_result (rsvp_cell rsvp a (i, j))) = field side a.
Proof.
  unfold attendance_label, rsvp_cell. intros H.
  destruct (total_rsvp_label _) eqn:E1, (raw_tickets_label _) eqn:E2; simpl in *;
    try reflexivity.
  - pose proof (take_right_keeps rsvp i j side a (H eq_refl)) as K1.
    destruct (take_right rsvp i j a) as [a1|a1]; simpl in *; [|exact K1].
    rewrite <- K1. apply take_right_keeps. auto.
  - pose proof (take_right_keeps rsvp i j side a (H eq_refl)) as K1.
    destruct (take_right rsvp i j a) as [a1|a1]; simpl in *; exact K1.
  - apply take_right_keeps. auto.
Qed.

Lemma rsvp_cell_runs (rsvp : Grid) (i j : nat) (a : Attendance) :
  (attendance_label (cell_text (iloc rsvp i j)) = true -> coercible rsvp i j) ->
  exists a', rsvp_cell rsvp a (i, j) = Running a'.
Proof.
  unfold attendance_label, rsvp_cell. intros H.
  destruct (total_rsvp_label _) eqn:E1, (raw_tickets_label _) eqn:E2; simpl in *;
    eauto.
  - destruct (take_right_runs rsvp i j a (H eq_refl)) as [a1 ->]. simpl.
    apply take_right_runs. auto.
  - destruct (take_right_runs rsvp i j a (H eq_refl)) as [a1 ->]. simpl. eauto.
  - apply take_right_runs. auto.
Qed.

Lemma rsvp_cell_sets (rsvp : Grid) (i j : nat) (side : Side) (a : Attendance)
      (c : Cell) (z : Z) :
  attendance_label (cell_text (iloc rsvp i j)) = true ->
  coercible rsvp i j ->
  right_cell rsvp i j (offset side) = Some c -> py_int c = Some z ->
  exists a', rsvp_cell rsvp a (i, j) = Running a' /\ field side a' = Some z.
Proof.
  unfold attendance_label, rsvp_cell. intros Hl Hc Hr Hz.
  destruct (total_rsvp_label _) eqn:E1, (raw_tickets_label _) eqn:E2; simpl in *;
    try discriminate.
  - destruct (take_right_runs rsvp i j a Hc) as [a1 ->]. simpl.
    eapply take_right_sets; eassumption.
  - destruct (take_right_sets rsvp i j side a c z Hc Hr Hz) as (a1 & -> & Hf).
    simpl. eauto.
  - eapply take_right_sets; eassumption.
Qed.

(** *** A neighbour that is no number *)

Lemma take_right_fails (rsvp : Grid) (i j : nat) (a : Attendance) :
  rejected rsvp i j 1 \/ rejected rsvp i j 2 ->
  take_right rsvp i j a = Raised (left_by_failure rsvp i j a).
Proof.
  unfold rejected, left_by_failure, right_cell, take_right, set_registered,
    set_attended.
  destruct a as [r t]. cbn [registered attended].
  destruct ((j + 1 <? ncols rsvp)%nat && notna (iloc rsvp i (j + 1))).
  - destruct (py_int (iloc rsvp i (j + 1))) as [z1|] eqn:E1; cbn [scan_bind].
    + intros [(c & Hc & Hn)|(c & Hc & Hn)].
      * injection Hc as <-. congruence.
      * destruct ((j + 2 <? ncols rsvp)%nat && notna (iloc rsvp i (j + 2)));
          [|discriminate].
        injection Hc as <-. now rewrite Hn.
    + reflexivity.
  - cbn [scan_bind]. intros [(c & Hc & _)|(c & Hc & Hn)]; [discriminate|].
    destruct ((j + 2 <? ncols rsvp)%nat && notna (iloc rsvp i (j + 2)));
      [|discriminate].
    injection Hc as <-. now rewrite Hn.
Qed.

Lemma rsvp_cell_fails (rsvp : Grid) (i j : nat) (a : Attendance) :
  attendance_label (cell_text (iloc rsvp i j)) = true ->
  rejected rsvp i j 1 \/ rejected rsvp i j 2 ->
  rsvp_cell rsvp a (i, j) = Raised (left_by_failure rsvp i j a).
Proof.
  unfold attendance_label, rsvp_cell. intros Hl Hr.
  destruct (total_rsvp_label _) eqn:E1, (raw_tickets_label _) eqn:E2;
    try discriminate Hl; cbn [scan_bind];
    rewrite (take_right_fails rsvp i j a Hr); reflexivity.
Qed.

(** *** A run of cells *)

Lemma rsvp_scan_keeps (rsvp : Grid) (side : Side) (ps : list (nat * nat)) (a : Attendance) :
  Forall (fun p => attendance_label (cell_text (iloc rsvp (fst p) (snd p))) = true ->
                   right_cell rsvp (fst p) (snd p) (offset side) = None) ps ->
  field side (scan_result (rsvp_scan rsvp a ps)) = field side a.
Proof.
  intros H. revert a. induction H as [|[i j] ps Hp Hps IH]; intros a;
    cbn [rsvp_scan]; [reflexivity|].
  pose proof (rsvp_cell_keeps rsvp i j side a Hp) as K.
  destruct (rsvp_cell rsvp a (i, j)) as [a1|a1]; cbn [scan_bind scan_result] in *;
    [|exact K].
  now rewrite IH.
Qed.

Lemma rsvp_scan_runs (rsvp : Grid) (ps : list (nat * nat)) (a : Attendance) :
  Forall (fun p => attendance_label (cell_text (iloc rsvp (fst p) (snd p))) = true ->
                   coercible rsvp (fst p) (snd p)) ps ->
  exists a', rsvp_scan rsvp a ps = Running a'.
Proof.
  intros H. revert a. induction H as [|[i j] ps Hp Hps IH]; intros a;
    cbn [rsvp_scan]; [eauto|].
  destruct (rsvp_cell_runs rsvp i j a Hp) as [a1 ->]. cbn [scan_bind]. apply IH.
Qed.

(** *** The order of the scan *)

Lemma seq_split (n k : nat) :
  (k < n)%nat -> seq 0 n = seq 0 k ++ k :: seq (S k) (n - S k).
Proof.
  intros H. replace n with (k + S (n - S k))%nat at 1 by lia.
  rewrite seq_app. reflexivity.
Qed.

(** A position inside the sheet cuts the scan into the positions before
    it and the positions after it. *)
Lemma positions_split (g : Grid) (i j : nat) :
  (i < nrows g)%nat -> (j < ncols g)%nat ->
  exists l1 l2,
    positions g = l1 ++ (i, j) :: l2 /\
    Forall (fun p => (fst p < nrows g)%nat /\ (snd p < ncols g)%nat /\
                     ~ row_major_before (i, j) p) l1 /\
    Forall (fun p => (fst p < nrows g)%nat /\ (snd p < ncols g)%nat /\
                     row_major_before (i, j) p) l2.
Proof.
  intros Hi Hj. unfold positions, Py.range. rewrite !Nat.sub_0_r.
  set (row := fun i0 : nat => map (pair i0) (seq 0 (ncols g))).
  exists (flat_map row (seq 0 i) ++ map (pair i) (seq 0 j)),
         (map (pair i) (seq (S j) (ncols g - S j))
          ++ flat_map row (seq (S i) (nrows g - S i))).
  split; [|split].
  - rewrite (seq_split (nrows g) i Hi), flat_map_app. simpl.
    unfold row at 2. rewrite (seq_split (ncols g) j Hj), map_app. simpl.
    rewrite <- !app_assoc. reflexivity.
  - apply List.Forall_forall. intros [i' j'] Hin.
    apply List.in_app_iff in Hin as [Hin|Hin].
    + apply List.in_flat_map in Hin as (i0 & Hi0 & Hin).
      apply List.in_map_iff in Hin as (j0 & Heq & Hj0). injection Heq as <- <-.
      apply List.in_seq in Hi0, Hj0. unfold row_major_before. simpl. lia.
    + apply List.in_map_iff in Hin as (j0 & Heq & Hj0). injection Heq as <- <-.
      apply List.in_seq in Hj0. unfold row_major_before. simpl. lia.
  - apply List.Forall_forall. intros [i' j'] Hin.
    apply List.in_app_iff in Hin as [Hin|Hin].
    + apply List.in_map_iff in Hin as (j0 & Heq & Hj0). injection Heq as <- <-.
      apply List.in_seq in Hj0. unfold row_major_before. simpl. lia.
    + apply List.in_flat_map in Hin as (i0 & Hi0 & Hin).
      apply List.in_map_iff in Hin as (j0 & Heq & Hj0). injection Heq as <- <-.
      apply List.in_seq in Hi0, Hj0. unfold row_major_before. simpl. lia.
Qed.

(** C6, as amended.  Take a cell matched by either attendance rule
    ("TOTAL" with "RSVP", or "Raw Tickets") whose right neighbour at
    offset 1 (expected) or 2 (actual) is inside the sheet, not empty, and
    an integer [z] for [int(...)].  If [int(...)] succeeds on the
    neighbours of every matched cell up to this one, and no matched cell
    after it in row-major order has a neighbour at that offset, then the
    value recovered for that side is [z]: the last match wins, whichever
    rule made it, and "Raw Tickets" replaces what "TOTAL RSVP" set.
    A neighbour that [int(...)] rejects ends the scan: when the cells
    before a matched cell were scanned without failure and left the values
    [a], and [int(...)] raises on a neighbour of that cell, the result is
    [a] with the expected value replaced when the cell's own first
    neighbour is an integer; no later cell is read. *)
Theorem last_match_wins :
  (forall (rsvp : Grid) (i j : nat) (side : Side) (c : Cell) (z : Z),
      (i < nrows rsvp)%nat -> (j < ncols rsvp)%nat ->
      attendance_label (cell_text (iloc rsvp i j)) = true ->
      right_cell rsvp i j (offset side) = Some c ->
      py_int c = Some z ->
      (forall i' j',
          (i' < nrows rsvp)%nat -> (j' < ncols rsvp)%nat ->
          ~ row_major_before (i, j) (i', j') ->
          attendance_label (cell_text (iloc rsvp i' j')) = true ->
          coercible rsvp i' j') ->
      (forall i' j',
          (i' < nrows rsvp)%nat -> (j' < ncols rsvp)%nat ->
          row_major_before (i, j) (i', j') ->
          attendance_label (cell_text (iloc rsvp i' j')) = true ->
          right_cell rsvp i' j' (offset side) = None) ->
      field side (extract_attendance (Some rsvp)) = Some z) /\
  (forall (rsvp : Grid) (i j : nat) (before after : list (nat * nat)) (a : Attendance),
      positions rsvp = before ++ (i, j) :: after ->
      rsvp_scan rsvp no_attendance before = Running a ->
      attendance_label (cell_text (iloc rsvp i j)) = true ->
      rejected rsvp i j 1 \/ rejected rsvp i j 2 ->
      extract_attendance (Some rsvp) = left_by_failure rsvp i j a).
Proof.
  split.
  - intros rsvp i j side c z Hi Hj Hl Hr Hz Hbefore Hafter.
    destruct (positions_split rsvp i j Hi Hj) as (l1 & l2 & Hps & H1 & H2).
    unfold extract_attendance. rewrite Hps, rsvp_scan_app.
    destruct (rsvp_scan_runs rsvp l1 no_attendance) as [a1 ->].
    { eapply List.Forall_impl; [|exact H1].
      intros [i' j'] (Hi' & Hj' & Hnb) Hl'. simpl in *. now apply Hbefore. }
    cbn [scan_bind rsvp_scan].
    assert (Hij : ~ row_major_before (i, j) (i, j)).
    { unfold row_major_before. simpl. lia. }
    destruct (rsvp_cell_sets rsvp i j side a1 c z Hl (Hbefore i j Hi Hj Hij Hl) Hr Hz)
      as (a2 & -> & Hf).
    cbn [scan_bind]. rewrite <- Hf. apply rsvp_scan_keeps.
    eapply List.Forall_impl; [|exact H2].
    intros [i' j'] (Hi' & Hj' & Hb) Hl'. simpl in *. now apply Hafter.
  - intros rsvp i j before after a Hps Hrun Hl Hrej.
    unfold extract_attendance. rewrite Hps, rsvp_scan_app, Hrun.
    cbn [scan_bind rsvp_scan]. rewrite (rsvp_cell_fails rsvp i j a Hl Hrej).
    reflexivity.
Qed.

Lemma rsvp_sheet_labels (i' j' : nat) :
  (i' < nrows rsvp_sheet)%nat -> (j' < ncols rsvp_sheet)%nat ->
  attendance_label (cell_text (iloc rsvp_sheet i' j')) = true ->
  (i' = 1 \/ i' = 2)%nat /\ j' = 0%nat.
Proof.
  intros Hi' Hj'. change (nrows rsvp_sheet) with 3%nat in Hi'.
  change (ncols rsvp_sheet) with 3%nat in Hj'.
  destruct i' as [|[|[|i']]]; try lia; destruct j' as [|[|[|j']]]; try lia;
    vm_compute; intros H; try discriminate; split; auto.
Qed.

Lemma rsvp_sheet_coercible (i' j' : nat) :
  (i' < nrows rsvp_sheet)%nat -> (j' < ncols rsvp_sheet)%nat ->
  attendance_label (cell_text (iloc rsvp_sheet i' j')) = true ->
  coercible rsvp_sheet i' j'.
Proof.
  intros Hi' Hj' Hl.
  destruct (rsvp_sheet_labels i' j' Hi' Hj' Hl) as [[-> | ->] ->];
    intros [] c' Hc'; vm_compute in Hc'; injection Hc' as <-; vm_compute; eauto.
Qed.

Lemma rsvp_sheet_last_label (side : Side) (i' j' : nat) :
  (i' < nrows rsvp_sheet)%nat -> (j' < ncols rsvp_sheet)%nat ->
  row_major_before (2%nat, 0%nat) (i', j') ->
  attendance_label (cell_text (iloc rsvp_sheet i' j')) = true ->
  right_cell rsvp_sheet i' j' (offset side) = None.
Proof.
  intros Hi' Hj' Hb Hl.
  destruct (rsvp_sheet_labels i' j' Hi' Hj' Hl) as [[-> | ->] ->];
    unfold row_major_before in Hb; simpl in Hb; lia.
Qed.

Lemma last_match_wins_witness :
  field ExpectedSide (extract_attendance (Some rsvp_sheet)) = Some 130 /\
  field ActualSide (extract_attendance (Some rsvp_sheet)) = Some 101 /\
  extract_attendance (Some rsvp_sheet_half_read)
  = {| registered := Some 120; attended := None |} /\
  extract_attendance (Some rsvp_sheet_with_text) = no_attendance.
Proof.
  split; [|split; [|split]].
  - apply (proj1 last_match_wins rsvp_sheet 2%nat 0%nat ExpectedSide
                 (CFloat 130.5%Q) 130).
    + vm_compute. lia.
    + vm_compute. lia.
    + vm_compute. reflexivity.
    + vm_compute. reflexivity.
    + vm_compute. reflexivity.
    + intros i' j' Hi' Hj' _. now apply rsvp_sheet_coercible.
    + intros i' j'. apply rsvp_sheet_last_label.
  - apply (proj1 last_match_wins rsvp_sheet 2%nat 0%nat ActualSide (CText "101") 101).
    + vm_compute. lia.
    + vm_compute. lia.
    + vm_compute. reflexivity.
    + vm_compute. reflexivity.
    + vm_compute. reflexivity.
    + intros i' j' Hi' Hj' _. now apply rsvp_sheet_coercible.
    + intros i' j'. apply rsvp_sheet_last_label.
  - apply (proj2 last_match_wins rsvp_sheet_half_read 0%nat 0%nat []
                 (tl (positions rsvp_sheet_half_read)) no_attendance).
    + vm_compute. reflexivity.
    + reflexivity.
    + vm_compute. reflexivity.
    + right. exists (CText "TBD"). split; vm_compute; reflexivity.
  - apply (proj2 last_match_wins rsvp_sheet_with_text 0%nat 0%nat []
                 (tl (positions rsvp_sheet_with_text)) no_attendance).
    + vm_compute. reflexivity.
    + reflexivity.
    + vm_compute. reflexivity.
    + left. exists (CText "TBD"). split; vm_compute; reflexivity.
Defined.

(** C6, as stated, fails: a text that is no number next to an earlier
    label ends the scan, and the later "Raw Tickets" cell is never
    reached. *)
Lemma raw_tickets_not_always_wins : ~ raw_tickets_always_wins.
Proof.
  intros H.
  specialize (H rsvp_sheet_with_text 1%nat 0%nat 130 101).
  assert (Hno : extract_attendance (Some rsvp_sheet_with_text)
                = {| registered := None; attended := None |})
    by (vm_compute; reflexivity).
  rewrite Hno in H.
  assert (Habs : {| registered := None; attended := None |}
                 = {| registered := Some 130; attended := Some 101 |}).
  { apply H.
    - vm_compute. lia.
    - vm_compute. lia.
    - vm_compute. reflexivity.
    - reflexivity.
    - reflexivity.
    - intros i' j' Hi' Hj' Hb.
      change (nrows rsvp_sheet_with_text) with 2%nat in Hi'.
      change (ncols rsvp_sheet_with_text) with 3%nat in Hj'.
      unfold row_major_before in Hb. simpl in Hb.
      destruct i' as [|[|i']]; try lia; destruct j' as [|[|[|j']]]; try lia;
        vm_compute; reflexivity. }
  discriminate Habs.
Qed.

End AttendanceRecovery.

(** ** The report pipeline *)

Section Pipeline.

Import Analyzer Spec Scenario.

(** [save_results] raises before it prints or writes anything. *)
Lemma save_results_raises (env : Env) (insights : string)
      (predictions : gmap string Prediction) (data_summary : Summary) (st : State) :
  save_results env insights predictions data_summary st
  = (Raise (TypeError arity_message), st).
Proof. reflexivity. Qed.

Lemma bind_ext {A C : Type} (m : M A) (f g : A -> M C) (s : State) :
  (forall a s', f a s' = g a s') -> bind m f s = bind m g s.
Proof.
  intros H. unfold bind. destruct (m s) as [[a|e] s']; [apply H|reflexivity].
Qed.

Lemma bind_ok {A C : Type} (m : M A) (f : A -> M C) (s s' : State) (a : A) :
  m s = (Ok a, s') -> bind m f s = f a s'.
Proof. intros H. unfold bind. now rewrite H. Qed.

Lemma analyze_without_narrative (env : Env) (data_summary : Summary) (s : State) :
  (forall p, no_narrative (create env p)) ->
  exists s', analyze_with_ai env data_summary s = (Ok None, s').
Proof.
  intros Hno. unfold analyze_with_ai, bind. cbn [print].
  match goal with |- context [create env ?p] => specialize (Hno p); destruct (create env p) as [e|[|[text|] choices]] end;
    simpl in Hno; try contradiction; cbn; eauto.
Qed.

(** Running up to the service call and finding no narrative ends the run
    whatever [save_results] would do. *)
Lemma run_without_narrative (saver : Saver) (env : Env) (filepath : string) (st : State) :
  (forall p, no_narrative (create env p)) ->
  run_analysis_with saver env filepath st = run_analysis env filepath st.
Proof.
  intros Hno. unfold run_analysis, run_analysis_with.
  do 4 (apply bind_ext; intros _ ?).
  apply bind_ext. intros [df|] s0; [|reflexivity].
  apply bind_ext. intros _ ?.
  apply bind_ext. intros demographics ?.
  apply bind_ext. intros data_summary ?.
  do 2 (apply bind_ext; intros _ ?).
  apply bind_ext. intros predictions s1.
  destruct (analyze_without_narrative env data_summary s1 Hno) as [s2 Hs2].
  now rewrite !(bind_ok _ _ _ _ _ Hs2).
Qed.

(** *** The result file *)

Lemma keeps_bind {A C : Type} (m : M A) (f : A -> M C) :
  keeps_file m -> (forall a, keeps_file (f a)) -> keeps_file (bind m f).
Proof.
  intros Hm Hf s. unfold bind. specialize (Hm s).
  destruct (m s) as [[a|e] s']; simpl in *; [|exact Hm].
  now rewrite Hf.
Qed.

Lemma keeps_print (l : Line) : keeps_file (print l).
Proof. intros s. reflexivity. Qed.

Lemma keeps_ret {A : Type} (a : A) : keeps_file (ret a).
Proof. intros s. reflexivity. Qed.

Lemma keeps_lift {A : Type} (r : Res A) : keeps_file (lift r).
Proof. intros s. reflexivity. Qed.

Lemma keeps_set_demographics (d : option (gmap string Z)) :
  keeps_file (set_demographics d).
Proof. intros s. reflexivity. Qed.

Lemma keeps_get_demographics : keeps_file get_demographics.
Proof. intros s. reflexivity. Qed.

Ltac keeps :=
  repeat first
    [ apply keeps_bind; [|intros ?]
    | apply keeps_print
    | apply keeps_ret
    | apply keeps_lift
    | apply keeps_set_demographics
    | apply keeps_get_demographics
    | assumption ].

Lemma keeps_load_event_data (env : Env) (filepath : string) :
  keeps_file (load_event_data env filepath).
Proof.
  unfold load_event_data.
  destruct (dataset env) as [| |df|df [demo|]]; keeps.
Qed.

Lemma keeps_analyze_with_ai (env : Env) (data_summary : Summary) :
  keeps_file (analyze_with_ai env data_summary).
Proof.
  unfold analyze_with_ai. apply keeps_bind; [apply keeps_print|]. intros _.
  match goal with
  | |- context [create env ?p] => destruct (create env p) as [e|[|content choices]]
  end; keeps.
Qed.

Lemma keeps_quick_stats (data_summary : Summary) : keeps_file (quick_stats data_summary).
Proof.
  unfold quick_stats, raise.
  destruct (total_budget data_summary), (cost_per_attendee data_summary); keeps.
Qed.

Lemma keeps_save_results (env : Env) (insights : string)
      (predictions : gmap string Prediction) (data_summary : Summary) :
  keeps_file (save_results env insights predictions data_summary).
Proof. intros s. now rewrite save_results_raises. Qed.

Lemma keeps_run_analysis_with (saver : Saver) (env : Env) (filepath : string) :
  (forall text predictions data_summary, keeps_file (saver text predictions data_summary)) ->
  keeps_file (run_analysis_with saver env filepath).
Proof.
  intros Hsaver. unfold run_analysis_with.
  do 4 (apply keeps_bind; [apply keeps_print|intros _]).
  apply keeps_bind; [apply keeps_load_event_data|]. intros [df|]; [|apply keeps_ret].
  apply keeps_bind; [apply keeps_print|intros _].
  apply keeps_bind; [apply keeps_get_demographics|intros demographics].
  apply keeps_bind; [apply keeps_lift|intros data_summary].
  apply keeps_bind; [apply keeps_quick_stats|intros _].
  apply keeps_bind; [apply keeps_print|intros _].
  apply keeps_bind; [apply keeps_lift|intros predictions].
  apply keeps_bind; [apply keeps_analyze_with_ai|]. intros [text|]; [|apply keeps_ret].
  do 5 (apply keeps_bind; [apply keeps_print|intros _]).
  apply keeps_bind; [apply Hsaver|intros path]. keeps.
Qed.

(** No run writes the result file. *)
Lemma run_analysis_keeps_file (env : Env) (filepath : string) :
  keeps_file (run_analysis env filepath).
Proof.
  unfold run_analysis. apply keeps_run_analysis_with. intros text predictions data_summary.
  apply keeps_save_results.
Qed.

(** *** How a run ends *)

Lemma bind_ends_ok {A : Type} (m : M A) (f : A -> M unit) (s : State) (Q : State -> Prop) :
  (forall a s', m s = (Ok a, s') -> fst (f a s') = Ok tt -> Q (snd (f a s'))) ->
  fst (bind m f s) = Ok tt -> Q (snd (bind m f s)).
Proof.
  intros H. unfold bind. destruct (m s) as [[a|e] s'] eqn:E.
  - now apply H.
  - discriminate.
Qed.

Lemma load_event_data_loadable (env : Env) (filepath : string) (s s' : State)
      (loaded : option DataFrame) :
  loadable (dataset env) = true ->
  load_event_data env filepath s = (Ok loaded, s') -> exists df, loaded = Some df.
Proof.
  unfold load_event_data, loadable.
  destruct (dataset env) as [| |df|df [demo|]]; try discriminate;
    intros _ H; cbn in H; injection H as <- _; eauto.
Qed.

Lemma analyze_service_error (env : Env) (data_summary : Summary) (s : State) :
  (forall p, service_error (create env p)) ->
  exists s', analyze_with_ai env data_summary s = (Ok None, s') /\
             reports_failure (stdout s').
Proof.
  intros Herr. unfold analyze_with_ai, bind. cbn [print].
  match goal with
  | |- context [create env ?p] =>
      specialize (Herr p); destruct (create env p) as [e|[|content choices]]
  end; simpl in Herr; try contradiction; cbn;
    (eexists; split; [reflexivity|]); cbn; eexists; apply last_snoc.
Qed.

Lemma run_reports_service_error (env : Env) (filepath : string) (st : State) :
  (forall p, service_error (create env p)) ->
  loadable (dataset env) = true ->
  fst (run_analysis env filepath st) = Ok tt ->
  reports_failure (stdout (snd (run_analysis env filepath st))).
Proof.
  intros Herr Hload. unfold run_analysis, run_analysis_with.
  do 4 (apply (bind_ends_ok _ _ _ (fun s => reports_failure (stdout s))); intros _ ? _).
  apply (bind_ends_ok _ _ _ (fun s => reports_failure (stdout s))).
  intros loaded s0 Hl.
  destruct (load_event_data_loadable _ _ _ _ _ Hload Hl) as [df ->].
  apply (bind_ends_ok _ _ _ (fun s => reports_failure (stdout s))); intros _ ? _.
  apply (bind_ends_ok _ _ _ (fun s => reports_failure (stdout s))); intros demographics ? _.
  apply (bind_ends_ok _ _ _ (fun s => reports_failure (stdout s))); intros data_summary ? _.
  do 2 (apply (bind_ends_ok _ _ _ (fun s => reports_failure (stdout s))); intros _ ? _).
  apply (bind_ends_ok _ _ _ (fun s => reports_failure (stdout s))); intros predictions s1 _.
  destruct (analyze_service_error env data_summary s1 Herr) as (s2 & Hs2 & Hrep).
  rewrite (bind_ok _ _ _ _ _ Hs2). intros _. exact Hrep.
Qed.

(** C5, as amended.  When the service call raises (an error of the
    service, or a response without choices) or the response has no
    content, [run_analysis] ends without invoking [save_results]: its
    outcome is the same whatever method [self.save_results] is, and the
    result file stays as it was.  When the call raised and the run got as
    far as the call and returned normally, the last line it printed is
    the report "Error calling OpenAI API".  A response whose content is
    missing is not reported, and a response with an empty text counts as
    a narrative. *)
Theorem no_narrative_no_result (env : Env) (filepath : string) (st : State) :
  (forall p, no_narrative (create env p)) ->
  (forall saver : Saver,
      run_analysis_with saver env filepath st = run_analysis env filepath st) /\
  (forall saver : Saver,
      result_file (snd (run_analysis_with saver env filepath st)) = result_file st) /\
  ((forall p, service_error (create env p)) ->
   loadable (dataset env) = true ->
   fst (run_analysis env filepath st) = Ok tt ->
   reports_failure (stdout (snd (run_analysis env filepath st)))).
Proof.
  intros Hno. split; [|split].
  - intros saver. now apply run_without_narrative.
  - intros saver. rewrite run_without_narrative by exact Hno.
    apply run_analysis_keeps_file.
  - apply run_reports_service_error.
Qed.

Lemma no_narrative_no_result_witness :
  (forall saver : Saver,
      run_analysis_with saver (env_with (ApiRaises "timeout")) default_filepath initial_state
      = run_analysis (env_with (ApiRaises "timeout")) default_filepath initial_state) /\
  reports_failure
    (stdout (snd (run_analysis (env_with (ApiRaises "timeout")) default_filepath
                               initial_state))).
Proof.
  pose proof (no_narrative_no_result (env_with (ApiRaises "timeout")) default_filepath
                                     initial_state (fun _ => I)) as (H1 & _ & H3).
  split; [exact H1|].
  apply H3; [intros p; exact I|reflexivity|vm_compute; reflexivity].
Defined.

(** C5, as stated, fails on both readings of an empty response.  With an
    empty text the run goes on to [save_results]; with a missing content
    the run ends without a report of the failure. *)
Lemma narrative_failures_not_all_caught :
  ~ aborts_when no_narrative_or_empty /\ ~ aborts_when no_narrative.
Proof.
  split; intros H.
  - destruct (H (env_with (ApiResponse [Some ""])) default_filepath initial_state)
      as (Hsame & _); [intros p; reflexivity|].
    specialize (Hsame idle_saver). apply (f_equal fst) in Hsame.
    vm_compute in Hsame. discriminate Hsame.
  - destruct (H (env_with (ApiResponse [None])) default_filepath initial_state)
      as (_ & _ & Hrep); [intros p; exact I|].
    destruct Hrep as [e He]; [reflexivity|vm_compute; reflexivity|].
    vm_compute in He. discriminate He.
Qed.

(** C1 fails on the code.  [save_results] passes one argument to
    [calculate_engagement_score], which takes two: the call raises
    [TypeError] before anything is printed or written, so no run writes
    the result file.  [prepare_data_summary] makes the same call with
    both arguments and gets the score.  On the three-event dataset with
    a narrative returned, [main] prints the narrative, then the error,
    and leaves no result file. *)
Theorem save_results_always_raises :
  (forall env insights predictions data_summary st,
      save_results env insights predictions data_summary st
      = (Raise (TypeError arity_message), st)) /\
  (forall env filepath st,
      result_file (snd (run_analysis env filepath st)) = result_file st) /\
  (forall df summary,
      self_calculate_engagement_score [VFrame df; VSummary summary]
      = Ok (calculate_engagement_score (VFrame df) summary)) /\
  fst (run_analysis (env_with (ApiResponse [Some narrative])) default_filepath
                    initial_state)
  = Raise (TypeError arity_message) /\
  fst (main (env_with (ApiResponse [Some narrative])) initial_state) = Ok tt /\
  result_file (snd (main (env_with (ApiResponse [Some narrative])) initial_state)) = None /\
  In (Insights narrative)
     (stdout (snd (main (env_with (ApiResponse [Some narrative])) initial_state))) /\
  In (MainError (TypeError arity_message))
     (stdout (snd (main (env_with (ApiResponse [Some narrative])) initial_state))).
Proof.
  split; [exact save_results_raises|].
  split; [intros env filepath st; apply run_analysis_keeps_file|].
  split; [reflexivity|].
  split; [vm_compute; reflexivity|].
  split; [vm_compute; reflexivity|].
  split; [vm_compute; reflexivity|].
  split; vm_compute; tauto.
Qed.

End Pipeline.

(** * Further properties of the extractor *)

Section AttendanceSources.

Import Extractor ExtractorSpec ExtractorNotions.

Lemma in_positions (g : Grid) (i j : nat) :
  In (i, j) (positions g) <-> (i < nrows g)%nat /\ (j < ncols g)%nat.
Proof.
  unfold positions, Py.range. rewrite !Nat.sub_0_r, List.in_flat_map. split.
  - intros (i0 & Hi0 & Hin). apply List.in_map_iff in Hin as (j0 & Heq & Hj0).
    injection Heq as <- <-. apply List.in_seq in Hi0, Hj0. lia.
  - intros [Hi Hj]. exists i. split; [apply List.in_seq; lia|].
    apply List.in_map. apply List.in_seq. lia.
Qed.

Lemma take_right_source (rsvp : Grid) (i j : nat) (side : Side) (a : Attendance) :
  field side (scan_result (take_right rsvp i j a)) = field side a \/
  exists c z, right_cell rsvp i j (offset side) = Some c /\ py_int c = Some z /\
              field side (scan_result (take_right rsvp i j a)) = Some z.
Proof.
  unfold right_cell, take_right, set_registered, set_attended.
  destruct side; simpl;
    destruct ((j + 1 <? ncols rsvp)%nat && notna (iloc rsvp i (j + 1)));
    destruct ((j + 2 <? ncols rsvp)%nat && notna (iloc rsvp i (j + 2)));
    destruct (py_int (iloc rsvp i (j + 1))) as [z1|] eqn:E1;
    destruct (py_int (iloc rsvp i (j + 2))) as [z2|] eqn:E2;
    simpl; eauto 6.
Qed.

Lemma rsvp_cell_source (rsvp : Grid) (i j : nat) (side : Side) (a : Attendance) :
  field side (scan_result (rsvp_cell rsvp a (i, j))) = field side a \/
  (attendance_label (cell_text (iloc rsvp i j)) = true /\
   exists c z, right_cell rsvp i j (offset side) = Some c /\ py_int c = Some z /\
               field side (scan_result (rsvp_cell rsvp a (i, j))) = Some z).
Proof.
  unfold attendance_label, rsvp_cell.
  destruct (total_rsvp_label _) eqn:E1, (raw_tickets_label _) eqn:E2; simpl; auto.
  - destruct (take_right rsvp i j a) as [a1|a1] eqn:Et; simpl.
    + destruct (take_right_source rsvp i j side a1) as [Hk|Hs]; [|auto].
      rewrite Hk.
      pose proof (take_right_source rsvp i j side a) as H. rewrite Et in H.
      simpl in H. destruct H as [H|H]; [auto|].
      right. split; [reflexivity|]. exact H.
    + pose proof (take_right_source rsvp i j side a) as H. rewrite Et in H.
      simpl in H. destruct H as [H|H]; auto.
  - destruct (take_right_source rsvp i j side a) as [H|H];
      destruct (take_right rsvp i j a); simpl in *; auto.
  - destruct (take_right_source rsvp i j side a) as [H|H]; auto.
Qed.

Lemma rsvp_scan_source (rsvp : Grid) (side : Side) (ps : list (nat * nat)) (a : Attendance) :
  Forall (fun p => (fst p < nrows rsvp)%nat /\ (snd p < ncols rsvp)%nat) ps ->
  field side (scan_result (rsvp_scan rsvp a ps)) = field side a \/
  exists z, field side (scan_result (rsvp_scan rsvp a ps)) = Some z /\
            read_from_label rsvp side z.
Proof.
  intros Hps. revert a. induction Hps as [|[i j] ps [Hi Hj] Hps IH]; intros a;
    cbn [rsvp_scan]; [auto|].
  pose proof (rsvp_cell_source rsvp i j side a) as Hc.
  destruct (rsvp_cell rsvp a (i, j)) as [a1|a1]; cbn [scan_bind scan_result] in *.
  - destruct (IH a1) as [Hk|Hs]; [|auto]. rewrite Hk.
    destruct Hc as [Hc|(Hl & c & z & Hr & Hz & Hf)]; [auto|].
    right. exists z. split; [exact Hf|]. exists i, j, c. simpl in *. auto.
  - destruct Hc as [Hc|(Hl & c & z & Hr & Hz & Hf)]; [auto|].
    right. exists z. split; [exact Hf|]. exists i, j, c. simpl in *. auto.
Qed.

Lemma rsvp_scan_no_label (rsvp : Grid) (ps : list (nat * nat)) (a : Attendance) :
  Forall (fun p => attendance_label (cell_text (iloc rsvp (fst p) (snd p))) = false) ps ->
  rsvp_scan rsvp a ps = Running a.
Proof.
  intros Hps. induction Hps as [|[i j] ps Hp Hps IH]; cbn [rsvp_scan]; [reflexivity|].
  unfold rsvp_cell. unfold attendance_label in Hp. simpl in Hp.
  apply orb_false_iff in Hp as [-> ->]. simpl. exact IH.
Qed.

(** X1.  Attendance is only ever read next to a label: a value recovered
    for either side is the [int(...)] of the cell at that side's offset to
    the right of a cell matched by the TOTAL/RSVP rule or by the
    "Raw Tickets" rule.  A sheet without such a cell, and a workbook
    without the sheet, leave both values absent. *)
Theorem attendance_comes_from_labels :
  (forall rsvp side z,
      field side (extract_attendance (Some rsvp)) = Some z ->
      read_from_label rsvp side z) /\
  (forall rsvp,
      (forall i j, (i < nrows rsvp)%nat -> (j < ncols rsvp)%nat ->
                   attendance_label (cell_text (iloc rsvp i j)) = false) ->
      extract_attendance (Some rsvp) = no_attendance) /\
  extract_attendance None = no_attendance.
Proof.
  split; [|split; [|reflexivity]].
  - intros rsvp side z H. unfold extract_attendance in H.
    destruct (rsvp_scan_source rsvp side (positions rsvp) no_attendance) as [Hk|Hs].
    + apply List.Forall_forall. intros [i j] Hin. now apply in_positions.
    + rewrite Hk in H. destruct side; discriminate H.
    + destruct Hs as (z' & Hz' & Hread). rewrite Hz' in H. now injection H as <-.
  - intros rsvp Hno. unfold extract_attendance. rewrite rsvp_scan_no_label; [reflexivity|].
    apply List.Forall_forall. intros [i j] Hin. apply in_positions in Hin as [Hi Hj].
    now apply Hno.
Qed.

End AttendanceSources.

(** ** Scans of a window *)

Section WindowScans.

Import ExtractorSpec.

Context {B : Type}.

Lemma first_some_ext (f g : nat -> option B) (l : list nat) :
  (forall x, In x l -> f x = g x) -> first_some f l = first_some g l.
Proof.
  induction l as [|x l IH]; intros H; simpl; [reflexivity|].
  rewrite (H x) by (left; reflexivity).
  destruct (g x); [reflexivity|]. apply IH. intros y Hy. apply H. now right.
Qed.

Lemma first_some_range_extend (f : nat -> option B) (a b b' : nat) :
  (b <= b')%nat -> (forall x, (b <= x < b')%nat -> f x = None) ->
  first_some f (Py.range a b) = first_some f (Py.range a b').
Proof.
  intros Hb Hnone. destruct (first_some f (Py.range a b)) as [y|] eqn:E.
  - symmetry. apply first_some_range_Some in E as (x & Hx & Hfx & Hbefore).
    apply first_some_range_Some. exists x. split; [lia|]. auto.
  - symmetry. apply first_some_range_None. intros x Hx.
    destruct (Nat.lt_ge_cases x b) as [Hlt|Hge].
    + rewrite first_some_range_None in E. apply E. lia.
    + apply Hnone. lia.
Qed.

Lemma first_some_grid_Some (f : nat -> nat -> option B) (r c : nat) (y : B) :
  first_some (fun i => first_some (f i) (Py.range 0 c)) (Py.range 0 r) = Some y <->
  exists i j,
    (i < r)%nat /\ (j < c)%nat /\ f i j = Some y /\
    forall i' j', (i' < r)%nat -> (j' < c)%nat ->
                  row_major_before (i', j') (i, j) -> f i' j' = None.
Proof.
  rewrite first_some_range_Some. split.
  - intros (i & Hi & Hrow & Hrows).
    apply first_some_range_Some in Hrow as (j & Hj & Hf & Hcols).
    exists i, j. repeat split; try lia; [exact Hf|].
    intros i' j' Hi' Hj' [Hlt|[Heq Hlt]]; simpl in *.
    + specialize (Hrows i' ltac:(lia)). rewrite first_some_range_None in Hrows.
      apply Hrows. lia.
    + subst i'. apply Hcols. lia.
  - intros (i & j & Hi & Hj & Hf & Hfirst). exists i. split; [lia|]. split.
    + apply first_some_range_Some. exists j. split; [lia|]. split; [exact Hf|].
      intros j' Hj'. apply Hfirst; try lia. right. simpl. lia.
    + intros i' Hi'. apply first_some_range_None. intros j' Hj'.
      apply Hfirst; try lia. left. simpl. lia.
Qed.

Lemma first_some_grid_None (f : nat -> nat -> option B) (r c : nat) :
  first_some (fun i => first_some (f i) (Py.range 0 c)) (Py.range 0 r) = None <->
  forall i j, (i < r)%nat -> (j < c)%nat -> f i j = None.
Proof.
  rewrite first_some_range_None. split.
  - intros H i j Hi Hj. specialize (H i ltac:(lia)).
    rewrite first_some_range_None in H. apply H. lia.
  - intros H i Hi. apply first_some_range_None. intros j Hj. apply H; lia.
Qed.

End WindowScans.

(** ** Name and date of an event *)

Section NameAndDate.

Import Extractor ExtractorSpec ExtractorNotions.

Lemma row_length_le_ncols (g : Grid) (i : nat) : (length (nth i g []) <= ncols g)%nat.
Proof.
  unfold ncols. revert i. induction g as [|row g IH]; intros i; simpl.
  - destruct i; simpl; lia.
  - destruct i; simpl; [lia|]. specialize (IH i). lia.
Qed.

(** Outside the frame every cell is empty. *)
Lemma iloc_outside (g : Grid) (i j : nat) :
  (nrows g <= i)%nat \/ (ncols g <= j)%nat -> iloc g i j = CEmpty.
Proof.
  intros H. unfold iloc. apply nth_overflow. destruct H as [H|H].
  - unfold nrows in H. rewrite (nth_overflow g [] H). simpl. lia.
  - pose proof (row_length_le_ncols g i). lia.
Qed.

Lemma find_event_name_window (overview : Grid) :
  find_event_name overview
  = first_some (fun i => first_some (fun j => name_at (iloc overview i j)) (Py.range 0 3))
               (Py.range 0 5).
Proof.
  unfold find_event_name.
  rewrite (first_some_range_extend _ 0 (Nat.min 5 (nrows overview)) 5); [|lia|].
  - apply first_some_ext. intros i _.
    apply first_some_range_extend; [lia|].
    intros j Hj. rewrite iloc_outside; [reflexivity|]. right. lia.
  - intros i Hi. apply first_some_range_None. intros j _.
    rewrite iloc_outside; [reflexivity|]. left. lia.
Qed.

Lemma name_at_Some (val : Cell) (s : string) :
  name_at val = Some s <->
  val = CText s /\ (3 < String.length s)%nat /\
  Py.contains "Event" s = false /\ Py.contains "NaN" s = false.
Proof.
  unfold name_at. split.
  - destruct val as [|t| | | |]; try discriminate.
    destruct (3 <? String.length t)%nat eqn:El; [|discriminate].
    destruct (Py.contains "Event" t) eqn:E1; [discriminate|].
    destruct (Py.contains "NaN" t) eqn:E2; [discriminate|].
    simpl. intros H. injection H as <-. apply Nat.ltb_lt in El. auto.
  - intros (-> & Hl & -> & ->). apply Nat.ltb_lt in Hl. now rewrite Hl.
Qed.

(** X2.  The event name is the first text, in row-major order over the
    first five rows and first three columns of the overview sheet, that is
    longer than three characters and contains neither "Event" nor "NaN";
    it is absent exactly when that window holds no such text.  Cells
    outside the window never change the name. *)
Theorem event_name_is_first_text_in_window :
  (forall overview s,
      find_event_name overview = Some s <->
      exists i j,
        (i < 5)%nat /\ (j < 3)%nat /\ name_at (iloc overview i j) = Some s /\
        forall i' j', (i' < 5)%nat -> (j' < 3)%nat ->
                      row_major_before (i', j') (i, j) ->
                      name_at (iloc overview i' j') = None) /\
  (forall overview,
      find_event_name overview = None <->
      forall i j, (i < 5)%nat -> (j < 3)%nat -> name_at (iloc overview i j) = None) /\
  (forall val s,
      name_at val = Some s <->
      val = CText s /\ (3 < String.length s)%nat /\
      Py.contains "Event" s = false /\ Py.contains "NaN" s = false) /\
  (forall g g' : Grid,
      (forall i j, (i < 5)%nat -> (j < 3)%nat -> iloc g i j = iloc g' i j) ->
      find_event_name g = find_event_name g').
Proof.
  split; [|split; [|split]].
  - intros overview s. rewrite find_event_name_window.
    apply (first_some_grid_Some (fun i j => name_at (iloc overview i j))).
  - intros overview. rewrite find_event_name_window.
    apply (first_some_grid_None (fun i j => name_at (iloc overview i j))).
  - exact name_at_Some.
  - intros g g' Hsame. rewrite !find_event_name_window.
    apply first_some_ext. intros i Hi. apply first_some_ext. intros j Hj.
    unfold Py.range in Hi, Hj. apply List.in_seq in Hi, Hj.
    rewrite Hsame by lia. reflexivity.
Qed.

Lemma date_at_candidate (overview : Grid) (i j : nat) (v : Cell) :
  date_at overview i j = Some v <-> date_candidate overview i j v.
Proof.
  unfold date_at, date_candidate. cbv zeta.
  assert (Hempty : Py.contains "Event Date" "" = false) by reflexivity.
  destruct (iloc overview i j) as [|s|z|q|b|d] eqn:Ec; cbn [notna].
  1: { split; [discriminate|]. intros (<- & Hn & _). discriminate Hn. }
  5: { split.
       - intros H. injection H as <-. split; [reflexivity|]. split; [reflexivity|eauto].
       - intros (<- & _). reflexivity. }
  all: destruct (0 <? j)%nat eqn:Ej;
    [ apply Nat.ltb_lt in Ej;
      destruct (Py.contains "Event Date" (py_str (iloc overview i (j - 1)))) eqn:El;
      (split;
       [ intros H;
         first [ discriminate H
               | injection H as <-;
                 split; [reflexivity|]; split; [reflexivity|]; right;
                 split; [exact Ej|reflexivity] ]
       | intros (<- & _ & [[d' Hd]|[_ Hl]]);
         [discriminate Hd | first [reflexivity | discriminate Hl]] ])
    | apply Nat.ltb_ge in Ej; rewrite Hempty;
      (split;
       [ discriminate
       | intros (<- & _ & [[d' Hd]|[Hj _]]); [discriminate Hd | lia] ]) ].
Qed.

Lemma date_rows_source (overview : Grid) (rows : list nat) (d0 : option Cell) (v : Cell) :
  date_rows overview d0 rows = Some v ->
  d0 = Some v \/ exists i, In i rows /\ date_in_row overview i = Some v.
Proof.
  revert d0. induction rows as [|i rows IH]; intros d0 H; simpl in H; [auto|].
  fold (date_in_row overview i) in H.
  destruct (date_in_row overview i) as [w|] eqn:Ei.
  - destruct (truthy w).
    + injection H as <-. right. exists i. split; [now left|exact Ei].
    + apply IH in H as [H|(i' & Hin & Hi')].
      * injection H as <-. right. exists i. split; [now left|exact Ei].
      * right. exists i'. split; [now right|exact Hi'].
  - destruct d0 as [w|].
    + destruct (truthy w).
      * auto.
      * apply IH in H as [H|(i' & Hin & Hi')]; [auto|].
        right. exists i'. split; [now right|exact Hi'].
    + apply IH in H as [H|(i' & Hin & Hi')]; [auto|].
      right. exists i'. split; [now right|exact Hi'].
Qed.

Lemma date_rows_keeps_some (overview : Grid) (rows : list nat) (w : Cell) :
  exists v, date_rows overview (Some w) rows = Some v.
Proof.
  revert w. induction rows as [|i rows IH]; intros w; simpl; [eauto|].
  destruct (first_some (date_at overview i) (Py.range 0 (ncols overview))) as [w'|].
  - destruct (truthy w'); eauto.
  - destruct (truthy w); eauto.
Qed.

Lemma date_rows_None (overview : Grid) (rows : list nat) :
  date_rows overview None rows = None <->
  forall i, In i rows -> date_in_row overview i = None.
Proof.
  induction rows as [|i rows IH]; simpl.
  - split; [intros _ i []|reflexivity].
  - fold (date_in_row overview i).
    destruct (date_in_row overview i) as [w|] eqn:Ei.
    + split.
      * intros H. exfalso. destruct (truthy w); [discriminate|].
        destruct (date_rows_keeps_some overview rows w) as [v Hv]. congruence.
      * intros H. specialize (H i (or_introl eq_refl)). congruence.
    + rewrite IH. split.
      * intros H i' [<-|Hin]; auto.
      * intros H i' Hin. apply H. now right.
Qed.

Lemma date_rows_first_true (overview : Grid) (l1 l2 : list nat) (i : nat)
      (d0 : option Cell) (v : Cell) :
  (forall w, d0 = Some w -> truthy w = false) ->
  (forall i' w, In i' l1 -> date_in_row overview i' = Some w -> truthy w = false) ->
  date_in_row overview i = Some v -> truthy v = true ->
  date_rows overview d0 (l1 ++ i :: l2) = Some v.
Proof.
  revert d0. induction l1 as [|i1 l1 IH]; intros d0 Hd0 Hl1 Hi Hv; simpl.
  - fold (date_in_row overview i). now rewrite Hi, Hv.
  - fold (date_in_row overview i1).
    destruct (date_in_row overview i1) as [w|] eqn:E1.
    + rewrite (Hl1 i1 w (or_introl eq_refl) E1).
      apply IH; auto.
      * intros w' Hw'. injection Hw' as <-. apply (Hl1 i1 w); auto. now left.
      * intros i' w' Hin. apply Hl1. now right.
    + destruct d0 as [w|].
      * rewrite (Hd0 w eq_refl). apply IH; auto.
        intros i' w' Hin. apply Hl1. now right.
      * apply IH; auto. intros i' w' Hin. apply Hl1. now right.
Qed.

(** X3.  The event date, when found, is a non-empty cell of the overview
    sheet that holds a date or stands right of a cell whose text contains
    "Event Date"; it is absent exactly when the sheet has no such cell.
    The first such cell of a row is that row's candidate, and the
    candidate of the first row whose candidate is true in Python's sense
    (not 0, not an empty text) is the date. *)
Theorem event_date_is_first_true_candidate :
  (forall overview v,
      find_event_date overview = Some v ->
      exists i j, (i < nrows overview)%nat /\ (j < ncols overview)%nat /\
                  date_candidate overview i j v) /\
  (forall overview,
      find_event_date overview = None <->
      forall i j v, (i < nrows overview)%nat -> (j < ncols overview)%nat ->
                    ~ date_candidate overview i j v) /\
  (forall overview i v,
      (i < nrows overview)%nat ->
      date_in_row overview i = Some v -> truthy v = true ->
      (forall i' w, (i' < i)%nat -> date_in_row overview i' = Some w -> truthy w = false) ->
      find_event_date overview = Some v).
Proof.
  split; [|split].
  - intros overview v H. unfold find_event_date in H.
    apply date_rows_source in H as [H|(i & Hin & Hi)]; [discriminate|].
    unfold Py.range in Hin. apply List.in_seq in Hin.
    unfold date_in_row in Hi.
    apply first_some_range_Some in Hi as (j & Hj & Hat & _).
    exists i, j. split; [lia|]. split; [lia|]. now apply date_at_candidate.
  - intros overview. unfold find_event_date. rewrite date_rows_None. split.
    + intros H i j v Hi Hj Hc. apply date_at_candidate in Hc.
      specialize (H i). unfold date_in_row in H.
      rewrite first_some_range_None in H.
      rewrite H in Hc; [discriminate| |lia].
      unfold Py.range. apply List.in_seq. lia.
    + intros H i Hin. unfold Py.range in Hin. apply List.in_seq in Hin.
      unfold date_in_row. apply first_some_range_None. intros j Hj.
      destruct (date_at overview i j) as [v|] eqn:E; [|reflexivity].
      exfalso. apply (H i j v); [lia|lia|]. now apply date_at_candidate.
  - intros overview i v Hi Hrow Hv Hbefore. unfold find_event_date, Py.range.
    rewrite Nat.sub_0_r, (seq_split (nrows overview) i Hi).
    apply date_rows_first_true; auto.
    + discriminate.
    + intros i' w Hin. apply List.in_seq in Hin. apply Hbefore. lia.
Qed.

End NameAndDate.

(** ** Counting demographics *)

Section CountingDemographics.

Import Extractor ExtractorSpec ExtractorNotions.

Lemma dict_sum_insert_fresh (k : string) (v : Z) (d : gmap string Z) :
  d !! k = None -> dict_sum (<[k := v]> d) = dict_sum d + v.
Proof.
  intros H. unfold dict_sum. rewrite map_fold_insert_L; [reflexivity| |exact H].
  intros. lia.
Qed.

Lemma dict_sum_incr (k : string) (d : gmap string Z) :
  is_Some (d !! k) -> dict_sum (incr k d) = dict_sum d + 1.
Proof.
  intros [x E]. unfold incr. rewrite lookup_total_alt, E. simpl.
  rewrite <- (insert_delete_eq d k (x + 1)).
  rewrite dict_sum_insert_fresh by apply lookup_delete_eq.
  rewrite <- (insert_delete_id d k x E) at 2.
  rewrite dict_sum_insert_fresh by apply lookup_delete_eq. lia.
Qed.

Lemma has_categories_incr (k : string) (d : gmap string Z) :
  has_categories d -> has_categories (incr k d).
Proof.
  intros H k' Hk'. unfold incr. destruct (decide (k = k')) as [->|Hne].
  - rewrite lookup_insert_eq. eauto.
  - rewrite lookup_insert_ne by exact Hne. now apply H.
Qed.

Lemma has_categories_count_cell (val : string) (d : gmap string Z) :
  has_categories d -> has_categories (count_cell val d).
Proof.
  intros H. unfold count_cell.
  repeat match goal with
         | |- context [if ?b then _ else _] => destruct b
         end; try exact H; now apply has_categories_incr.
Qed.

Lemma dict_sum_count_cell (val : string) (d : gmap string Z) :
  has_categories d ->
  dict_sum (count_cell val d)
  = dict_sum d + (if demographic_keyword val then 1 else 0).
Proof.
  intros H. unfold count_cell, demographic_keyword.
  destruct (Py.contains "freshman" val); [apply dict_sum_incr, H; simpl; tauto|].
  destruct (Py.contains "sophmore" val); [apply dict_sum_incr, H; simpl; tauto|].
  destruct (Py.contains "sophomore" val); [apply dict_sum_incr, H; simpl; tauto|].
  destruct (Py.contains "junior" val); [apply dict_sum_incr, H; simpl; tauto|].
  destruct (Py.contains "senior" val); [apply dict_sum_incr, H; simpl; tauto|].
  destruct (Py.contains "graduate" val); [apply dict_sum_incr, H; simpl; tauto|].
  destruct (Py.contains "grad" val); [apply dict_sum_incr, H; simpl; tauto|].
  destruct (Py.contains "masters" val); [apply dict_sum_incr, H; simpl; tauto|].
  destruct (Py.contains "phd" val); [apply dict_sum_incr, H; simpl; tauto|].
  destruct (Py.contains "alumni" val); [apply dict_sum_incr, H; simpl; tauto|].
  simpl. lia.
Qed.

Lemma dict_sum_fold_cells (attendees : Grid) (ps : list (nat * nat)) (d : gmap string Z) :
  has_categories d ->
  dict_sum (fold_left (fun d '(i, j) =>
                         count_cell (Py.lower (cell_text (iloc attendees i j))) d) ps d)
  = dict_sum d
    + Z.of_nat (length (List.filter
                          (fun p => demographic_keyword
                                      (Py.lower (cell_text (iloc attendees (fst p) (snd p)))))
                          ps)).
Proof.
  revert d. induction ps as [|[i j] ps IH]; intros d Hd; simpl; [lia|].
  rewrite IH by (now apply has_categories_count_cell).
  rewrite dict_sum_count_cell by exact Hd.
  destruct (demographic_keyword _); simpl; lia.
Qed.

Lemma has_categories_start : has_categories demographics0.
Proof.
  intros k Hk. simpl in Hk.
  repeat (destruct Hk as [<-|Hk]; [vm_compute; eauto|]). contradiction.
Qed.

Lemma dict_sum_count_cells (attendees : Grid) :
  dict_sum (count_cells attendees) = Z.of_nat (keyword_cells attendees).
Proof.
  unfold count_cells, keyword_cells.
  rewrite dict_sum_fold_cells by exact has_categories_start.
  assert (H0 : dict_sum demographics0 = 0) by (vm_compute; reflexivity).
  rewrite H0. lia.
Qed.

(** X4.  The counts of a demographics dictionary add up to the number of
    cells of the "Attendee Data" sheet that hold a keyword: each such cell
    is counted once, in one category.  The dictionary is returned exactly
    when more than five cells hold a keyword; with five or fewer, and
    without the sheet, demographics are absent. *)
Theorem demographics_count_keyword_cells :
  (forall attendees,
      dict_sum (count_cells attendees) = Z.of_nat (keyword_cells attendees)) /\
  (forall attendees d,
      extract_demographics (Some attendees) = Some d <->
      d = count_cells attendees /\ (5 < keyword_cells attendees)%nat) /\
  (forall attendees,
      extract_demographics (Some attendees) = None <->
      (keyword_cells attendees <= 5)%nat) /\
  extract_demographics None = None.
Proof.
  split; [exact dict_sum_count_cells|].
  split; [|split; [|reflexivity]].
  - intros attendees d. unfold extract_demographics.
    rewrite dict_sum_count_cells.
    destruct (5 <? Z.of_nat (keyword_cells attendees)) eqn:E.
    + apply Z.ltb_lt in E. split.
      * intros H. injection H as <-. split; [reflexivity|lia].
      * intros [-> _]. reflexivity.
    + apply Z.ltb_ge in E. split; [discriminate|]. intros [_ H]. lia.
  - intros attendees. unfold extract_demographics.
    rewrite dict_sum_count_cells.
    destruct (5 <? Z.of_nat (keyword_cells attendees)) eqn:E.
    + apply Z.ltb_lt in E. split; [discriminate|]. lia.
    + apply Z.ltb_ge in E. split; [lia|reflexivity].
Qed.

End CountingDemographics.

(** ** Event types *)

Section EventTypes.

Import Extractor ExtractorSpec ExtractorNotions.

Lemma lower_upper_char (c : ascii) : Py.lower_char (Py.upper_char c) = Py.lower_char c.
Proof. destruct c as [[] [] [] [] [] [] [] []]; reflexivity. Qed.

Lemma lower_lower_char (c : ascii) : Py.lower_char (Py.lower_char c) = Py.lower_char c.
Proof. destruct c as [[] [] [] [] [] [] [] []]; reflexivity. Qed.

Lemma lower_upper (s : string) : Py.lower (Py.upper s) = Py.lower s.
Proof.
  unfold Py.lower, Py.upper. induction s as [|c s IH]; simpl; [reflexivity|].
  now rewrite lower_upper_char, IH.
Qed.

Lemma lower_lower (s : string) : Py.lower (Py.lower s) = Py.lower s.
Proof.
  unfold Py.lower. induction s as [|c s IH]; simpl; [reflexivity|].
  now rewrite lower_lower_char, IH.
Qed.

(** X5.  On a name written in ASCII the type of an event does not depend
    on the case of the letters.  For every name the type is one of nine
    names, and it is "Other" exactly when the event has no name. *)
Theorem event_type_ignores_case :
  (forall name,
      isascii name = true ->
      determine_event_type (Some (Py.upper name)) = determine_event_type (Some name) /\
      determine_event_type (Some (Py.lower name)) = determine_event_type (Some name)) /\
  (forall name, In (determine_event_type name) event_type_names) /\
  (forall name, determine_event_type name = "Other" <-> name = None).
Proof.
  split; [|split].
  - intros name _. unfold determine_event_type.
    now rewrite lower_upper, lower_lower.
  - intros [name|]; unfold determine_event_type, event_type_names;
      repeat match goal with
             | |- context [if ?b then _ else _] => destruct b
             end; simpl; tauto.
  - intros [name|]; [|split; reflexivity].
    split; [|discriminate]. unfold determine_event_type.
    repeat match goal with
           | |- context [if ?b then _ else _] => destruct b
           end; discriminate.
Qed.

Lemma event_type_ignores_case_witness :
  isascii "Diwali Night" = true /\
  determine_event_type (Some (Py.upper "Diwali Night")) = "Cultural Festival" /\
  determine_event_type (Some (Py.lower "Diwali Night")) = "Cultural Festival" /\
  determine_event_type (Some "Diwali Night") = "Cultural Festival".
Proof.
  destruct (proj1 event_type_ignores_case "Diwali Night" eq_refl) as [Hu Hl].
  split; [reflexivity|]. rewrite Hu, Hl. repeat split; vm_compute; reflexivity.
Defined.

End EventTypes.

(** ** The compiled dataset *)

Section CompiledDataset.

Import Extractor ExtractorSpec ExtractorNotions.

Lemma process_file_unselected (acc : list EventData * gmap string Z)
      (filename : string) (wb : Workbook) :
  selected filename = false -> process_file acc (filename, wb) = acc.
Proof.
  intros H. destruct acc as [events all]. unfold process_file. now rewrite H.
Qed.

Lemma keep_event_typed (wb : Workbook) (event : EventData) :
  keep_event wb = Some event ->
  exists name,
    Event_Name event = Some name /\
    Event_Type event = Some (determine_event_type (Some name)) /\
    Demographics event = extract_demographics (Attendee_Data wb).
Proof.
  unfold keep_event, extract_event_from_workbook.
  destruct (Overview wb) as [overview|]; [|discriminate]. simpl.
  destruct (find_event_name overview) as [name|]; [|discriminate].
  destruct (negb (String.eqb name "")); [|discriminate].
  intros H. injection H as <-. simpl. eauto.
Qed.

(** X6.  Files whose name does not end in ".xlsx" or does not contain
    "Event Management" leave no trace in the result.  The events of two
    listings put one after the other are the events of the first followed
    by the events of the second.  Every event of the dataset carries the
    type derived from its name, which is never "Other". *)
Theorem dataset_events_are_typed :
  (forall before after filename wb,
      selected filename = false ->
      extract_all_events (before ++ (filename, wb) :: after)
      = extract_all_events (before ++ after)) /\
  (forall folder1 folder2,
      fst (extract_all_events (folder1 ++ folder2))
      = fst (extract_all_events folder1) ++ fst (extract_all_events folder2)) /\
  (forall folder event,
      In event (fst (extract_all_events folder)) ->
      exists name,
        Event_Name event = Some name /\
        Event_Type event = Some (determine_event_type (Some name)) /\
        Event_Type event <> Some "Other").
Proof.
  split; [|split].
  - intros before after filename wb Hsel. unfold extract_all_events.
    rewrite !fold_left_app. simpl. now rewrite process_file_unselected.
  - intros folder1 folder2. rewrite !extract_all_events_kept. apply omap_app.
  - intros folder event Hin. rewrite extract_all_events_kept in Hin.
    apply list_elem_of_In, list_elem_of_omap in Hin as ([filename wb] & _ & Hkept).
    unfold kept in Hkept. simpl in Hkept.
    destruct (selected filename); [|discriminate].
    apply keep_event_typed in Hkept as (name & Hn & Ht & _).
    exists name. split; [exact Hn|]. split; [exact Ht|].
    rewrite Ht. intros Heq. injection Heq as Heq.
    unfold determine_event_type in Heq.
    repeat match type of Heq with
           | context [if ?b then _ else _] => destruct b
           end; discriminate.
Qed.

Lemma aggregate_lookup (d all : gmap string Z) (k : string) :
  aggregate d all !! k
  = match d !! k with
    | Some v => Some (default 0 (all !! k) + v)
    | None => all !! k
    end.
Proof.
  unfold aggregate. revert k.
  induction d as [|i x d Hi IH] using map_ind; intros k.
  - rewrite map_fold_empty, lookup_empty. reflexivity.
  - rewrite map_fold_insert_L; [| |exact Hi].
    + destruct (decide (i = k)) as [->|Hne].
      * rewrite !lookup_insert_eq. rewrite IH, Hi. reflexivity.
      * rewrite !lookup_insert_ne by exact Hne. apply IH.
    + intros j1 j2 z1 z2 y Hne _ _.
      rewrite (lookup_insert_ne _ j2 j1) by congruence.
      rewrite (lookup_insert_ne _ j1 j2) by exact Hne.
      apply insert_insert_ne. congruence.
Qed.

Lemma total_reported_app (k : string) (l1 l2 : list EventData) :
  total_reported k (l1 ++ l2) = total_reported k l1 + total_reported k l2.
Proof.
  unfold total_reported. induction l1 as [|e l1 IH]; simpl; [reflexivity|].
  rewrite IH. lia.
Qed.

Lemma process_file_total (k : string) (acc : list EventData * gmap string Z)
      (file : string * Workbook) :
  default 0 (snd acc !! k) = total_reported k (fst acc) ->
  default 0 (snd (process_file acc file) !! k)
  = total_reported k (fst (process_file acc file)).
Proof.
  destruct acc as [events all], file as [filename wb]. simpl. intros H.
  unfold process_file. destruct (selected filename); [|exact H].
  destruct (keep_event wb) as [event|]; [|exact H]. cbn [fst snd].
  rewrite total_reported_app, <- H.
  change (total_reported k [event]) with (reported k event + 0).
  unfold reported.
  destruct (Demographics event) as [d|]; [|lia].
  rewrite aggregate_lookup. destruct (d !! k); simpl; lia.
Qed.

Lemma extract_all_events_total (k : string) (folder : list (string * Workbook)) :
  default 0 (snd (extract_all_events folder) !! k)
  = total_reported k (fst (extract_all_events folder)).
Proof.
  unfold extract_all_events.
  assert (H : forall acc,
             default 0 (snd acc !! k) = total_reported k (fst acc) ->
             default 0 (snd (fold_left process_file folder acc) !! k)
             = total_reported k (fst (fold_left process_file folder acc))).
  { induction folder as [|file folder IH]; intros acc Hacc; simpl; [exact Hacc|].
    apply IH. now apply process_file_total. }
  apply H. reflexivity.
Qed.

Lemma reported_other (folder : list (string * Workbook)) (event : EventData) :
  In event (fst (extract_all_events folder)) -> reported "Other" event = 0.
Proof.
  intros Hin. rewrite extract_all_events_kept in Hin.
  apply list_elem_of_In, list_elem_of_omap in Hin as ([filename wb] & _ & Hkept).
  unfold kept in Hkept. simpl in Hkept.
  destruct (selected filename); [|discriminate].
  apply keep_event_typed in Hkept as (name & _ & _ & Hd).
  unfold reported. rewrite Hd. unfold extract_demographics.
  destruct (Attendee_Data wb) as [attendees|]; [|reflexivity].
  destruct (5 <? dict_sum (count_cells attendees)); [|reflexivity].
  destruct (counting_invariant_cells attendees) as [-> _]. reflexivity.
Qed.

Lemma total_reported_zero (k : string) (events : list EventData) :
  (forall event, In event events -> reported k event = 0) ->
  total_reported k events = 0.
Proof.
  unfold total_reported. induction events as [|e events IH]; intros H; simpl;
    [reflexivity|].
  rewrite (H e) by (now left). rewrite IH; [reflexivity|].
  intros event Hin. apply H. now right.
Qed.

(** X7.  The aggregate demographics hold, for every category, the sum of
    the counts that the events of the dataset reported; events without
    demographics add nothing.  The aggregate count of "Other" is 0. *)
Theorem aggregate_is_sum_of_events :
  (forall folder k,
      default 0 (snd (extract_all_events folder) !! k)
      = total_reported k (fst (extract_all_events folder))) /\
  (forall d all k,
      aggregate d all !! k
      = match d !! k with
        | Some v => Some (default 0 (all !! k) + v)
        | None => all !! k
        end) /\
  (forall folder, default 0 (snd (extract_all_events folder) !! "Other") = 0).
Proof.
  split; [|split].
  - intros folder k. apply extract_all_events_total.
  - exact aggregate_lookup.
  - intros folder. rewrite extract_all_events_total.
    apply total_reported_zero. intros event. apply reported_other.
Qed.

End CompiledDataset.

(** * Further properties of the analyzer *)

Section SummaryShape.

Import Analyzer Spec Scenario AnalyzerNotions.
Local Open Scope Q_scope.

Lemma res_map_length {A C : Type} (f : A -> Res C) (l : list A) (ys : list C) :
  res_map f l = Ok ys -> length ys = length l.
Proof.
  revert ys. induction l as [|x l IH]; intros ys H; simpl in H.
  - now injection H as <-.
  - destruct (f x) as [y|]; [|discriminate]. simpl in H.
    destruct (res_map f l) as [ys'|]; [|discriminate]. simpl in H.
    injection H as <-. simpl. now rewrite (IH ys' eq_refl).
Qed.

(** The parts of a summary, read off a successful run. *)
Lemma prepare_data_summary_parts (demographics : option (gmap string Z))
      (df : DataFrame) (summary : Summary) :
  prepare_data_summary demographics df = Ok summary ->
  exists fin details,
    df <> [] /\
    financial_metrics df = Ok fin /\
    res_map event_detail df = Ok details /\
    events summary = details /\
    total_events summary = Z.of_nat (length df) /\
    total_attendees summary = Py.Zsum (present (map Actual_Attendance df)) /\
    total_registered summary = Py.Zsum (present (map Expected_Attendance df)) /\
    total_budget summary = fin_total_budget fin /\
    avg_budget_per_event summary = fin_avg_budget_per_event fin /\
    cost_per_attendee summary = fin_cost_per_attendee fin /\
    avg_cost_per_attendee summary = fin_avg_cost_per_attendee fin.
Proof.
  unfold prepare_data_summary.
  destruct df as [|row df]; [discriminate|].
  cbn [map].
  repeat match goal with
         | |- context [res_bind ?r _] =>
             let E := fresh "E" in
             destruct r eqn:E; simpl; [|discriminate]
         end.
  intros H. injection H as <-. simpl.
  eexists _, _. repeat split; try reflexivity; try eassumption. discriminate.
Qed.

Lemma financial_metrics_present (df : DataFrame) (fin : Financial) :
  financial_metrics df = Ok fin ->
  (is_Some (fin_total_budget fin) <->
   exists row, In row df /\ is_Some (Total_Budget row)) /\
  (is_Some (fin_total_budget fin) <-> is_Some (fin_avg_budget_per_event fin)) /\
  (is_Some (fin_total_budget fin) <-> is_Some (fin_cost_per_attendee fin)) /\
  (is_Some (fin_total_budget fin) <-> is_Some (fin_avg_cost_per_attendee fin)).
Proof.
  unfold financial_metrics.
  destruct (existsb (fun row => bool_decide (is_Some (Total_Budget row))) df) eqn:Eany.
  - apply existsb_exists in Eany as (row & Hin & Hrow).
    apply bool_decide_eq_true in Hrow.
    repeat match goal with
           | |- context [res_bind ?r _] =>
               let E := fresh "E" in
               destruct r eqn:E; simpl; [|discriminate]
           end.
    intros H. injection H as <-. simpl.
    repeat split; eauto.
  - intros H. injection H as <-. simpl.
    assert (Hnone : ~ exists row, In row df /\ is_Some (Total_Budget row)).
    { intros (row & Hin & Hrow).
      assert (existsb (fun row => bool_decide (is_Some (Total_Budget row))) df = true).
      { apply existsb_exists. exists row. split; [exact Hin|].
        now apply bool_decide_eq_true. }
      congruence. }
    repeat split; intros Hs; try (destruct Hs; discriminate); contradiction.
Qed.

(** A summary with a total budget has a cost per attendee. *)
Lemma budget_has_cost
      (demographics : option (gmap string Z)) (df : DataFrame) (summary : Summary) :
  prepare_data_summary demographics df = Ok summary ->
  is_Some (total_budget summary) -> is_Some (cost_per_attendee summary).
Proof.
  intros H.
  apply prepare_data_summary_parts in H
    as (fin & details & _ & Hfin & _ & _ & _ & _ & _ & -> & _ & -> & _).
  apply financial_metrics_present in Hfin as (_ & _ & Hcost & _). apply Hcost.
Qed.

(** X8.  In a summary the four budget entries (total budget, average
    budget per event, cost per attendee, average cost per attendee) are
    present together, and they are present exactly when at least one event
    of the dataset has a budget. *)
Theorem budget_entries_iff_some_budget
        (demographics : option (gmap string Z)) (df : DataFrame) (summary : Summary) :
  prepare_data_summary demographics df = Ok summary ->
  (is_Some (total_budget summary) <->
   exists row, In row df /\ is_Some (Total_Budget row)) /\
  (is_Some (total_budget summary) <-> is_Some (avg_budget_per_event summary)) /\
  (is_Some (total_budget summary) <-> is_Some (cost_per_attendee summary)) /\
  (is_Some (total_budget summary) <-> is_Some (avg_cost_per_attendee summary)).
Proof.
  intros H.
  apply prepare_data_summary_parts in H
    as (fin & details & _ & Hfin & _ & _ & _ & _ & _ & -> & -> & -> & ->).
  now apply financial_metrics_present.
Qed.

Lemma budget_entries_iff_some_budget_witness :
  exists summary,
    prepare_data_summary None season = Ok summary /\
    (is_Some (total_budget summary) <->
     exists row, In row season /\ is_Some (Total_Budget row)).
Proof.
  destruct (prepare_data_summary None season) as [summary|e] eqn:E.
  - exists summary. split; [reflexivity|].
    exact (proj1 (budget_entries_iff_some_budget None season summary E)).
  - vm_compute in E. discriminate E.
Defined.

Lemma event_detail_ok (row : Row) (detail : EventDetail) :
  event_detail row = Ok detail -> complete_row row /\ detail_of row detail.
Proof.
  unfold event_detail, complete_row, detail_of, div, row_rate.
  destruct (Expected_Attendance row) as [e|]; [|discriminate].
  destruct (Actual_Attendance row) as [a|]; [|discriminate].
  destruct (Qeq_bool (inject_Z e) 0) eqn:Ee; [discriminate|]. simpl.
  assert (He : e <> 0%Z).
  { intros ->. discriminate. }
  destruct (Total_Budget row) as [b|].
  - destruct (Qeq_bool (inject_Z a) 0) eqn:Ea; [discriminate|]. simpl.
    assert (Ha : a <> 0%Z).
    { intros ->. discriminate. }
    intros H. injection H as <-. simpl. split.
    + exists e, a. repeat split; auto.
    + repeat split; eauto.
  - simpl. intros H. injection H as <-. simpl. split.
    + exists e, a. repeat split; auto. intros [? ?]. discriminate.
    + repeat split; intros [? ?]; discriminate.
Qed.

Lemma res_map_In {A C : Type} (f : A -> Res C) (l : list A) (ys : list C) :
  res_map f l = Ok ys -> forall x, In x l -> exists y, f x = Ok y.
Proof.
  revert ys. induction l as [|x l IH]; intros ys H x' Hin; [destruct Hin|].
  simpl in H. destruct (f x) as [y|] eqn:Ef; [|discriminate]. simpl in H.
  destruct (res_map f l) as [ys'|]; [|discriminate].
  destruct Hin as [<-|Hin]; eauto.
Qed.

Lemma event_details_columns (df : DataFrame) (details : list EventDetail) :
  res_map event_detail df = Ok details ->
  present (map Actual_Attendance df) = map actual details /\
  present (map Expected_Attendance df) = map expected details.
Proof.
  revert details. induction df as [|row df IH]; intros details H; simpl in H.
  - injection H as <-. split; reflexivity.
  - destruct (event_detail row) as [d|] eqn:Ed; [|discriminate]. simpl in H.
    destruct (res_map event_detail df) as [ds|]; [|discriminate]. simpl in H.
    injection H as <-.
    apply event_detail_ok in Ed as [_ (_ & _ & _ & He & Ha & _)].
    destruct (IH ds eq_refl) as [IHa IHe].
    cbn [map]. rewrite He, Ha. unfold present in *. csimpl.
    rewrite IHa, IHe. split; reflexivity.
Qed.

(** X9.  A summary is only produced from a complete dataset: the dataset
    has at least one row, and every row has both attendance values, an
    expected attendance other than 0 and, when it has a budget, an actual
    attendance other than 0.  For any other dataset [prepare_data_summary]
    ends in an exception. *)
Theorem summary_needs_complete_rows :
  (forall demographics df summary,
      prepare_data_summary demographics df = Ok summary ->
      df <> [] /\ forall row, In row df -> complete_row row) /\
  (forall demographics df,
      (df = [] \/ exists row, In row df /\ ~ complete_row row) ->
      exists e, prepare_data_summary demographics df = Raise e).
Proof.
  assert (Hok : forall demographics df summary,
             prepare_data_summary demographics df = Ok summary ->
             df <> [] /\ forall row, In row df -> complete_row row).
  { intros demographics df summary H.
    apply prepare_data_summary_parts in H
      as (fin & details & Hne & _ & Hdetails & _).
    split; [exact Hne|]. intros row Hin.
    destruct (res_map_In _ _ _ Hdetails row Hin) as [d Hd].
    now apply event_detail_ok in Hd. }
  split; [exact Hok|].
  intros demographics df Hbad.
  destruct (prepare_data_summary demographics df) as [summary|e] eqn:E; [|eauto].
  exfalso. destruct (Hok _ _ _ E) as [Hne Hall].
  destruct Hbad as [->|(row & Hin & Hrow)]; [now apply Hne|].
  apply Hrow, Hall, Hin.
Qed.

(** X10.  The event list of a summary mirrors the dataset: it has one
    entry per row, in the order of the rows, each made from its row (name,
    type, date, attendance values, rate rounded to one decimal, budget
    entries present exactly when the row has a budget); and the totals of
    the summary are the sums over that list. *)
Theorem summary_mirrors_dataset :
  forall demographics df summary,
    prepare_data_summary demographics df = Ok summary ->
    length (events summary) = length df /\
    (forall k row, df !! k = Some row ->
                   exists detail, events summary !! k = Some detail /\
                                  detail_of row detail) /\
    total_events summary = Z.of_nat (length (events summary)) /\
    total_attendees summary = Py.Zsum (map actual (events summary)) /\
    total_registered summary = Py.Zsum (map expected (events summary)).
Proof.
  intros demographics df summary H.
  apply prepare_data_summary_parts in H
    as (fin & details & _ & _ & Hdetails & -> & -> & -> & -> & _).
  pose proof (res_map_length _ _ _ Hdetails) as Hlen.
  destruct (event_details_columns _ _ Hdetails) as [Ha He].
  rewrite Ha, He, Hlen. repeat split.
  intros k row Hk. pose proof (res_map_lookup _ _ _ Hdetails k) as Hlook.
  rewrite Hk in Hlook.
  destruct (details !! k) as [d|]; [|contradiction].
  exists d. split; [reflexivity|]. now apply event_detail_ok in Hlook.
Qed.

Lemma summary_mirrors_dataset_witness :
  exists summary,
    prepare_data_summary None season = Ok summary /\
    length (events summary) = length season /\
    total_attendees summary = Py.Zsum (map actual (events summary)).
Proof.
  destruct (prepare_data_summary None season) as [summary|e] eqn:E.
  - exists summary. split; [reflexivity|].
    destruct (summary_mirrors_dataset None season summary E)
      as (Hlen & _ & _ & Hsum & _).
    split; [exact Hlen | exact Hsum].
  - vm_compute in E. discriminate E.
Defined.

End SummaryShape.

(** * The shape of the engagement score *)

Section ScoreShape.

Import Analyzer Spec AnalyzerNotions.
Local Open Scope Q_scope.

Ltac qsplit :=
  repeat match goal with
    | |- context [Py.Qleb ?a ?b] =>
        let E := fresh "E" in
        destruct (Py.Qleb a b) eqn:E;
        [apply Qleb_true in E | apply Qleb_false in E]
    | |- context [Py.Qltb ?a ?b] =>
        let E := fresh "E" in
        destruct (Py.Qltb a b) eqn:E;
        [apply Qltb_true in E | apply Qltb_false in E]
    end.

(** X11.  The attendance component never decreases when the attendance
    rate grows; it is 0 up to a rate of 0 and 40 from a rate of 85; and it
    jumps at 65: below 65 it stays under 19.5, at 65 it is 20. *)
Theorem attendance_score_is_monotone :
  (forall r1 r2, r1 <= r2 -> attendance_score r1 <= attendance_score r2) /\
  (forall r, r <= 0 -> attendance_score r == 0) /\
  (forall r, 85 <= r -> attendance_score r == 40) /\
  (forall r, r < 65 -> attendance_score r < 19.5) /\
  attendance_score 65 == 20.
Proof.
  repeat split.
  - intros r1 r2 H. unfold attendance_score, Py.max. qsplit; lra.
  - intros r H. unfold attendance_score, Py.max. qsplit; lra.
  - intros r H. unfold attendance_score, Py.max. qsplit; lra.
  - intros r H. unfold attendance_score, Py.max. qsplit; lra.
Qed.

Lemma inject_Z_pred (n : Z) : inject_Z (n - 1) == inject_Z n - 1.
Proof. unfold Z.sub. rewrite inject_Z_plus. reflexivity. Qed.

Lemma inject_Z_succ (n : Z) : inject_Z (n + 1) == inject_Z n + 1.
Proof. rewrite inject_Z_plus. reflexivity. Qed.

Lemma round_half_even_just_below (n : Z) (q : Q) :
  inject_Z n - (1 # 2) < q -> q < inject_Z n -> Z.even n = true ->
  Py.round_half_even q = n.
Proof.
  intros Hlo Hhi Heven. unfold Py.round_half_even.
  assert (Hf : Qfloor q = (n - 1)%Z).
  { pose proof (Qfloor_le q) as H1. pose proof (Qlt_floor q) as H2.
    rewrite inject_Z_succ in H2.
    assert (H3 : (Qfloor q < n)%Z) by (rewrite Zlt_Qlt; lra).
    assert (H4 : (n - 1 < Qfloor q + 1)%Z).
    { rewrite Zlt_Qlt, inject_Z_pred, inject_Z_succ. lra. }
    lia. }
  rewrite Hf.
  assert (Hgt : (1 # 2) < q - inject_Z (n - 1)).
  { rewrite inject_Z_pred. lra. }
  apply Qgt_alt in Hgt. rewrite Hgt. lia.
Qed.

Lemma round_to_boundary (b : Z) (raw : Q) :
  inject_Z b - 0.05 < raw -> raw < inject_Z b -> Py.round raw 1 == inject_Z b.
Proof.
  intros Hlo Hhi. unfold Py.round. rewrite Qred_correct.
  change (Py.pow10 1) with 10%positive.
  rewrite (round_half_even_just_below (10 * b) (raw * inject_Z 10)).
  - unfold Qeq. cbn [Qnum Qden inject_Z]. lia.
  - rewrite inject_Z_mult. change (inject_Z 10) with 10. lra.
  - rewrite inject_Z_mult. change (inject_Z 10) with 10. lra.
  - rewrite Z.even_mul. reflexivity.
Qed.

Lemma score_across (b : Z) (upper lower : Grade) :
  (forall s, inject_Z b - 0.05 < s < inject_Z b -> grade_of s = lower) ->
  (forall s, s == inject_Z b -> grade_of s = upper) ->
  forall df summary,
    inject_Z b - 0.05 < raw_score summary < inject_Z b ->
    score (calculate_engagement_score df summary) == inject_Z b /\
    grade (calculate_engagement_score df summary) = lower /\
    grade_of (score (calculate_engagement_score df summary)) = upper.
Proof.
  intros Hlower Hupper df summary [Hlo Hhi].
  assert (Hs : score (calculate_engagement_score df summary) == inject_Z b).
  { cbn [calculate_engagement_score score]. now apply round_to_boundary. }
  split; [exact Hs|]. split.
  - cbn [calculate_engagement_score grade]. apply Hlower. split; assumption.
  - apply Hupper, Hs.
Qed.

(** X12.  The score and the grade of a result can disagree.  The grade is
    taken from the unrounded total, the score is that total rounded to one
    decimal: when the total lies less than 0.05 under a grade boundary, the
    score shown is the boundary itself, the grade is the one below the
    boundary, and the grade that the displayed score would earn is the one
    above.  Such totals occur. *)
Theorem score_and_grade_can_disagree :
  Forall (fun entry : Q * Grade * Grade =>
            let '(b, upper, lower) := entry in
            forall df summary,
              b - 0.05 < raw_score summary < b ->
              score (calculate_engagement_score df summary) == b /\
              grade (calculate_engagement_score df summary) = lower /\
              grade_of (score (calculate_engagement_score df summary)) = upper)
         grade_boundaries /\
  89.95 < raw_score near_top_summary < 90.
Proof.
  split.
  - unfold grade_boundaries.
    repeat (apply Forall_cons; split);
      [ apply (score_across 90) | apply (score_across 85) | apply (score_across 80)
      | apply (score_across 75) | apply (score_across 70) | apply (score_across 65)
      | apply (score_across 60) | apply (score_across 55) | apply (score_across 50)
      | apply Forall_nil; exact I ];
      intros s Hs; unfold grade_of; qsplit; try reflexivity;
      change (inject_Z 90) with 90 in *; change (inject_Z 85) with 85 in *;
      change (inject_Z 80) with 80 in *; change (inject_Z 75) with 75 in *;
      change (inject_Z 70) with 70 in *; change (inject_Z 65) with 65 in *;
      change (inject_Z 60) with 60 in *; change (inject_Z 55) with 55 in *;
      change (inject_Z 50) with 50 in *; exfalso; lra.
  - split; unfold Qlt; vm_compute; reflexivity.
Qed.

Lemma Qsum_from_const (x : Q) (l : list Q) (a : Q) :
  Forall (fun r => r == x) l ->
  fold_left Qplus l a == a + inject_Z (Z.of_nat (length l)) * x.
Proof.
  revert a. induction l as [|y l IH]; intros a Hl.
  - simpl. change (inject_Z 0) with 0. ring.
  - inversion Hl as [|? ? Hy Hl']; subst.
    cbn [fold_left length]. rewrite (IH _ Hl'), Hy.
    rewrite Nat2Z.inj_succ. unfold Z.succ. rewrite inject_Z_succ. ring.
Qed.

Lemma mean_const (x : Q) (l : list Q) :
  l <> [] -> Forall (fun r => r == x) l -> Py.mean l == x.
Proof.
  intros Hne Hl. unfold Py.mean, Py.Qsum. rewrite (Qsum_from_const x l 0 Hl).
  assert (Hn : ~ inject_Z (Z.of_nat (length l)) == 0).
  { destruct l as [|y l]; [congruence|].
    cbn [length]. rewrite Nat2Z.inj_succ. unfold Qeq. cbn [Qnum Qden inject_Z]. lia. }
  field. exact Hn.
Qed.

Lemma sqrt_zero (q : Q) : q == 0 -> Py.sqrt q == 0.
Proof.
  intros Hq. unfold Py.sqrt.
  assert (H : q * inject_Z (Zpos (Py.pow10 24)) == 0) by (rewrite Hq; ring).
  rewrite (Qfloor_comp _ _ H). reflexivity.
Qed.

Lemma std_const (x : Q) (l : list Q) :
  l <> [] -> Forall (fun r => r == x) l -> Py.std l == 0.
Proof.
  intros Hne Hl. unfold Py.std. apply sqrt_zero.
  pose proof (mean_const x l Hne Hl) as Hm.
  apply mean_const.
  - destruct l; [congruence|discriminate].
  - apply Forall_map. eapply Forall_impl; [exact Hl|].
    intros y Hy. cbn beta in *. rewrite Hy, Hm. ring.
Qed.

(** X13.  The consistency component is 15 when there are fewer than two
    events, and 20, its maximum, for two events with the same attendance
    rate (numpy computes the mean and the deviations of two equal floats
    without rounding, so this holds of the float computation as it does of
    the exact one).  It always lies between 0 and 20. *)
Theorem consistency_score_fixed_points :
  (forall rates, (length rates <= 1)%nat -> consistency_score rates = 15) /\
  (forall r1 r2, r1 == r2 -> consistency_score [r1; r2] == 20) /\
  (forall rates, 0 <= consistency_score rates <= 20).
Proof.
  split; [|split].
  - intros rates H. unfold consistency_score.
    destruct (Nat.ltb_spec 1 (length rates)); [lia|reflexivity].
  - intros r1 r2 Heq. unfold consistency_score. cbn [length Nat.ltb Nat.leb].
    assert (Hstd : Py.std [r1; r2] == 0).
    { apply (std_const r1); [discriminate|].
      constructor; [reflexivity|constructor; [symmetry; exact Heq|constructor]]. }
    unfold Py.max. qsplit; lra.
  - intros rates. unfold consistency_score.
    pose proof (std_nonneg rates) as Hstd.
    destruct (1 <? length rates)%nat; [|lra].
    unfold Py.max. qsplit; lra.
Qed.

Lemma Forall_attended_firstn (n : nat) (l : list EventDetail) :
  Forall attended_nonneg l -> 0 <= mean_actual (firstn n l).
Proof.
  intros H. unfold mean_actual. apply mean_nonneg.
  apply Forall_map. apply Forall_take. eapply Forall_impl; [exact H|].
  intros e He. unfold attended_nonneg in He. cbn beta.
  change 0 with (inject_Z 0). rewrite <- Zle_Qle. exact He.
Qed.

(** X14.  The growth component is centred on 10: it is 10 when there
    are fewer than two events and when the two halves of the list have
    the same mean attendance; it is at least 10 when the second half's
    mean is not below the first half's; and, for counts that are not
    negative, it is below 10 when the second half's mean is smaller. *)
Theorem growth_score_is_centred :
  (forall l, (length l < 2)%nat -> growth_score l = 10) /\
  (forall l,
      (2 <= length l)%nat ->
      mean_actual (firstn (length l / 2) l) == mean_actual (skipn (length l / 2) l) ->
      growth_score l == 10) /\
  (forall l,
      (2 <= length l)%nat ->
      mean_actual (firstn (length l / 2) l) <= mean_actual (skipn (length l / 2) l) ->
      10 <= growth_score l <= 20) /\
  (forall l,
      (2 <= length l)%nat -> Forall attended_nonneg l ->
      mean_actual (skipn (length l / 2) l) < mean_actual (firstn (length l / 2) l) ->
      0 <= growth_score l < 10).
Proof.
  split; [|split; [|split]].
  - intros l H. unfold growth_score.
    destruct (Nat.leb_spec 2 (length l)); [lia|reflexivity].
  - intros l H Heq. unfold growth_score.
    destruct (Nat.leb_spec 2 (length l)); [|lia]. cbv zeta.
    set (f := mean_actual (firstn (length l / 2) l)) in *.
    set (s := mean_actual (skipn (length l / 2) l)) in *.
    destruct (Py.Qleb f s) eqn:Ele; [|apply Qleb_false in Ele; lra].
    destruct (Py.Qltb 0 f) eqn:Epos.
    + apply Qltb_true in Epos.
      assert (Hpct : (s - f) / f * 100 == 0).
      { rewrite <- Heq. field. lra. }
      set (p := (s - f) / f * 100) in *.
      unfold Py.min. qsplit; lra.
    + unfold Py.min. qsplit; lra.
  - intros l H Hle. unfold growth_score.
    destruct (Nat.leb_spec 2 (length l)); [|lia]. cbv zeta.
    set (f := mean_actual (firstn (length l / 2) l)) in *.
    set (s := mean_actual (skipn (length l / 2) l)) in *.
    destruct (Py.Qleb f s) eqn:Ele; [|apply Qleb_false in Ele; lra].
    apply min_bounds; [lra|].
    destruct (Py.Qltb 0 f) eqn:Epos; [|lra].
    apply Qltb_true in Epos.
    assert (0 <= (s - f) / f) by (apply Qdiv_nonneg; lra).
    set (p := (s - f) / f) in *. lra.
  - intros l H Hnn Hlt. unfold growth_score.
    destruct (Nat.leb_spec 2 (length l)); [|lia]. cbv zeta.
    pose proof (Forall_attended_firstn (length l / 2) l Hnn) as Hf.
    set (f := mean_actual (firstn (length l / 2) l)) in *.
    set (s := mean_actual (skipn (length l / 2) l)) in *.
    destruct (Py.Qleb f s) eqn:Ele; [apply Qleb_true in Ele; lra|].
    destruct (Qeq_bool f 0) eqn:Ez; [lra|].
    apply Qeq_bool_neq in Ez.
    assert (Hpos : 0 < f) by lra.
    assert (Hd : 0 < (f - s) / f).
    { apply Qlt_shift_div_l; lra. }
    set (p := (f - s) / f) in *.
    unfold Py.max. qsplit; lra.
Qed.

Lemma round_half_even_error (q : Q) :
  q - (1 # 2) <= inject_Z (Py.round_half_even q) <= q + (1 # 2).
Proof.
  unfold Py.round_half_even.
  pose proof (Qfloor_le q) as H1. pose proof (Qlt_floor q) as H2.
  rewrite inject_Z_succ in H2.
  destruct (Qcompare (q - inject_Z (Qfloor q)) (1 # 2)) eqn:E.
  - apply Qeq_alt in E. destruct (Z.even (Qfloor q)).
    + lra.
    + rewrite inject_Z_succ. lra.
  - apply Qlt_alt in E. lra.
  - apply Qgt_alt in E. rewrite inject_Z_succ. lra.
Qed.

Lemma round_one_decimal_error (q : Q) :
  q - 0.05 <= Py.round q 1 <= q + 0.05.
Proof.
  unfold Py.round. rewrite Qred_correct.
  change (Py.pow10 1) with 10%positive.
  pose proof (round_half_even_error (q * inject_Z 10)) as H.
  set (n := Py.round_half_even (q * inject_Z 10)) in *.
  change (inject_Z 10) with 10 in H.
  assert (Hn : n # 10 == inject_Z n / 10).
  { unfold Qeq, Qdiv, Qmult, Qinv, inject_Z. cbn [Qnum Qden]. lia. }
  rewrite Hn. split.
  - apply Qle_shift_div_l; lra.
  - apply Qle_shift_div_r; lra.
Qed.

(** X15.  The four entries of the breakdown are each rounded on their
    own, so they need not add up to the score; but they add up to it
    within a quarter of a point. *)
Theorem breakdown_adds_up_to_score :
  forall df summary,
    let result := calculate_engagement_score df summary in
    score result - 0.25 <= breakdown_total (breakdown result)
                        <= score result + 0.25.
Proof.
  intros df summary. cbv zeta.
  unfold breakdown_total, calculate_engagement_score.
  cbn [score breakdown attendance consistency growth efficiency].
  unfold raw_score.
  set (a := attendance_score _). set (c := consistency_score _).
  set (g := growth_score _). set (e := efficiency_score _).
  pose proof (round_one_decimal_error a). pose proof (round_one_decimal_error c).
  pose proof (round_one_decimal_error g). pose proof (round_one_decimal_error e).
  pose proof (round_one_decimal_error (a + c + g + e)).
  lra.
Qed.

Lemma insert_by_date_permutation (x : EventDetail) (l : list EventDetail) :
  Permutation (x :: l) (insert_by_date x l).
Proof.
  induction l as [|y l IH]; [reflexivity|].
  cbn [insert_by_date]. destruct (String.leb (date x) (date y)); [reflexivity|].
  rewrite Permutation_swap. now apply Permutation_skip.
Qed.

Lemma insert_by_date_head (x : EventDetail) (l : list EventDetail) (y : EventDetail) :
  date_le y x -> HdRel date_le y l -> HdRel date_le y (insert_by_date x l).
Proof.
  intros Hyx Hl. destruct l as [|z l]; cbn [insert_by_date].
  - now constructor.
  - destruct (String.leb (date x) (date z)); constructor; [exact Hyx|].
    now inversion Hl.
Qed.

Lemma insert_by_date_sorted (x : EventDetail) (l : list EventDetail) :
  Sorted date_le l -> Sorted date_le (insert_by_date x l).
Proof.
  induction l as [|y l IH]; intros Hl; cbn [insert_by_date].
  - repeat constructor.
  - destruct (String.leb (date x) (date y)) eqn:E.
    + constructor; [exact Hl|]. now constructor.
    + inversion Hl as [|? ? Hl' Hhd]; subst.
      constructor; [now apply IH|].
      apply insert_by_date_head; [|exact Hhd].
      unfold date_le. destruct (String.leb_total (date x) (date y)); congruence.
Qed.

(** X16.  [sorted(..., key=date)] as the growth component uses it: the
    result holds the same events, its dates never decrease, and a list
    whose dates are already in order is left as it is (events of the same
    date keep their order). *)
Theorem sorted_by_date_sorts :
  (forall l, Permutation l (sorted_by_date l)) /\
  (forall l, Sorted date_le (sorted_by_date l)) /\
  (forall l, Sorted date_le l -> sorted_by_date l = l).
Proof.
  split; [|split].
  - induction l as [|x l IH]; [reflexivity|].
    cbn [sorted_by_date fold_right]. fold (sorted_by_date l).
    rewrite <- insert_by_date_permutation. now apply Permutation_skip.
  - induction l as [|x l IH]; [constructor|].
    cbn [sorted_by_date fold_right]. fold (sorted_by_date l).
    now apply insert_by_date_sorted.
  - induction l as [|x l IH]; intros Hl; [reflexivity|].
    inversion Hl as [|? ? Hl' Hhd]; subst.
    cbn [sorted_by_date fold_right]. fold (sorted_by_date l).
    rewrite (IH Hl'). destruct Hhd as [|y l Hxy]; [reflexivity|].
    cbn [insert_by_date]. unfold date_le in Hxy. now rewrite Hxy.
Qed.

End ScoreShape.

(** * Predictions per event type *)

Section Predictions.

Import Analyzer AnalyzerNotions PredictionNotions.
Local Open Scope Q_scope.

Lemma existsb_eqb_In (x : string) (seen : list string) :
  existsb (String.eqb x) seen = true <-> In x seen.
Proof.
  rewrite existsb_exists. split.
  - intros (y & Hin & Heq). apply String.eqb_eq in Heq. now subst.
  - intros Hin. exists x. split; [exact Hin|]. apply String.eqb_refl.
Qed.

Lemma unique_In (seen l : list string) (t : string) :
  In t (unique seen l) <-> In t l /\ ~ In t seen.
Proof.
  revert seen. induction l as [|x l IH]; intros seen; cbn [unique].
  - simpl. tauto.
  - destruct (existsb (String.eqb x) seen) eqn:E.
    + apply existsb_eqb_In in E. rewrite IH. simpl. split.
      * intros [Hin Hns]. auto.
      * intros [[->|Hin] Hns]; [contradiction|auto].
    + assert (Hx : ~ In x seen).
      { intros Hin. apply existsb_eqb_In in Hin. congruence. }
      simpl. rewrite IH. simpl. split.
      * intros [->|[Hin Hns]]; [auto|]. split; [auto|]. intros Hs. apply Hns. now right.
      * intros [[->|Hin] Hns]; [now left|].
        destruct (string_dec x t) as [->|Hne]; [now left|].
        right. split; [exact Hin|]. intros [Heq|Hs]; [now apply Hne|now apply Hns].
Qed.

Lemma prediction_fold_raise (df : DataFrame) (ts : list string) (e : Exc) :
  fold_left (prediction_step df) ts (Raise e) = Raise e.
Proof. induction ts as [|t ts IH]; [reflexivity|exact IH]. Qed.

Lemma prediction_fold (df : DataFrame) (ts : list string)
      (acc m : gmap string Prediction) :
  fold_left (prediction_step df) ts (Ok acc) = Ok m ->
  (forall t, In t ts -> exists p, predict df t = Ok p /\ m !! t = Some p) /\
  (forall t, ~ In t ts -> m !! t = acc !! t).
Proof.
  revert acc. induction ts as [|x ts IH]; intros acc H.
  - injection H as <-. split; [intros t []|reflexivity].
  - cbn [fold_left] in H. unfold prediction_step at 2 in H. cbn [res_bind] in H.
    destruct (predict df x) as [p0|e] eqn:Ex;
      [|cbn [res_bind] in H; rewrite prediction_fold_raise in H; discriminate].
    cbn [res_bind] in H. destruct (IH _ H) as [Hin Hout]. split.
    + intros t [<-|Ht]; [|now apply Hin].
      destruct (in_dec string_dec x ts) as [Hx|Hx]; [now apply Hin|].
      exists p0. split; [exact Ex|]. rewrite (Hout x Hx). now simplify_map_eq.
    + intros t Ht. rewrite Hout by (intros Hin'; apply Ht; now right).
      apply lookup_insert_ne. intros ->. apply Ht. now left.
Qed.

Lemma fold_min_max_bounds (l : list Z) (x : Z) :
  (fold_left Z.min l x <= x <= fold_left Z.max l x)%Z /\
  (forall y, In y l -> (fold_left Z.min l x <= y <= fold_left Z.max l x)%Z).
Proof.
  revert x. induction l as [|z l IH]; intros x; cbn [fold_left].
  - split; [lia|intros y []].
  - destruct (IH (Z.min x z)) as [[Hlo _] Hlo'].
    destruct (IH (Z.max x z)) as [[_ Hhi] Hhi'].
    assert (Hmono : forall a b, (a <= b)%Z ->
                       (fold_left Z.min l a <= fold_left Z.min l b)%Z /\
                       (fold_left Z.max l a <= fold_left Z.max l b)%Z).
    { clear. induction l as [|w l IH]; intros a b Hab; cbn [fold_left]; [lia|].
      split; [apply (IH (Z.min a w) (Z.min b w)) | apply (IH (Z.max a w) (Z.max b w))];
        lia. }
    destruct (Hmono (Z.min x z) x ltac:(lia)) as [Hm1 _].
    destruct (Hmono x (Z.max x z) ltac:(lia)) as [_ Hm2].
    destruct (Hmono z (Z.max x z) ltac:(lia)) as [_ Hm3].
    destruct (Hmono (Z.min x z) z ltac:(lia)) as [Hm4 _].
    split; [lia|].
    intros y [<-|Hy].
    + destruct (IH z) as [[? ?] _]. lia.
    + specialize (Hlo' y Hy). specialize (Hhi' y Hy). lia.
Qed.

Lemma Zsum_from_bounds (lo hi : Z) (l : list Z) (a : Z) :
  (forall y, In y l -> (lo <= y <= hi)%Z) ->
  (a + Z.of_nat (length l) * lo <= fold_left Z.add l a
   <= a + Z.of_nat (length l) * hi)%Z.
Proof.
  revert a. induction l as [|x l IH]; intros a H; cbn [fold_left length].
  - lia.
  - assert (Hx : (lo <= x <= hi)%Z) by (apply H; now left).
    specialize (IH (a + x)%Z (fun y Hy => H y (or_intror Hy))). lia.
Qed.

Lemma mean_between (lo hi s n : Z) :
  (0 < n)%Z -> (n * lo <= s <= n * hi)%Z ->
  inject_Z lo <= inject_Z s / inject_Z n <= inject_Z hi.
Proof.
  intros Hn [Hlo Hhi].
  assert (Hq : 0 < inject_Z n).
  { change 0 with (inject_Z 0). now rewrite <- Zlt_Qlt. }
  split.
  - apply Qle_shift_div_l; [exact Hq|]. rewrite <- inject_Z_mult, <- Zle_Qle. lia.
  - apply Qle_shift_div_r; [exact Hq|]. rewrite <- inject_Z_mult, <- Zle_Qle. lia.
Qed.

Lemma present_In {A : Type} (f : Row -> option A) (rows : list Row) (row : Row) (a : A) :
  In row rows -> f row = Some a -> In a (present (map f rows)).
Proof.
  intros Hin Hf. unfold present.
  apply list_elem_of_In, list_elem_of_omap. exists (f row). split.
  - apply list_elem_of_In, in_map, Hin.
  - simpl. exact Hf.
Qed.

Lemma predict_ok (df : DataFrame) (t : string) (p : Prediction) :
  predict df t = Ok p -> prediction_of df t p.
Proof.
  unfold predict, prediction_of. fold (rows_of_type df t).
  set (rows := rows_of_type df t).
  set (actuals := present (map Actual_Attendance rows)).
  unfold div.
  destruct (Qeq_bool (inject_Z (Z.of_nat (length actuals))) 0) eqn:En; [discriminate|].
  cbn [res_bind].
  destruct (Qeq_bool (inject_Z (Py.Zsum (present (map Expected_Attendance rows)))) 0);
    [discriminate|].
  cbn [res_bind].
  destruct actuals as [|x l] eqn:Ea; [discriminate|].
  cbn [Zminimum Zmaximum res_bind].
  destruct (fold_min_max_bounds l x) as [Hx Hl].
  assert (Hall : forall y, In y (x :: l) ->
                   (fold_left Z.min l x <= y <= fold_left Z.max l x)%Z).
  { intros y [<-|Hy]; [exact Hx|now apply Hl]. }
  assert (Hrows : rows <> []).
  { intros Hnil. subst actuals. rewrite Hnil in Ea. discriminate. }
  assert (Hmoney :
    forall money,
      (if existsb (fun row => bool_decide (is_Some (Total_Budget row))) rows then
         let budget_data := filter (fun row => is_Some (Total_Budget row)) rows in
         let budgets := present (map Total_Budget budget_data) in
         (mean_budget <- (if Qeq_bool (inject_Z (Z.of_nat (length budgets))) 0
                          then Raise ZeroDivisionError
                          else Ok (Py.Qsum budgets / inject_Z (Z.of_nat (length budgets)))) ;;
          cpa <- (if Qeq_bool (inject_Z (Py.Zsum (present (map Actual_Attendance budget_data)))) 0
                  then Raise ZeroDivisionError
                  else Ok (Py.Qsum budgets
                           / inject_Z (Py.Zsum (present (map Actual_Attendance budget_data))))) ;;
          Ok (Some (Py.round mean_budget 2), Some (Py.round cpa 2)))%res
       else Ok (None, None)) = Ok money ->
      (is_Some (fst money) <-> is_Some (snd money)) /\
      (is_Some (fst money) <-> exists row, In row rows /\ is_Some (Total_Budget row))).
  { intros money.
    destruct (existsb _ rows) eqn:Eany.
    - apply existsb_exists in Eany as (row & Hin & Hrow).
      apply bool_decide_eq_true in Hrow. cbv zeta.
      repeat match goal with
             | |- context [if Qeq_bool ?a 0 then _ else _] =>
                 destruct (Qeq_bool a 0); [discriminate|]; cbn [res_bind]
             end.
      intros H. injection H as <-. simpl. split; split; eauto.
    - intros H. injection H as <-. simpl. split; split;
        try (intros [? ?]; discriminate).
      intros (row & Hin & Hrow).
      assert (existsb (fun row => bool_decide (is_Some (Total_Budget row))) rows = true).
      { apply existsb_exists. exists row. split; [exact Hin|].
        now apply bool_decide_eq_true. }
      congruence. }
  match goal with
  | |- context [res_bind ?r _] => destruct r as [money|] eqn:Em; [|discriminate]
  end.
  cbn [res_bind]. intros H. injection H as <-.
  cbn [sample_size min_attendance max_attendance pred_avg_attendance avg_budget
       pred_avg_cost_per_attendee].
  destruct (Hmoney money eq_refl) as [Hm1 Hm2].
  split; [reflexivity|]. split.
  { destruct rows; [congruence|]. cbn [length]. lia. }
  split; [lia|]. split.
  { apply round_bounds. apply mean_between.
    - cbn [length]. lia.
    - pose proof (Zsum_from_bounds _ _ (x :: l) 0 Hall) as Hs.
      rewrite !Z.add_0_l in Hs. exact Hs. }
  split; [|split; assumption].
  intros row a Hin Ha. apply Hall. rewrite <- Ea. subst actuals.
  now apply (present_In Actual_Attendance rows row a).
Qed.

(** What [generate_predictions] holds for an event type. *)
Lemma prediction_lookup (df : DataFrame) (preds : gmap string Prediction) :
  generate_predictions df = Ok preds ->
  forall t,
    match preds !! t with
    | Some p => predict df t = Ok p /\ exists row, In row df /\ Event_Type row = t
    | None => ~ exists row, In row df /\ Event_Type row = t
    end.
Proof.
  unfold generate_predictions. intros H t.
  change (fold_left (prediction_step df) (unique [] (map Event_Type df)) (Ok ∅)
          = Ok preds) in H.
  apply prediction_fold in H as [Hin Hout].
  assert (Hkey : In t (unique [] (map Event_Type df)) <->
                 exists row, In row df /\ Event_Type row = t).
  { rewrite unique_In, in_map_iff. split.
    - intros [(row & Ht & Hrow) _]. eauto.
    - intros (row & Hrow & Ht). split; [eauto|intros []]. }
  destruct (in_dec string_dec t (unique [] (map Event_Type df))) as [Ht|Ht].
  - destruct (Hin t Ht) as (p & Hok & ->). split; [exact Hok|]. now apply Hkey.
  - rewrite (Hout t Ht), lookup_empty. intros Hrow. now apply Ht, Hkey.
Qed.

(** X17.  [generate_predictions] makes one prediction for each event
    type that occurs in the dataset and for no other.  The prediction of a
    type counts the rows of that type, its minimum and maximum bound the
    attendance of each of these rows and the predicted average, and its two
    budget entries are present together, exactly when a row of the type has
    a budget. *)
Theorem predictions_cover_event_types (df : DataFrame) (preds : gmap string Prediction) :
  generate_predictions df = Ok preds ->
  (forall t, is_Some (preds !! t) <-> exists row, In row df /\ Event_Type row = t) /\
  (forall t p, preds !! t = Some p -> prediction_of df t p).
Proof.
  intros H. split.
  - intros t. pose proof (prediction_lookup df preds H t) as Ht.
    destruct (preds !! t) as [p|].
    + split; [intros _; apply Ht|eauto].
    + split; [intros [? ?]; discriminate|intros Hrow; contradiction].
  - intros t p Hp. pose proof (prediction_lookup df preds H t) as Ht.
    rewrite Hp in Ht. apply predict_ok, Ht.
Qed.

Lemma predictions_cover_event_types_witness :
  exists preds,
    generate_predictions season = Ok preds /\
    (forall t, is_Some (preds !! t) <-> exists row, In row season /\ Event_Type row = t).
Proof.
  destruct (generate_predictions season) as [preds|e] eqn:E.
  - exists preds. split; [reflexivity|].
    exact (proj1 (predictions_cover_event_types season preds E)).
  - vm_compute in E. discriminate E.
Defined.

End Predictions.

Section EventTypeCounts.

Import Analyzer AnalyzerNotions PredictionNotions.

Lemma rows_of_type_cons (row : Row) (df : DataFrame) (t : string) :
  rows_of_type (row :: df) t
  = if decide (Event_Type row = t) then row :: rows_of_type df t else rows_of_type df t.
Proof. unfold rows_of_type. now rewrite filter_cons. Qed.

Lemma value_counts_from (df : DataFrame) (m : gmap string Z) (t : string) :
  fold_left (fun m t => <[t := (default 0 (m !! t) + 1)%Z]> m) (map Event_Type df) m !! t
  = match length (rows_of_type df t) with
    | O => m !! t
    | S n => Some (default 0 (m !! t) + Z.of_nat (S n))%Z
    end.
Proof.
  revert m. induction df as [|row df IH]; intros m; [reflexivity|].
  cbn [map fold_left]. rewrite IH, rows_of_type_cons.
  destruct (decide (Event_Type row = t)) as [->|Hne].
  - rewrite lookup_insert_eq. cbn [length default].
    destruct (length (rows_of_type df t)); apply (f_equal Some); unfold id; lia.
  - rewrite lookup_insert_ne by exact Hne. reflexivity.
Qed.

Lemma value_counts_lookup (df : DataFrame) (t : string) :
  value_counts (map Event_Type df) !! t
  = match length (rows_of_type df t) with
    | O => None
    | S n => Some (Z.of_nat (S n))
    end.
Proof.
  unfold value_counts. rewrite value_counts_from, lookup_empty.
  destruct (length (rows_of_type df t)); [reflexivity|]. cbn [default].
  apply (f_equal Some). lia.
Qed.

Lemma prepare_data_summary_types (demographics : option (gmap string Z))
      (df : DataFrame) (summary : Summary) :
  prepare_data_summary demographics df = Ok summary ->
  event_types summary = value_counts (map Event_Type df).
Proof.
  unfold prepare_data_summary.
  destruct df as [|row df]; [discriminate|].
  cbn [map].
  repeat match goal with
         | |- context [res_bind ?r _] =>
             let E := fresh "E" in
             destruct r eqn:E; simpl; [|discriminate]
         end.
  intros H. injection H as <-. reflexivity.
Qed.

(** X23.  The summary and the predictions agree on the event types: an
    event type has a count in the summary exactly when it has a
    prediction, the count is the number of rows of that type, and it is
    the sample size of the prediction. *)
Theorem sample_sizes_match_event_types
        (demographics : option (gmap string Z)) (df : DataFrame)
        (summary : Summary) (preds : gmap string Prediction) :
  prepare_data_summary demographics df = Ok summary ->
  generate_predictions df = Ok preds ->
  forall t,
    event_types summary !! t = option_map sample_size (preds !! t) /\
    (forall n, event_types summary !! t = Some n ->
               n = Z.of_nat (length (rows_of_type df t)) /\ (0 < n)%Z).
Proof.
  intros Hs Hp t. rewrite (prepare_data_summary_types _ _ _ Hs), value_counts_lookup.
  pose proof (prediction_lookup df preds Hp t) as Hlook.
  split.
  - destruct (preds !! t) as [p|] eqn:Ep; cbn [option_map].
    + destruct Hlook as [Hok _].
      apply predict_ok in Hok as (Hsize & Hpos & _). rewrite Hsize in *.
      destruct (length (rows_of_type df t)); [lia|reflexivity].
    + destruct (length (rows_of_type df t)) eqn:El; [reflexivity|].
      exfalso. apply Hlook.
      destruct (rows_of_type df t) as [|row rows] eqn:Er; [discriminate|].
      exists row. assert (Hin : row ∈ rows_of_type df t) by (rewrite Er; left).
      unfold rows_of_type in Hin. apply list_elem_of_filter in Hin as [Ht Hin].
      split; [now apply list_elem_of_In|exact Ht].
  - intros n Hn. destruct (length (rows_of_type df t)); [discriminate|].
    injection Hn as <-. split; [reflexivity|lia].
Qed.

Lemma sample_sizes_match_event_types_witness :
  exists summary preds,
    prepare_data_summary None season = Ok summary /\
    generate_predictions season = Ok preds /\
    event_types summary !! "Cultural" = option_map sample_size (preds !! "Cultural").
Proof.
  destruct (prepare_data_summary None season) as [summary|e] eqn:Es.
  - destruct (generate_predictions season) as [preds|e] eqn:Ep.
    + exists summary, preds. split; [reflexivity|]. split; [reflexivity|].
      exact (proj1 (sample_sizes_match_event_types None season summary preds Es Ep
                                                    "Cultural")).
    + vm_compute in Ep. discriminate Ep.
  - vm_compute in Es. discriminate Es.
Defined.

End EventTypeCounts.

(** * Further properties of the report pipeline *)

Section PipelineOutcomes.

Import Analyzer Spec Scenario PipelineNotions.

Lemma bind_returns_ok {A : Type} (m : M A) (f : A -> M unit) (s : State) (P : Prop) :
  (forall a s', m s = (Ok a, s') -> fst (f a s') = Ok tt -> P) ->
  fst (bind m f s) = Ok tt -> P.
Proof.
  intros H. unfold bind. destruct (m s) as [[a|e] s'] eqn:E.
  - now apply H.
  - discriminate.
Qed.

Lemma load_event_data_returns (env : Env) (filepath : string) (s : State) :
  exists loaded s',
    load_event_data env filepath s = (Ok loaded, s') /\
    (is_Some loaded <-> loadable (dataset env) = true).
Proof.
  unfold load_event_data, loadable.
  destruct (dataset env) as [| |df|df [demo|]]; cbn; eexists _, _;
    (split; [reflexivity|]); split; try reflexivity; eauto;
    try discriminate; intros [? ?]; discriminate.
Qed.

Lemma analyze_with_ai_returns (env : Env) (data_summary : Summary) (s : State) :
  exists p s',
    analyze_with_ai env data_summary s
    = (Ok (match create env p with
           | ApiResponse (content :: _) => content
           | _ => None
           end), s') /\
    budget_section p = bool_decide (is_Some (total_budget data_summary)) /\
    demographics_section p = bool_decide (is_Some (demographics data_summary)) /\
    prompt_summary p = data_summary /\
    prompt_org_name p = org_name env.
Proof.
  unfold analyze_with_ai, bind. cbn [print].
  match goal with
  | |- context [create env ?p] =>
      exists p; destruct (create env p) as [e|[|content choices]]
  end; cbn; eexists; repeat split.
Qed.

(** X18.  The two steps of a run that depend on the outside world never
    raise: [load_event_data] returns a frame exactly when the dataset file
    can be read (with or without an 'Events' sheet), and
    [analyze_with_ai] returns the content of the first choice of the
    response, or [None] when the service raised or gave no choice.  The
    request names the organization, carries the summary, and asks for the
    budget and the demographics sections exactly when the summary has a
    total budget and demographics. *)
Theorem outside_failures_become_none :
  (forall env filepath s,
      exists loaded s',
        load_event_data env filepath s = (Ok loaded, s') /\
        (is_Some loaded <-> loadable (dataset env) = true)) /\
  (forall env data_summary s,
      exists p s',
        analyze_with_ai env data_summary s
        = (Ok (match create env p with
               | ApiResponse (content :: _) => content
               | _ => None
               end), s') /\
        budget_section p = bool_decide (is_Some (total_budget data_summary)) /\
        demographics_section p = bool_decide (is_Some (demographics data_summary)) /\
        prompt_summary p = data_summary /\
        prompt_org_name p = org_name env).
Proof.
  split.
  - exact load_event_data_returns.
  - exact analyze_with_ai_returns.
Qed.

(** X19.  [run_analysis] returns normally only when it stopped early:
    the dataset could not be loaded, or the service gave no narrative for
    some request.  A run that gets a narrative never returns normally. *)
Theorem run_returns_only_when_stopped_early (env : Env) (filepath : string) (st : State) :
  fst (run_analysis env filepath st) = Ok tt ->
  loadable (dataset env) = false \/ exists p, no_narrative (create env p).
Proof.
  unfold run_analysis, run_analysis_with.
  do 4 (apply bind_returns_ok; intros _ ? _).
  apply bind_returns_ok. intros loaded s0 Hl.
  match type of Hl with
  | load_event_data _ _ ?s = _ =>
      destruct (load_event_data_returns env filepath s) as (loaded' & s0' & Hl' & Hiff)
  end.
  rewrite Hl' in Hl. injection Hl as -> ->.
  destruct loaded as [df|].
  2:{ intros _. left. destruct (loadable (dataset env)); [|reflexivity].
      destruct (proj2 Hiff eq_refl) as [? ?]. discriminate. }
  apply bind_returns_ok; intros _ ? _.
  apply bind_returns_ok; intros demographics ? _.
  apply bind_returns_ok; intros data_summary ? _.
  do 2 (apply bind_returns_ok; intros _ ? _).
  apply bind_returns_ok; intros predictions s1 _.
  apply bind_returns_ok. intros insights s2 Ha.
  destruct (analyze_with_ai_returns env data_summary s1) as (p & s2' & Ha' & _).
  rewrite Ha' in Ha. injection Ha as Hins _.
  destruct insights as [text|].
  - do 5 (apply bind_returns_ok; intros _ ? _).
    unfold bind at 1. rewrite save_results_raises. discriminate.
  - intros _. right. exists p.
    destruct (create env p) as [e|[|[text|] choices]]; simpl; try exact I.
    discriminate.
Qed.

Lemma run_returns_only_when_stopped_early_witness :
  loadable (dataset (env_with (ApiRaises "timeout"))) = false \/
  exists p, no_narrative (create (env_with (ApiRaises "timeout")) p).
Proof.
  apply (run_returns_only_when_stopped_early
           (env_with (ApiRaises "timeout")) default_filepath initial_state).
  vm_compute. reflexivity.
Defined.

End PipelineOutcomes.

Section MainProgram.

Import Analyzer Spec Scenario PipelineNotions.

Variable P : Line -> Prop.

Lemma prints_only_bind {A C : Type} (m : M A) (f : A -> M C) :
  prints_only P m -> (forall a, prints_only P (f a)) -> prints_only P (bind m f).
Proof.
  intros Hm Hf s. unfold bind. destruct (Hm s) as (l1 & H1 & HP1).
  destruct (m s) as [[a|e] s']; cbn [snd] in *.
  - destruct (Hf a s') as (l2 & H2 & HP2). exists (l1 ++ l2). split.
    + now rewrite H2, H1, app_assoc.
    + now apply Forall_app.
  - exists l1. split; assumption.
Qed.

Lemma prints_only_stops {A C : Type} (m : M A) (f : A -> M C) :
  (forall s, exists e, m s = (Raise e, s)) -> prints_only P (bind m f).
Proof.
  intros Hm s. unfold bind. destruct (Hm s) as [e ->].
  exists []. split; [now rewrite app_nil_r|constructor].
Qed.

Lemma prints_only_catch {A : Type} (m : M A) (handler : Exc -> M A) :
  prints_only P m -> (forall e, prints_only P (handler e)) ->
  prints_only P (catch m handler).
Proof.
  intros Hm Hh s. unfold catch. destruct (Hm s) as (l1 & H1 & HP1).
  destruct (m s) as [[a|e] s']; cbn [snd] in *.
  - exists l1. split; assumption.
  - destruct (Hh e s') as (l2 & H2 & HP2). exists (l1 ++ l2). split.
    + now rewrite H2, H1, app_assoc.
    + now apply Forall_app.
Qed.

Lemma prints_only_print (l : Line) : P l -> prints_only P (print l).
Proof. intros Hl s. exists [l]. split; [reflexivity|]. now constructor. Qed.

Lemma prints_only_silent {A : Type} (m : M A) :
  (forall s, stdout (snd (m s)) = stdout s) -> prints_only P m.
Proof.
  intros Hm s. exists []. split; [now rewrite app_nil_r|constructor].
Qed.

End MainProgram.

Section Completion.

Import Analyzer Spec Scenario PipelineNotions.

Ltac quiet :=
  repeat first
    [ apply prints_only_bind; [|intros ?]
    | apply prints_only_print; simpl; intuition discriminate
    | apply prints_only_silent; intros ?; reflexivity ].

Lemma load_event_data_quiet (env : Env) (filepath : string) :
  prints_only (fun l => ~ completion_line l) (load_event_data env filepath).
Proof.
  unfold load_event_data.
  destruct (dataset env) as [| |df|df [demo|]]; quiet.
Qed.

Lemma analyze_with_ai_quiet (env : Env) (data_summary : Summary) :
  prints_only (fun l => ~ completion_line l) (analyze_with_ai env data_summary).
Proof.
  unfold analyze_with_ai.
  apply prints_only_bind; [quiet|]. intros _.
  match goal with
  | |- context [create env ?p] => destruct (create env p) as [e|[|content choices]]
  end; quiet.
Qed.

Lemma quick_stats_quiet (data_summary : Summary) :
  prints_only (fun l => ~ completion_line l) (quick_stats data_summary).
Proof.
  unfold quick_stats, raise.
  destruct (total_budget data_summary), (cost_per_attendee data_summary); quiet.
Qed.

Lemma run_analysis_quiet (env : Env) (filepath : string) :
  prints_only (fun l => ~ completion_line l) (run_analysis env filepath).
Proof.
  unfold run_analysis, run_analysis_with, rule.
  do 4 (apply prints_only_bind; [quiet|intros _]).
  apply prints_only_bind; [apply load_event_data_quiet|]. intros [df|]; [|quiet].
  apply prints_only_bind; [quiet|intros _].
  apply prints_only_bind; [quiet|intros demographics].
  apply prints_only_bind; [quiet|intros data_summary].
  apply prints_only_bind; [apply quick_stats_quiet|intros _].
  apply prints_only_bind; [quiet|intros _].
  apply prints_only_bind; [quiet|intros predictions].
  apply prints_only_bind; [apply analyze_with_ai_quiet|]. intros [text|]; [|quiet].
  do 5 (apply prints_only_bind; [quiet|intros _]).
  apply prints_only_stops. intros s. rewrite save_results_raises. eauto.
Qed.

Lemma main_quiet (env : Env) :
  prints_only (fun l => ~ completion_line l) (main env).
Proof.
  unfold main. apply prints_only_catch.
  - apply prints_only_bind; [|intros _; apply run_analysis_quiet].
    unfold init, raise. destruct (api_key _) as [key|]; [destruct (String.eqb key "")|];
      quiet.
  - intros e. quiet.
Qed.

(** X20.  No run announces a finished analysis.  Whatever the dataset
    and the service, [run_analysis] and [main] only add lines to standard
    output, and none of the lines they add is the score line, a "Results
    saved" line, "Analysis complete!" or the invitation to open the
    dashboard. *)
Theorem no_run_announces_completion :
  (forall env filepath, prints_only (fun l => ~ completion_line l)
                                    (run_analysis env filepath)) /\
  (forall env, prints_only (fun l => ~ completion_line l) (main env)).
Proof.
  split.
  - exact run_analysis_quiet.
  - exact main_quiet.
Qed.

Lemma handler_returns (e : Exc) (s : State) :
  (print (MainError e) ;;;
   print (Text "Troubleshooting:") ;;;
   print (Text "1. Make sure you have a .env file with your OPENAI_API_KEY") ;;;
   print (Text "2. Run 'pip install -r requirements.txt' to install dependencies") ;;;
   print (Text "3. Run 'python src/extract_events.py' first to compile event data"))%io s
  = (Ok tt, printed (error_report e) s).
Proof.
  unfold bind, print, printed, error_report. cbn.
  now rewrite <- !app_assoc.
Qed.

(** X21.  [main] never lets an exception escape: it always returns
    normally.  An exception of the run is reported, followed by the four
    troubleshooting lines, as the last thing printed.  When the API key is
    missing or empty nothing else happens: the report of the [ValueError]
    is all that is printed, no dataset is read and nothing is written. *)
Theorem main_reports_every_error :
  (forall env st, fst (main env st) = Ok tt) /\
  (forall env st e s',
      ~ missing_key env ->
      run_analysis (with_org_name "Society of Indian Americans" env)
                   default_filepath st = (Raise e, s') ->
      main env st = (Ok tt, printed (error_report e) s')) /\
  (forall env st,
      missing_key env ->
      main env st
      = (Ok tt, printed (error_report
                           (ValueError "OPENAI_API_KEY not found in .env file!")) st)).
Proof.
  split; [|split].
  - intros env st. unfold main, catch.
    match goal with |- context [match ?m with _ => _ end] => destruct m as [[[]|e] s'] end.
    + reflexivity.
    + now rewrite handler_returns.
  - intros env st e s' Hkey Hrun. unfold main, catch.
    assert (Hinit : init (with_org_name "Society of Indian Americans" env) st = (Ok tt, st)).
    { unfold init, with_org_name, missing_key in *. cbn [api_key].
      destruct (api_key env) as [key|]; [|exfalso; apply Hkey; now left].
      destruct (String.eqb_spec key ""); [|reflexivity].
      exfalso. apply Hkey. right. congruence. }
    rewrite (bind_ok _ _ _ _ _ Hinit), Hrun. apply handler_returns.
  - intros env st Hkey. unfold main, catch.
    assert (Hinit : init (with_org_name "Society of Indian Americans" env) st
                    = (Raise (ValueError "OPENAI_API_KEY not found in .env file!"), st)).
    { unfold init, with_org_name, missing_key in *. cbn [api_key].
      destruct Hkey as [->| ->]; reflexivity. }
    unfold bind at 1. rewrite Hinit. apply handler_returns.
Qed.

(** X24.  The quick statistics of a run never fail on a summary made by
    [prepare_data_summary]: they read the cost per attendee whenever the
    summary has a total budget, and the summary then has it.  They print
    the header and four lines, and two more when there is a budget. *)
Theorem quick_stats_never_fail
        (demographics : option (gmap string Z)) (df : DataFrame) (summary : Summary)
        (st : State) :
  prepare_data_summary demographics df = Ok summary ->
  exists lines,
    quick_stats summary st = (Ok tt, printed lines st) /\
    length lines = match total_budget summary with Some _ => 7%nat | None => 5%nat end.
Proof.
  intros H.
  pose proof (budget_has_cost demographics df summary H) as Hcost.
  unfold quick_stats.
  destruct (total_budget summary) as [b|].
  - destruct Hcost as [c Hc]; [eauto|]. rewrite Hc.
    eexists [_; _; _; _; _; _; _]. split; [|reflexivity].
    unfold bind, print, printed. cbn. now rewrite <- !app_assoc.
  - eexists [_; _; _; _; _]. split; [|reflexivity].
    unfold bind, print, printed, ret. cbn. now rewrite <- !app_assoc.
Qed.

Lemma quick_stats_never_fail_witness :
  exists summary lines,
    prepare_data_summary None AnalyzerNotions.season = Ok summary /\
    quick_stats summary initial_state = (Ok tt, printed lines initial_state).
Proof.
  destruct (prepare_data_summary None AnalyzerNotions.season) as [summary|e] eqn:E.
  - destruct (quick_stats_never_fail None AnalyzerNotions.season summary initial_state E)
      as (lines & Hlines & _).
    exists summary, lines. split; [reflexivity|exact Hlines].
  - vm_compute in E. discriminate E.
Defined.

End Completion.

(** * The one-click script *)

Section OneClick.

Import RunScript.

Lemma setup_complete_not_in_summary (result : CompletedProcess) :
  ~ In setup_complete (summary_of result).
Proof.
  unfold summary_of. rewrite in_app_iff, in_map_iff.
  intros [(x & Hx & _)|H]; [discriminate|].
  destruct (20 <? _)%nat; simpl in H; [destruct H as [H|[]]; discriminate|exact H].
Qed.

Lemma setup_complete_not_in_extraction (p : Project) :
  ~ In setup_complete (extraction p).
Proof.
  unfold extraction.
  destruct (extract_script p) as [result|]; [destruct (returncode result =? 0)%Z|];
    simpl; unfold setup_complete; intuition discriminate.
Qed.

Lemma echoed_summary (result : CompletedProcess) :
  echoed result = firstn 20 (split newline (stdout result)).
Proof.
  unfold echoed, summary_of. rewrite omap_app.
  set (lines := firstn 20 _).
  assert (H1 : omap (fun o => match o with Echo text => Some text | _ => None end)
                    (map Echo lines) = lines).
  { induction lines as [|l lines IH]; [reflexivity|]. csimpl. now rewrite IH. }
  rewrite H1. destruct (20 <? _)%nat; csimpl; apply app_nil_r.
Qed.

(** X22.  The one-click script opens the dashboard exactly when the
    analyzer script exists, ended with return code 0 and the dashboard
    file exists; otherwise it opens nothing.  What the extraction step did
    (missing script, failure, success) changes neither this nor whether
    the script goes on.  "Setup complete! The dashboard should be open in
    your browser." is printed exactly when the analysis succeeded, also
    when the dashboard file is missing and nothing was opened.  Of the
    analyzer's output at most the first 20 lines are repeated. *)
Theorem dashboard_opens_iff_analysis_succeeded :
  (forall p,
      opened (main p)
      = if dashboard_exists p then
          match analyzer_script p with
          | Some result => if (returncode result =? 0)%Z then [dashboard_uri p] else []
          | None => []
          end
        else []) /\
  (forall p, opened (main p) = [dashboard_uri p] <->
             analysis_succeeded p /\ dashboard_exists p = true) /\
  (forall p x, opened (main (with_extraction x p)) = opened (main p)) /\
  (forall p, In setup_complete (output (main p)) <-> analysis_succeeded p) /\
  (forall result,
      echoed result = firstn 20 (split newline (stdout result)) /\
      (length (echoed result) <= 20)%nat).
Proof.
  assert (Hopened : forall p,
      opened (main p)
      = if dashboard_exists p then
          match analyzer_script p with
          | Some result => if (returncode result =? 0)%Z then [dashboard_uri p] else []
          | None => []
          end
        else []).
  { intros p. unfold main.
    destruct (analyzer_script p) as [result|];
      [destruct (returncode result =? 0)%Z|]; destruct (dashboard_exists p); reflexivity. }
  split; [exact Hopened|]. split; [|split; [|split]].
  - intros p. rewrite Hopened. unfold analysis_succeeded.
    destruct (dashboard_exists p).
    + destruct (analyzer_script p) as [result|].
      * destruct (Z.eqb_spec (returncode result) 0) as [H|H].
        -- split; [eauto|reflexivity].
        -- split; [discriminate|]. intros [(r & Hr & H0) _].
           injection Hr as <-. contradiction.
      * split; [discriminate|]. intros [(r & Hr & _) _]. discriminate.
    + split; [discriminate|]. intros [_ H]. discriminate.
  - intros p x. rewrite !Hopened. reflexivity.
  - intros p. unfold main, analysis_succeeded.
    pose proof (setup_complete_not_in_extraction p) as Hx.
    destruct (analyzer_script p) as [result|].
    + pose proof (setup_complete_not_in_summary result) as Hs.
      destruct (Z.eqb_spec (returncode result) 0) as [H|H].
      * split; [eauto|]. intros _.
        destruct (dashboard_exists p); cbn [output];
          apply in_or_app; right; apply in_or_app; right; simpl; auto.
      * split.
        -- cbn [output]. rewrite !in_app_iff. unfold setup_complete in *. simpl.
           intuition discriminate.
        -- intros (r & Hr & H0). injection Hr as <-. contradiction.
    + split.
      * cbn [output]. rewrite !in_app_iff. unfold setup_complete in *. simpl.
        intuition discriminate.
      * intros (r & Hr & _). discriminate.
  - intros result. rewrite echoed_summary. split; [reflexivity|].
    rewrite length_firstn. lia.
Qed.

End OneClick.
